(** * grd_reader: the GRD parser and its lookup layer

    A shallow embedding of [src/grd_reader/__init__.py]: the classes
    [CurveData] and [GraphData], the line loop of [read_grd] and the
    lookups [GraphData.__getitem__], [GraphData.curve], [GraphData.unit].

    Modelling choices.
    - A Python [str] is a [string]: a sequence of characters whose code
      points lie in 0..255.  Whitespace and line boundaries are the ones
      Python knows in that range.
    - A Python [int] is a [Z]; a Python [float] is an IEEE-754 binary64
      value, a [spec_float] of the standard library with precision 53 and
      maximal exponent 1024, rounded to nearest even.
    - An exception ends the parse: it is the [Err] case of [result].
    - A numpy array is an [ndarray]: zero-, one- or two-dimensional.
    - [read_grd] takes the decoded text of the file; a file that cannot
      be opened or decoded is outside the model, and so is the
      interpreter's configurable bound on the number of digits [int]
      accepts.
    - The parser is given twice.  First as a function on values, in which
      the lists and instances the code updates in place are passed from
      line to line; the properties of the parse are stated on it.  Then,
      in [Store], as a computation on an explicit heap of objects, in
      which the same updates are made in place through references; it is
      shown to compute the same values, whatever the heap holds
      before. *)

From Stdlib Require Import ZArith List Bool Lia Ascii String QArith.
From Stdlib Require Import DecimalString DecimalPos SpecFloat.
Import ListNotations.

Local Open Scope string_scope.
Local Open Scope Z_scope.

(** ** Exceptions and the error monad *)

Inductive exn : Type :=
| IndexError
| ValueError.

Inductive result (A : Type) : Type :=
| OK (a : A)
| Err (e : exn).

Arguments OK {A} a.
Arguments Err {A} e.

Definition bind {A B : Type} (r : result A) (k : A -> result B) : result B :=
  match r with
  | OK a => k a
  | Err e => Err e
  end.

Notation "'let*' x ':=' r 'in' k" := (bind r (fun x => k))
  (at level 10, x name, r at level 100, k at level 200).


(** ** Python sequences *)

Module Py.

(** [l[i]] with Python's negative indices; [IndexError] out of range. *)
Definition getitem {A : Type} (l : list A) (i : Z) : result A :=
  let n := Z.of_nat (List.length l) in
  let j := if i <? 0 then i + n else i in
  if (j <? 0) || (n <=? j) then Err IndexError
  else match nth_error l (Z.to_nat j) with
       | Some a => OK a
       | None => Err IndexError
       end.

(** [l.index(x)]: the first position of [x]; [ValueError] when absent. *)
Fixpoint index_from (l : list string) (x : string) (i : Z) : result Z :=
  match l with
  | [] => Err ValueError
  | y :: l' => if String.eqb y x then OK i else index_from l' x (i + 1)
  end.

Definition index (l : list string) (x : string) : result Z := index_from l x 0.

(** ** Python strings *)

Definition code (c : ascii) : N := N_of_ascii c.

(** [str.isspace] on one character, code points 0..255. *)
Definition isspace (c : ascii) : bool :=
  let n := code c in
  ((9 <=? n) && (n <=? 13) || (28 <=? n) && (n <=? 32)
   || (n =? 133) || (n =? 160))%N.

(** The line boundaries of [str.splitlines], code points 0..255. *)
Definition is_linebreak (c : ascii) : bool :=
  let n := code c in
  ((10 <=? n) && (n <=? 13) || (28 <=? n) && (n <=? 30) || (n =? 133))%N.

Definition LF : ascii := ascii_of_N 10.
Definition CR : ascii := ascii_of_N 13.

Definition is_empty (s : string) : bool :=
  match s with EmptyString => true | String _ _ => false end.

Definition snoc (s : string) (c : ascii) : string := s ++ String c "".

(** Text mode with universal newlines: [\r\n] and [\r] are read as [\n]. *)
Fixpoint universal_newlines_from (prev_cr : bool) (s : string) : string :=
  match s with
  | EmptyString => EmptyString
  | String c s' =>
      if Ascii.eqb c CR then String LF (universal_newlines_from true s')
      else if Ascii.eqb c LF && prev_cr then universal_newlines_from false s'
      else String c (universal_newlines_from false s')
  end.

Definition universal_newlines (s : string) : string :=
  universal_newlines_from false s.

(** [s.splitlines()]: [cur] is the line being read, [prev_cr] tells that
    the previous character was a carriage return. *)
Fixpoint splitlines_from (cur : string) (prev_cr : bool) (s : string)
  : list string :=
  match s with
  | EmptyString => if is_empty cur then [] else [cur]
  | String c s' =>
      if Ascii.eqb c LF && prev_cr then splitlines_from cur false s'
      else if is_linebreak c
           then cur :: splitlines_from "" (Ascii.eqb c CR) s'
           else splitlines_from (snoc cur c) false s'
  end.

Definition splitlines (s : string) : list string := splitlines_from "" false s.

(** [s.startswith(p)] *)
Definition startswith (s p : string) : bool := String.prefix p s.

(** [s.split(sep, maxsplit)] for a one-character separator; [None] is no
    limit. *)
Fixpoint split_on (sep : ascii) (maxsplit : option nat) (s : string)
  : list string :=
  match maxsplit with
  | Some O => [s]
  | _ =>
      match s with
      | EmptyString => [""]
      | String c s' =>
          if Ascii.eqb c sep
          then "" :: split_on sep (option_map Nat.pred maxsplit) s'
          else match split_on sep maxsplit s' with
               | h :: t => String c h :: t
               | [] => [String c ""]
               end
      end
  end.

(** [s.split()] and [s.split(maxsplit=n)]: runs of whitespace separate the
    words; once [n] words are taken the rest of the string, without its
    leading whitespace, is the last item.  [cur] is the word being read. *)
Fixpoint split_ws_from (maxsplit : option nat) (cur : string) (s : string)
  : list string :=
  match s with
  | EmptyString => if is_empty cur then [] else [cur]
  | String c s' =>
      if isspace c
      then if is_empty cur then split_ws_from maxsplit "" s'
           else cur :: split_ws_from maxsplit "" s'
      else if is_empty cur
           then match maxsplit with
                | Some O => [s]
                | Some (S n) => split_ws_from (Some n) (String c "") s'
                | None => split_ws_from None (String c "") s'
                end
           else split_ws_from maxsplit (snoc cur c) s'
  end.

Definition split_ws (s : string) : list string := split_ws_from None "" s.

Definition split_ws_max (n : nat) (s : string) : list string :=
  split_ws_from (Some n) "" s.

Fixpoint lstrip (s : string) : string :=
  match s with
  | EmptyString => EmptyString
  | String c s' => if isspace c then lstrip s' else s
  end.

Fixpoint rstrip (s : string) : string :=
  match s with
  | EmptyString => EmptyString
  | String c s' =>
      let r := rstrip s' in
      if is_empty r && isspace c then EmptyString else String c r
  end.

(** [s.strip()] *)
Definition strip (s : string) : string := rstrip (lstrip s).

(** The whitespace [int] and [float] drop at the two ends of their
    argument: the ASCII blanks and, beyond ASCII, the Unicode spaces.  The
    separators U+001C to U+001F, which [str.isspace] knows, are not among
    them. *)
Definition isspace_number (c : ascii) : bool :=
  let n := code c in
  ((9 <=? n) && (n <=? 13) || (n =? 32) || (n =? 133) || (n =? 160))%N.

Fixpoint lstrip_number (s : string) : string :=
  match s with
  | EmptyString => EmptyString
  | String c s' => if isspace_number c then lstrip_number s' else s
  end.

Fixpoint rstrip_number (s : string) : string :=
  match s with
  | EmptyString => EmptyString
  | String c s' =>
      let r := rstrip_number s' in
      if is_empty r && isspace_number c then EmptyString else String c r
  end.

Definition strip_number (s : string) : string :=
  rstrip_number (lstrip_number s).

(** [s.replace(a, b)] for one-character [a] and [b]. *)
Fixpoint replace (a b : ascii) (s : string) : string :=
  match s with
  | EmptyString => EmptyString
  | String c s' => String (if Ascii.eqb c a then b else c) (replace a b s')
  end.

(** ** Numbers *)

Definition is_digit (c : ascii) : bool :=
  let n := code c in ((48 <=? n) && (n <=? 57))%N.

Definition digit_val (c : ascii) : Z := Z.of_N (code c) - 48.

(** Underscores in a numeric literal stand only between two digits; they
    are dropped before the number is read.  [prev] is the previous
    character. *)
Fixpoint drop_underscores (prev : option ascii) (s : string) : option string :=
  let prev_digit := match prev with Some p => is_digit p | None => false end in
  let prev_under :=
    match prev with Some p => Ascii.eqb p "_" | None => false end in
  match s with
  | EmptyString => if prev_under then None else Some EmptyString
  | String c s' =>
      if Ascii.eqb c "_"
      then if prev_digit then drop_underscores (Some c) s' else None
      else if prev_under && negb (is_digit c) then None
           else option_map (String c) (drop_underscores (Some c) s')
  end.

(** The longest prefix of digits: its value read after [acc], how many
    digits it has, and what follows it. *)
Fixpoint digits (acc : Z) (n : Z) (s : string) : Z * Z * string :=
  match s with
  | String c s' =>
      if is_digit c then digits (10 * acc + digit_val c) (n + 1) s'
      else (acc, n, s)
  | EmptyString => (acc, n, s)
  end.

(** An optional sign: [true] for minus. *)
Definition sign (s : string) : bool * string :=
  match s with
  | String "-" s' => (true, s')
  | String "+" s' => (false, s')
  | _ => (false, s)
  end.

(** [int(s)] in base ten. *)
Definition int (s : string) : result Z :=
  match drop_underscores None (strip_number s) with
  | None => Err ValueError
  | Some t =>
      let '(neg, t1) := sign t in
      let '(v, n, rest) := digits 0 0 t1 in
      if (0 <? n) && is_empty rest
      then OK (if neg then - v else v)
      else Err ValueError
  end.

(** [f"{n:d}"] *)
Definition format_d (n : Z) : string := NilZero.string_of_int (Z.to_int n).

Definition lower (c : ascii) : ascii :=
  let n := code c in
  if ((65 <=? n) && (n <=? 90))%N then ascii_of_N (n + 32) else c.

Fixpoint lowercase (s : string) : string :=
  match s with
  | EmptyString => EmptyString
  | String c s' => String (lower c) (lowercase s')
  end.

(** binary64 *)
Definition prec : Z := 53.
Definition emax : Z := 1024.

Definition float : Type := spec_float.

(** The binary64 value nearest to [(-1)^neg * m * 10^e]. *)
Definition decimal_to_float (neg : bool) (m : Z) (e : Z) : float :=
  match m with
  | Zpos p =>
      if 0 <=? e
      then match Zpos p * 10 ^ e with
           | Zpos q => binary_round prec emax neg q 0
           | _ => S754_nan
           end
      else match 10 ^ (- e) with
           | Zpos d =>
               SFdiv prec emax (S754_finite neg p 0) (S754_finite false d 0)
           | _ => S754_nan
           end
  | _ => S754_zero neg
  end.

(** The exponent part of a decimal literal; when no well-formed exponent
    follows, the literal ends before the [e]. *)
Definition exponent (s : string) : Z * string :=
  match s with
  | String c s' =>
      if Ascii.eqb (lower c) "e"
      then let '(neg, t) := sign s' in
           let '(v, n, rest) := digits 0 0 t in
           if 0 <? n then ((if neg then - v else v), rest) else (0, s)
      else (0, s)
  | EmptyString => (0, s)
  end.

(** [float(s)] *)
Definition float_of_string (s : string) : result float :=
  match drop_underscores None (strip_number s) with
  | None => Err ValueError
  | Some t =>
      let '(neg, t1) := sign t in
      let w := lowercase t1 in
      if String.eqb w "inf" || String.eqb w "infinity"
      then OK (S754_infinity neg)
      else if String.eqb w "nan" then OK S754_nan
      else
        let '(vi, ni, r1) := digits 0 0 t1 in
        let '(vf, nf, r2) :=
          match r1 with
          | String "." r => digits vi 0 r
          | _ => (vi, 0, r1)
          end in
        if 0 <? ni + nf
        then let '(ex, r3) := exponent r2 in
             if is_empty r3 then OK (decimal_to_float neg vf (ex - nf))
             else Err ValueError
        else Err ValueError
  end.

(** [a - b] on floats *)
Definition fsub (a b : float) : float := SFsub prec emax a b.

(** The exact value of a finite float, as a reduced fraction. *)
Definition float_value (x : float) : option Q :=
  match x with
  | S754_zero _ => Some 0%Q
  | S754_finite s m e =>
      let v := if 0 <=? e then inject_Z (Zpos m * 2 ^ e)
               else Qmake (Zpos m) (Z.to_pos (2 ^ (- e))) in
      Some (Qred (if s then Qopp v else v))
  | _ => None
  end.

End Py.

(** ** numpy arrays of float64 *)

Inductive ndarray : Type :=
| Arr0 (x : Py.float)
| Arr1 (r : list Py.float)
| Arr2 (rows : list (list Py.float)).

Module Np.

(** [np.empty(0)] *)
Definition empty0 : ndarray := Arr1 [].

Definition zlength {A : Type} (l : list A) : Z := Z.of_nat (List.length l).

(** [a.shape] *)
Definition shape (a : ndarray) : list Z :=
  match a with
  | Arr0 _ => []
  | Arr1 r => [zlength r]
  | Arr2 rows => [zlength rows; zlength (hd [] rows)]
  end.

(** [np.atleast_2d(a)], as the list of its rows *)
Definition atleast_2d (a : ndarray) : list (list Py.float) :=
  match a with
  | Arr0 x => [[x]]
  | Arr1 r => [r]
  | Arr2 rows => rows
  end.

(** [np.vstack((a, row))]: the rows of [a] with [row] beneath them; the
    lengths along the second axis must agree. *)
Definition vstack (a : ndarray) (row : list Py.float) : result ndarray :=
  let rows := atleast_2d a in
  if forallb (fun r => zlength r =? zlength row) rows
  then OK (Arr2 (rows ++ [row]))
  else Err ValueError.

(** Entry [col] of every row, top to bottom. *)
Fixpoint take_column (col : Z) (rows : list (list Py.float))
  : result (list Py.float) :=
  match rows with
  | [] => OK []
  | r :: rows' =>
      let* x := Py.getitem r col in
      let* xs := take_column col rows' in
      OK (x :: xs)
  end.

(** [a[..., col]]: index [col] along the last axis. *)
Definition getitem_last (a : ndarray) (col : Z) : result ndarray :=
  match a with
  | Arr0 _ => Err IndexError
  | Arr1 r => let* x := Py.getitem r col in OK (Arr0 x)
  | Arr2 rows =>
      let n := zlength (hd [] rows) in
      if (col <? - n) || (n <=? col) then Err IndexError
      else let* xs := take_column col rows in OK (Arr1 xs)
  end.

End Np.

(** ** The data model *)

Record CurveData : Type := mkCurveData {
  curve_number : Z;
  start_date : string;
  key : string;
  duration : Py.float;
  points : Z;
  data : ndarray
}.

(** [CurveData()] *)
Definition CurveData_init : CurveData :=
  {| curve_number := 0; start_date := ""; key := "";
     duration := S754_zero false; points := 0; data := Np.empty0 |}.

Record GraphData : Type := mkGraphData {
  names : list string;
  units : list string;
  curves : list CurveData;
  sample_name : string;
  date : string;
  specific_info : string;
  user_info : string;
  comment : list string
}.

(** [GraphData()] *)
Definition GraphData_init : GraphData :=
  {| names := []; units := []; curves := [];
     sample_name := ""; date := ""; specific_info := ""; user_info := "";
     comment := [] |}.

Definition set_curve_number (v : Z) (c : CurveData) : CurveData :=
  {| curve_number := v; start_date := start_date c; key := key c;
     duration := duration c; points := points c; data := data c |}.

Definition set_start_date (v : string) (c : CurveData) : CurveData :=
  {| curve_number := curve_number c; start_date := v; key := key c;
     duration := duration c; points := points c; data := data c |}.

Definition set_key (v : string) (c : CurveData) : CurveData :=
  {| curve_number := curve_number c; start_date := start_date c; key := v;
     duration := duration c; points := points c; data := data c |}.

Definition set_duration (v : Py.float) (c : CurveData) : CurveData :=
  {| curve_number := curve_number c; start_date := start_date c; key := key c;
     duration := v; points := points c; data := data c |}.

Definition set_points (v : Z) (c : CurveData) : CurveData :=
  {| curve_number := curve_number c; start_date := start_date c; key := key c;
     duration := duration c; points := v; data := data c |}.

Definition set_data (v : ndarray) (c : CurveData) : CurveData :=
  {| curve_number := curve_number c; start_date := start_date c; key := key c;
     duration := duration c; points := points c; data := v |}.

Definition set_names (v : list string) (g : GraphData) : GraphData :=
  {| names := v; units := units g; curves := curves g;
     sample_name := sample_name g; date := date g;
     specific_info := specific_info g; user_info := user_info g;
     comment := comment g |}.

Definition set_units (v : list string) (g : GraphData) : GraphData :=
  {| names := names g; units := v; curves := curves g;
     sample_name := sample_name g; date := date g;
     specific_info := specific_info g; user_info := user_info g;
     comment := comment g |}.

Definition set_curves (v : list CurveData) (g : GraphData) : GraphData :=
  {| names := names g; units := units g; curves := v;
     sample_name := sample_name g; date := date g;
     specific_info := specific_info g; user_info := user_info g;
     comment := comment g |}.

Definition set_sample_name (v : string) (g : GraphData) : GraphData :=
  {| names := names g; units := units g; curves := curves g;
     sample_name := v; date := date g;
     specific_info := specific_info g; user_info := user_info g;
     comment := comment g |}.

Definition set_date (v : string) (g : GraphData) : GraphData :=
  {| names := names g; units := units g; curves := curves g;
     sample_name := sample_name g; date := v;
     specific_info := specific_info g; user_info := user_info g;
     comment := comment g |}.

Definition set_specific_info (v : string) (g : GraphData) : GraphData :=
  {| names := names g; units := units g; curves := curves g;
     sample_name := sample_name g; date := date g;
     specific_info := v; user_info := user_info g;
     comment := comment g |}.

Definition set_user_info (v : string) (g : GraphData) : GraphData :=
  {| names := names g; units := units g; curves := curves g;
     sample_name := sample_name g; date := date g;
     specific_info := specific_info g; user_info := v;
     comment := comment g |}.

Definition set_comment (v : list string) (g : GraphData) : GraphData :=
  {| names := names g; units := units g; curves := curves g;
     sample_name := sample_name g; date := date g;
     specific_info := specific_info g; user_info := user_info g;
     comment := v |}.

(** ** The lookup layer *)

(** [CurveData.__getitem__] *)
Definition CurveData_getitem (c : CurveData) (col : Z) : result ndarray :=
  Np.getitem_last (data c) col.

(** [GraphData.__bool__] *)
Definition GraphData_bool (g : GraphData) : bool :=
  match curves g with [] => false | _ :: _ => true end.

(** The scan of [GraphData.__getitem__] for the first curve numbered [n],
    counting from [i]; [-1] when there is none. *)
Fixpoint scan_curves (cs : list CurveData) (n : Z) (i : Z) : Z :=
  match cs with
  | [] => -1
  | c :: cs' => if curve_number c =? n then i else scan_curves cs' n (i + 1)
  end.

(** [GraphData.__getitem__] *)
Definition GraphData_getitem (g : GraphData) (item : Z * string)
  : result ndarray :=
  let '(n, channel) := item in
  let* col := Py.index (names g) channel in
  let index := scan_curves (curves g) n 0 in
  if index =? -1 then Err IndexError
  else let* c := Py.getitem (curves g) index in
       CurveData_getitem c col.

(** [GraphData.curve]: the latest curve *)
Definition curve (g : GraphData) : result CurveData :=
  Py.getitem (curves g) (-1).


(** An assignment [data.curve.attr = v]: the latest curve is updated in
    place in [curves]. *)
Definition update_curve (f : CurveData -> CurveData) (g : GraphData)
  : result GraphData :=
  let* c := curve g in
  OK (set_curves (removelast (curves g) ++ [f c]) g).

(** ** The parser: [read_grd] *)

(** The local variables of the line loop. *)
Record state : Type := mkState {
  gdata : GraphData;
  first_lines : bool;
  reading_comment : bool;
  reading_axes_description : Z;
  reading_data : bool
}.

Definition state_init : state :=
  {| gdata := GraphData_init; first_lines := true; reading_comment := false;
     reading_axes_description := -1; reading_data := false |}.

Definition with_gdata (g : GraphData) (st : state) : state :=
  {| gdata := g; first_lines := first_lines st;
     reading_comment := reading_comment st;
     reading_axes_description := reading_axes_description st;
     reading_data := reading_data st |}.

Definition with_first_lines (b : bool) (st : state) : state :=
  {| gdata := gdata st; first_lines := b;
     reading_comment := reading_comment st;
     reading_axes_description := reading_axes_description st;
     reading_data := reading_data st |}.

Definition with_reading_comment (b : bool) (st : state) : state :=
  {| gdata := gdata st; first_lines := first_lines st;
     reading_comment := b;
     reading_axes_description := reading_axes_description st;
     reading_data := reading_data st |}.

Definition with_reading_axes_description (n : Z) (st : state) : state :=
  {| gdata := gdata st; first_lines := first_lines st;
     reading_comment := reading_comment st;
     reading_axes_description := n;
     reading_data := reading_data st |}.

Definition with_reading_data (b : bool) (st : state) : state :=
  {| gdata := gdata st; first_lines := first_lines st;
     reading_comment := reading_comment st;
     reading_axes_description := reading_axes_description st;
     reading_data := b |}.

Import Py.

(** [line.split(":", maxsplit=1)[i]] *)
Definition after_colon (line : string) (i : Z) : result string :=
  getitem (split_on ":" (Some 1%nat) line) i.

(** [float(item.replace(",", "."))] *)
Definition number (item : string) : result float :=
  float_of_string (replace "," "." item).

(** [[float(item.replace(",", ".")) for item in items]] *)
Fixpoint numbers (items : list string) : result (list float) :=
  match items with
  | [] => OK []
  | item :: items' =>
      let* x := number item in
      let* xs := numbers items' in
      OK (x :: xs)
  end.

(** Lines 109-119: the preamble. *)
Definition preamble (st : state) (line : string) : result state :=
  if startswith line "#START" then OK (with_first_lines false st)
  else if first_lines st then
    if startswith line " Sample name :" then
      let* v := after_colon line (-1) in
      OK (with_gdata (set_sample_name v (gdata st)) st)
    else if startswith line " Date        :" then
      let* v := after_colon line (-1) in
      OK (with_gdata (set_date v (gdata st)) st)
    else if startswith line " Specific inf:" then
      let* v := after_colon line (-1) in
      OK (with_gdata (set_specific_info v (gdata st)) st)
    else if startswith line " User info   :" then
      let* v := after_colon line (-1) in
      OK (with_gdata (set_user_info v (gdata st)) st)
    else OK st
  else OK st.

(** Lines 124-129: a line read while [reading_comment]. *)
Definition comment_line (st : state) (line : string) : state :=
  if startswith line "#END comment" then
    let st1 := with_reading_comment false st in
    if list_eq_dec string_dec (comment (gdata st1)) [" "]
    then with_gdata (set_comment [] (gdata st1)) st1
    else st1
  else
    with_gdata (set_comment (comment (gdata st) ++ [strip line]) (gdata st)) st.

(** Lines 139-141: the channel name of an axis line. *)
Definition axis_name (line : string) : result string :=
  let* t := getitem (split_ws_max 10 line) (-1) in
  OK (replace " " "_" (strip t)).

(** Lines 142-146: the unit of an axis line. *)
Definition axis_unit (line : string) : result string :=
  if 10 <? Np.zlength (split_ws line)
  then let* t := getitem (split_ws_max 10 line) (-2) in OK (strip t)
  else OK "".

(** Lines 135-148: a line read inside the axis description. *)
Definition axis_line (st : state) (line : string) : result state :=
  if startswith line "#END axis description" then
    OK (with_reading_axes_description (-1) st)
  else
    let* st1 :=
      if 0 <? reading_axes_description st then
        let* name := axis_name line in
        let g1 := set_names (names (gdata st) ++ [name]) (gdata st) in
        let* u := axis_unit line in
        let g2 := set_units (units g1 ++ [u]) g1 in
        OK (with_gdata g2 st)
      else OK st in
    OK (with_reading_axes_description (reading_axes_description st1 + 1) st1).

(** Lines 150-152 *)
Definition curve_description (st : state) (line : string) : result state :=
  let g1 := set_curves (curves (gdata st) ++ [CurveData_init]) (gdata st) in
  let* t := getitem (split_ws line) 3 in
  let* n := int t in
  let* g2 := update_curve (set_curve_number n) g1 in
  OK (with_reading_data false (with_gdata g2 st)).

(** Line 155 *)
Definition curve_date (st : state) (line : string) : result state :=
  let* v := after_colon line 1 in
  let* g := update_curve (set_start_date v) (gdata st) in
  OK (with_gdata g st).

(** Lines 158-161 *)
Definition curve_time (st : state) (line : string) : result state :=
  let* seg := getitem (split_on ":" None line) 1 in
  let times := split_ws seg in
  let* t1 := getitem times 1 in
  let* x1 := number t1 in
  let* t0 := getitem times 0 in
  let* x0 := number t0 in
  let* g := update_curve (set_duration (fsub x1 x0)) (gdata st) in
  OK (with_gdata g st).

(** Line 164 *)
Definition curve_legend (st : state) (line : string) : result state :=
  let* v := after_colon line 1 in
  let* g := update_curve (set_key v) (gdata st) in
  OK (with_gdata g st).

(** Lines 166-170: the test for the point-count tag of the latest curve. *)
Definition is_points_tag (st : state) (line : string) : result bool :=
  if GraphData_bool (gdata st) then
    let* c := curve (gdata st) in
    if curve_number c =? 0 then OK false
    else
      let* c' := curve (gdata st) in
      OK (startswith line ("#START Curve " ++ format_d (curve_number c')))
  else OK false.

(** Line 171 *)
Definition curve_points (st : state) (line : string) : result state :=
  let* t := getitem (split_on "=" None line) 1 in
  let* n := int t in
  let* g := update_curve (set_points n) (gdata st) in
  OK (with_gdata g st).

(** Lines 177-179: the test for the end tag of the latest curve's data. *)
Definition is_data_end (st : state) (line : string) : result bool :=
  let* c := curve (gdata st) in
  if curve_number c =? 0 then OK false
  else
    let* c' := curve (gdata st) in
    OK (startswith line ("#END Curve " ++ format_d (curve_number c') ++ " -")).

(** Lines 182-193: a row of numbers is put under the latest curve's data. *)
Definition data_row (st : state) (line : string) : result state :=
  let* c := curve (gdata st) in
  let* n := getitem (Np.shape (data c)) 0 in
  if negb (n =? 0) then
    let* c1 := curve (gdata st) in
    let* row := numbers (split_ws line) in
    let* a := Np.vstack (data c1) row in
    let* g := update_curve (set_data a) (gdata st) in
    OK (with_gdata g st)
  else
    let* row := numbers (split_ws line) in
    let* g := update_curve (set_data (Arr1 row)) (gdata st) in
    OK (with_gdata g st).

(** Lines 176-194: a line read while [reading_data]. *)
Definition data_line (st : state) (line : string) : result state :=
  let* e := is_data_end st line in
  if e then OK (with_reading_data false st)
  else data_row st line.

(** Lines 120-194: the checks that follow the preamble, in their order. *)
Definition body (st : state) (line : string) : result state :=
  if startswith line "#START comment" then
    OK (with_reading_comment true st)
  else if reading_comment st then OK (comment_line st line)
  else if startswith line "#START axis description" then
    OK (with_reading_axes_description 0 st)
  else if negb (reading_axes_description st =? -1) then axis_line st line
  else if startswith line "#START Curve description" then
    curve_description st line
  else if startswith line "#START Date:" then curve_date st line
  else if startswith line "#START Time:" then curve_time st line
  else if startswith line "#START Curve Legend " then curve_legend st line
  else
    let* p := is_points_tag st line in
    if p then curve_points st line
    else if startswith line "#START Curve Data" then
      OK (with_reading_data true st)
    else if reading_data st then data_line st line
    else OK st.

(** One turn of the loop of lines 108-194. *)
Definition step (st : state) (line : string) : result state :=
  let* st1 := preamble st line in
  body st1 line.

(** The loop over the lines. *)
Fixpoint run (st : state) (lines : list string) : result state :=
  match lines with
  | [] => OK st
  | line :: lines' =>
      let* st1 := step st line in
      run st1 lines'
  end.

(** The parse of a file given as its lines. *)
Definition parse_lines (lines : list string) : result GraphData :=
  let* st := run state_init lines in
  OK (gdata st).

(** [read_grd] on the text of the file: [f_in.read().splitlines()] and the
    loop. *)
Definition read_grd (content : string) : result GraphData :=
  parse_lines (splitlines (universal_newlines content)).

(** ** Notions used by the statements *)

(** [a.size] *)
Definition size (a : ndarray) : Z := fold_right Z.mul 1 (Np.shape a).

(** The length of the last axis, the one [CurveData.__getitem__] indexes:
    the number of columns of the data. *)
Definition ncols (a : ndarray) : Z := last (Np.shape a) 0.

(** The entries of an array in row order. *)
Definition values (a : ndarray) : list float :=
  match a with
  | Arr0 x => [x]
  | Arr1 r => r
  | Arr2 rows => List.concat rows
  end.

(** Column [col] of a list of rows, top to bottom. *)
Definition column (col : Z) (rows : list (list float)) : list float :=
  map (fun r => nth (Z.to_nat col) r S754_nan) rows.

(** The rows of a curve's data: none for the empty array. *)
Definition rows_of (a : ndarray) : list (list float) :=
  match a with
  | Arr1 [] => []
  | _ => Np.atleast_2d a
  end.

(** The first curve numbered [n]. *)
Definition first_curve (cs : list CurveData) (n : Z) : option CurveData :=
  find (fun c => curve_number c =? n) cs.

Definition is_false (r : result bool) : bool :=
  match r with OK false => true | _ => false end.

(** The line is handled by lines 182-193: no earlier check of the loop
    body takes it, and it is not the end tag of the data. *)
Definition is_data_row (st : state) (line : string) : bool :=
  negb (startswith line "#START comment")
  && negb (reading_comment st)
  && negb (startswith line "#START axis description")
  && (reading_axes_description st =? -1)
  && negb (startswith line "#START Curve description")
  && negb (startswith line "#START Date:")
  && negb (startswith line "#START Time:")
  && negb (startswith line "#START Curve Legend ")
  && is_false (is_points_tag st line)
  && negb (startswith line "#START Curve Data")
  && reading_data st
  && is_false (is_data_end st line).

(** Every line handled as a data row, in a run from [st], carries [n]
    whitespace-separated tokens. *)
Fixpoint rows_have (n : Z) (st : state) (lines : list string) : bool :=
  match lines with
  | [] => true
  | line :: lines' =>
      (if is_data_row st line then Np.zlength (split_ws line) =? n else true)
      && match step st line with
         | OK st1 => rows_have n st1 lines'
         | Err _ => true
         end
  end.

(** Putting the numbers of [line] under an array keeps the property [Q]
    of arrays: the first row replaces the empty array, a later row is
    stacked beneath. *)
Definition row_keeps (Q : ndarray -> Prop) (line : string) : Prop :=
  forall (c : CurveData) (row : list float) (a : ndarray),
    Q (data c) ->
    numbers (split_ws line) = OK row ->
    (getitem (Np.shape (data c)) 0 = OK 0 /\ a = Arr1 row)
    \/ (exists k, getitem (Np.shape (data c)) 0 = OK k /\ k <> 0
                  /\ Np.vstack (data c) row = OK a) ->
    Q a.

(** [Q] holds of the data of every curve. *)
Definition all_data (Q : ndarray -> Prop) (st : state) : Prop :=
  Forall (fun c => Q (data c)) (curves (gdata st)).

(** An array that is empty or whose rows all have [n] entries. *)
Definition rows_of_width (n : Z) (a : ndarray) : Prop :=
  match a with
  | Arr0 _ => False
  | Arr1 r => r = [] \/ Np.zlength r = n
  | Arr2 rows => rows <> [] /\ Forall (fun r => Np.zlength r = n) rows
  end.

(** An array built by the parser: its rows have one common length. *)
Definition rectangular (a : ndarray) : Prop := exists n, rows_of_width n a.

(** The four metadata fields of the preamble. *)
Definition preamble_fields (g : GraphData) : string * string * string * string :=
  (sample_name g, date g, specific_info g, user_info g).

(** Structural equality, field by field. *)
Definition float_eqb (x y : float) : bool :=
  match x, y with
  | S754_zero s, S754_zero s' => Bool.eqb s s'
  | S754_infinity s, S754_infinity s' => Bool.eqb s s'
  | S754_nan, S754_nan => true
  | S754_finite s m e, S754_finite s' m' e' =>
      Bool.eqb s s' && Pos.eqb m m' && Z.eqb e e'
  | _, _ => false
  end.

Fixpoint list_eqb {A : Type} (eqb : A -> A -> bool) (l l' : list A) : bool :=
  match l, l' with
  | [], [] => true
  | x :: t, x' :: t' => eqb x x' && list_eqb eqb t t'
  | _, _ => false
  end.

Definition ndarray_eqb (a b : ndarray) : bool :=
  match a, b with
  | Arr0 x, Arr0 y => float_eqb x y
  | Arr1 r, Arr1 r' => list_eqb float_eqb r r'
  | Arr2 rows, Arr2 rows' => list_eqb (list_eqb float_eqb) rows rows'
  | _, _ => false
  end.

Definition CurveData_eqb (c c' : CurveData) : bool :=
  (curve_number c =? curve_number c')
  && String.eqb (start_date c) (start_date c')
  && String.eqb (key c) (key c')
  && float_eqb (duration c) (duration c')
  && (points c =? points c')
  && ndarray_eqb (data c) (data c').

Definition GraphData_eqb (g g' : GraphData) : bool :=
  list_eqb String.eqb (names g) (names g')
  && list_eqb String.eqb (units g) (units g')
  && list_eqb CurveData_eqb (curves g) (curves g')
  && String.eqb (sample_name g) (sample_name g')
  && String.eqb (date g) (date g')
  && String.eqb (specific_info g) (specific_info g')
  && String.eqb (user_info g) (user_info g')
  && list_eqb String.eqb (comment g) (comment g').

Definition exn_eqb (e e' : exn) : bool :=
  match e, e' with
  | IndexError, IndexError | ValueError, ValueError => true
  | _, _ => false
  end.

Definition outcome_eqb (r r' : result GraphData) : bool :=
  match r, r' with
  | OK g, OK g' => GraphData_eqb g g'
  | Err e, Err e' => exn_eqb e e'
  | _, _ => false
  end.

(** ** Sample files *)

(** The text of a file whose lines are [lines], each ended by a newline. *)
Fixpoint unlines (lines : list string) : string :=
  match lines with
  | [] => ""
  | l :: lines' => l ++ String LF (unlines lines')
  end.

(** One axis description with the two given data lines, then curve 1 with
    two rows of data. *)
Definition minimal_file (axis1 axis2 : string) : string :=
  unlines
    [ "#START axis description";
      "Axis description";
      axis1;
      axis2;
      "#END axis description";
      "#START Curve description 1";
      "#START Curve Data";
      "0.0 1,5";
      "1.0 2,5";
      "#END Curve 1 -" ].

(** A comment block holding the one line [l]. *)
Definition comment_file (l : string) : string :=
  unlines [ "#START comment"; l; "#END comment" ].

(** An axis description and a curve described but left without data. *)
Definition no_rows_file : string :=
  unlines
    [ "#START axis description";
      "Axis description";
      "s Time";
      "V Voltage";
      "#END axis description";
      "#START Curve description 1";
      "#START Curve Data";
      "#END Curve 1 -" ].

(** Two curves that carry the same number. *)
Definition twins_file : string :=
  unlines
    [ "#START axis description";
      "Axis description";
      "s Time";
      "#END axis description";
      "#START Curve description 1";
      "#START Curve Data";
      "1";
      "2";
      "#END Curve 1 -";
      "#START Curve description 1";
      "#START Curve Data";
      "3";
      "4";
      "#END Curve 1 -" ].

(** The curves of [twins_file], both numbered 1, and its parse. *)
Definition twin (r1 r2 : Z) : CurveData :=
  set_data (Arr2 [[binary_round prec emax false (Z.to_pos r1) 0];
                  [binary_round prec emax false (Z.to_pos r2) 0]])
           (set_curve_number 1 CurveData_init).

Definition twins : GraphData :=
  set_curves [twin 1 2; twin 3 4]
             (set_units [""] (set_names ["Time"] GraphData_init)).

(** ** Notions used by the further properties *)

(** No character of [s] is a line boundary. *)
Fixpoint no_linebreak (s : string) : bool :=
  match s with
  | EmptyString => true
  | String c s' => negb (is_linebreak c) && no_linebreak s'
  end.

(** The text whose lines are [lines], each ended by [eol]. *)
Fixpoint join_lines (eol : string) (lines : list string) : string :=
  match lines with
  | [] => ""
  | l :: lines' => l ++ eol ++ join_lines eol lines'
  end.

(** The state of the loop before any line that starts with [#START]. *)
Definition before_body (st : state) : Prop :=
  first_lines st = true
  /\ reading_comment st = false
  /\ reading_axes_description st = -1
  /\ reading_data st = false
  /\ names (gdata st) = []
  /\ units (gdata st) = []
  /\ curves (gdata st) = []
  /\ comment (gdata st) = [].

(** The character [c] occurs in [s]. *)
Fixpoint occurs (c : ascii) (s : string) : bool :=
  match s with
  | EmptyString => false
  | String x s' => Ascii.eqb x c || occurs c s'
  end.

(** The shapes the data of a curve takes: one-dimensional (no row yet, or
    the first row), or two-dimensional with at least two rows of one
    common, positive length. *)
Definition well_shaped (a : ndarray) : Prop :=
  match a with
  | Arr0 _ => False
  | Arr1 _ => True
  | Arr2 rows =>
      (2 <= List.length rows)%nat
      /\ exists n, 1 <= n /\ Forall (fun r => Np.zlength r = n) rows
  end.

(** A state inside the data block of a curve numbered 1 that holds the
    rows [rows] (the first row alone is held one-dimensional). *)
Definition in_data_block (a : ndarray) : state :=
  with_reading_data true
    (with_first_lines false
       (with_gdata
          (set_curves [set_data a (set_curve_number 1 CurveData_init)]
                      GraphData_init)
          state_init)).

(** The float of a small positive integer. *)
Definition float_of_pos (p : positive) : float := binary_round prec emax false p 0.




(** An axis description with an empty line after its header. *)
Definition blank_axis_file : string :=
  unlines [ "#START axis description"; "Axis description"; "";
            "#END axis description" ].

(** ** The parser over a store

    [read_grd] builds its result out of mutable objects that are reached
    through references: the [GraphData] instance, the four lists it
    holds, and one [CurveData] instance for every curve, which the list
    [curves] refers to.  The definitions above pass these objects around
    as values.  Here the heap is explicit: every list and every instance
    is an object at an address, an [append] or an attribute assignment
    updates the object in place, and a call of a class allocates.  What a
    call of [read_grd] finds in the heap, such as the objects of an
    earlier call, is part of its input. *)

Module Store.

Definition addr : Type := nat.

(** The attributes of a [GraphData] instance: references to its lists,
    and its strings. *)
Record instance : Type := mkInstance {
  names_at : addr;
  units_at : addr;
  curves_at : addr;
  sample_name_of : string;
  date_of : string;
  specific_info_of : string;
  user_info_of : string;
  comment_at : addr
}.

Definition set_sample_name_of (v : string) (i : instance) : instance :=
  {| names_at := names_at i; units_at := units_at i;
     curves_at := curves_at i; sample_name_of := v; date_of := date_of i;
     specific_info_of := specific_info_of i; user_info_of := user_info_of i;
     comment_at := comment_at i |}.

Definition set_date_of (v : string) (i : instance) : instance :=
  {| names_at := names_at i; units_at := units_at i;
     curves_at := curves_at i; sample_name_of := sample_name_of i;
     date_of := v; specific_info_of := specific_info_of i;
     user_info_of := user_info_of i; comment_at := comment_at i |}.

Definition set_specific_info_of (v : string) (i : instance) : instance :=
  {| names_at := names_at i; units_at := units_at i;
     curves_at := curves_at i; sample_name_of := sample_name_of i;
     date_of := date_of i; specific_info_of := v;
     user_info_of := user_info_of i; comment_at := comment_at i |}.

Definition set_user_info_of (v : string) (i : instance) : instance :=
  {| names_at := names_at i; units_at := units_at i;
     curves_at := curves_at i; sample_name_of := sample_name_of i;
     date_of := date_of i; specific_info_of := specific_info_of i;
     user_info_of := v; comment_at := comment_at i |}.

(** The objects of the heap.  Strings, numbers and arrays are values: the
    code replaces them and never changes one in place, so the attributes
    of a [CurveData] instance are held as the record of their values. *)
Inductive object : Type :=
| StrList (items : list string)
| RefList (items : list addr)
| CurveObj (c : CurveData)
| GraphObj (i : instance).

Definition heap : Type := list object.

(** A computation on the heap.  It leaves a heap and returns or raises;
    [None] is the computation that cannot go on, at a reference to
    nothing or at an object of another class than the attribute access
    expects. *)
Definition M (A : Type) : Type := heap -> option (heap * result A).

Definition ret {A : Type} (a : A) : M A := fun h => Some (h, OK a).

(** A computation that does not touch the heap. *)
Definition lift {A : Type} (r : result A) : M A := fun h => Some (h, r).

Definition stuck {A : Type} : M A := fun _ => None.

Definition bind {A B : Type} (m : M A) (k : A -> M B) : M B :=
  fun h =>
    match m h with
    | Some (h1, OK a) => k a h1
    | Some (h1, Err e) => Some (h1, Err e)
    | None => None
    end.

Notation "'let!' x ':=' m 'in' k" := (bind m (fun x => k))
  (at level 10, x name, m at level 100, k at level 200).

(** A new object, at the first free address. *)
Definition alloc (o : object) : M addr :=
  fun h => Some ((h ++ [o])%list, OK (List.length h)).

Definition load (a : addr) : M object :=
  fun h => match nth_error h a with
           | Some o => Some (h, OK o)
           | None => None
           end.

Fixpoint update (a : addr) (o : object) (h : heap) : heap :=
  match h, a with
  | [], _ => []
  | _ :: h', O => o :: h'
  | x :: h', S a' => x :: update a' o h'
  end.

(** The object at [a] is replaced in place. *)
Definition store (a : addr) (o : object) : M unit :=
  fun h => if (a <? List.length h)%nat then Some (update a o h, OK tt)
           else None.

Definition load_strs (a : addr) : M (list string) :=
  let! o := load a in
  match o with StrList l => ret l | _ => stuck end.

Definition load_refs (a : addr) : M (list addr) :=
  let! o := load a in
  match o with RefList l => ret l | _ => stuck end.

Definition load_curve (a : addr) : M CurveData :=
  let! o := load a in
  match o with CurveObj c => ret c | _ => stuck end.

Definition load_graph (a : addr) : M instance :=
  let! o := load a in
  match o with GraphObj i => ret i | _ => stuck end.

(** [GraphData()], lines 43-52: four new lists and the instance that
    refers to them. *)
Definition new_GraphData : M addr :=
  let! n := alloc (StrList []) in
  let! u := alloc (StrList []) in
  let! c := alloc (RefList []) in
  let! k := alloc (StrList []) in
  alloc (GraphObj {| names_at := n; units_at := u; curves_at := c;
                     sample_name_of := ""; date_of := "";
                     specific_info_of := ""; user_info_of := "";
                     comment_at := k |}).

(** [CurveData()], lines 12-18 *)
Definition new_CurveData : M addr := alloc (CurveObj CurveData_init).

(** [data.attr = v] for one of the four strings of the preamble *)
Definition set_graph_attr (f : instance -> instance) (d : addr) : M unit :=
  let! i := load_graph d in
  store d (GraphObj (f i)).

(** [data.names.append(x)] *)
Definition names_append (d : addr) (x : string) : M unit :=
  let! i := load_graph d in
  let! l := load_strs (names_at i) in
  store (names_at i) (StrList (l ++ [x])).

(** [data.units.append(x)] *)
Definition units_append (d : addr) (x : string) : M unit :=
  let! i := load_graph d in
  let! l := load_strs (units_at i) in
  store (units_at i) (StrList (l ++ [x])).

(** [data.comment.append(x)] *)
Definition comment_append (d : addr) (x : string) : M unit :=
  let! i := load_graph d in
  let! l := load_strs (comment_at i) in
  store (comment_at i) (StrList (l ++ [x])).

(** [data.comment == [" "]] *)
Definition comment_is_space (d : addr) : M bool :=
  let! i := load_graph d in
  let! l := load_strs (comment_at i) in
  ret (if list_eq_dec string_dec l [" "] then true else false).

(** [data.comment.clear()] *)
Definition comment_clear (d : addr) : M unit :=
  let! i := load_graph d in
  let! _ := load_strs (comment_at i) in
  store (comment_at i) (StrList []).

(** [data.curves.append(CurveData())] *)
Definition curves_append_new (d : addr) : M unit :=
  let! i := load_graph d in
  let! a := new_CurveData in
  let! l := load_refs (curves_at i) in
  store (curves_at i) (RefList (l ++ [a])).

(** [bool(data)]: [GraphData.__bool__] *)
Definition graph_bool (d : addr) : M bool :=
  let! i := load_graph d in
  let! l := load_refs (curves_at i) in
  ret (match l with [] => false | _ :: _ => true end).

(** [data.curve]: the property [GraphData.curve], a reference to the
    latest curve *)
Definition curve (d : addr) : M addr :=
  let! i := load_graph d in
  let! l := load_refs (curves_at i) in
  lift (Py.getitem l (-1)).

(** [data.curve.attr] *)
Definition curve_attr {A : Type} (f : CurveData -> A) (d : addr) : M A :=
  let! a := curve d in
  let! c := load_curve a in
  ret (f c).

(** [data.curve.attr = v]: the instance of the latest curve is updated in
    place. *)
Definition set_curve_attr (f : CurveData -> CurveData) (d : addr) : M unit :=
  let! a := curve d in
  let! c := load_curve a in
  store a (CurveObj (f c)).

(** The local variables of the line loop; [data] holds a reference. *)
Record locals : Type := mkLocals {
  var_data : addr;
  var_first_lines : bool;
  var_reading_comment : bool;
  var_reading_axes_description : Z;
  var_reading_data : bool
}.

Definition locals_init (d : addr) : locals :=
  {| var_data := d; var_first_lines := true; var_reading_comment := false;
     var_reading_axes_description := -1; var_reading_data := false |}.

Definition with_first_lines (b : bool) (fr : locals) : locals :=
  {| var_data := var_data fr; var_first_lines := b;
     var_reading_comment := var_reading_comment fr;
     var_reading_axes_description := var_reading_axes_description fr;
     var_reading_data := var_reading_data fr |}.

Definition with_reading_comment (b : bool) (fr : locals) : locals :=
  {| var_data := var_data fr; var_first_lines := var_first_lines fr;
     var_reading_comment := b;
     var_reading_axes_description := var_reading_axes_description fr;
     var_reading_data := var_reading_data fr |}.

Definition with_reading_axes_description (n : Z) (fr : locals) : locals :=
  {| var_data := var_data fr; var_first_lines := var_first_lines fr;
     var_reading_comment := var_reading_comment fr;
     var_reading_axes_description := n;
     var_reading_data := var_reading_data fr |}.

Definition with_reading_data (b : bool) (fr : locals) : locals :=
  {| var_data := var_data fr; var_first_lines := var_first_lines fr;
     var_reading_comment := var_reading_comment fr;
     var_reading_axes_description := var_reading_axes_description fr;
     var_reading_data := b |}.

(** Lines 109-119: the preamble. *)
Definition preamble (fr : locals) (line : string) : M locals :=
  if startswith line "#START" then ret (with_first_lines false fr)
  else if var_first_lines fr then
    if startswith line " Sample name :" then
      let! v := lift (after_colon line (-1)) in
      let! _ := set_graph_attr (set_sample_name_of v) (var_data fr) in
      ret fr
    else if startswith line " Date        :" then
      let! v := lift (after_colon line (-1)) in
      let! _ := set_graph_attr (set_date_of v) (var_data fr) in
      ret fr
    else if startswith line " Specific inf:" then
      let! v := lift (after_colon line (-1)) in
      let! _ := set_graph_attr (set_specific_info_of v) (var_data fr) in
      ret fr
    else if startswith line " User info   :" then
      let! v := lift (after_colon line (-1)) in
      let! _ := set_graph_attr (set_user_info_of v) (var_data fr) in
      ret fr
    else ret fr
  else ret fr.

(** Lines 124-129: a line read while [reading_comment]. *)
Definition comment_line (fr : locals) (line : string) : M locals :=
  if startswith line "#END comment" then
    let fr1 := with_reading_comment false fr in
    let! b := comment_is_space (var_data fr1) in
    if b then
      let! _ := comment_clear (var_data fr1) in
      ret fr1
    else ret fr1
  else
    let! _ := comment_append (var_data fr) (strip line) in
    ret fr.

(** Lines 135-148: a line read inside the axis description. *)
Definition axis_line (fr : locals) (line : string) : M locals :=
  if startswith line "#END axis description" then
    ret (with_reading_axes_description (-1) fr)
  else
    let! _ :=
      if 0 <? var_reading_axes_description fr then
        let! name := lift (axis_name line) in
        let! _ := names_append (var_data fr) name in
        let! u := lift (axis_unit line) in
        units_append (var_data fr) u
      else ret tt in
    ret (with_reading_axes_description
           (var_reading_axes_description fr + 1) fr).

(** Lines 150-152 *)
Definition curve_description (fr : locals) (line : string) : M locals :=
  let! _ := curves_append_new (var_data fr) in
  let! t := lift (getitem (split_ws line) 3) in
  let! n := lift (int t) in
  let! _ := set_curve_attr (set_curve_number n) (var_data fr) in
  ret (with_reading_data false fr).

(** Line 155 *)
Definition curve_date (fr : locals) (line : string) : M locals :=
  let! v := lift (after_colon line 1) in
  let! _ := set_curve_attr (set_start_date v) (var_data fr) in
  ret fr.

(** Lines 158-161 *)
Definition curve_time (fr : locals) (line : string) : M locals :=
  let! seg := lift (getitem (split_on ":" None line) 1) in
  let times := split_ws seg in
  let! t1 := lift (getitem times 1) in
  let! x1 := lift (number t1) in
  let! t0 := lift (getitem times 0) in
  let! x0 := lift (number t0) in
  let! _ := set_curve_attr (set_duration (fsub x1 x0)) (var_data fr) in
  ret fr.

(** Line 164 *)
Definition curve_legend (fr : locals) (line : string) : M locals :=
  let! v := lift (after_colon line 1) in
  let! _ := set_curve_attr (set_key v) (var_data fr) in
  ret fr.

(** Lines 166-170: the test for the point-count tag of the latest curve. *)
Definition is_points_tag (fr : locals) (line : string) : M bool :=
  let! b := graph_bool (var_data fr) in
  if b then
    let! n := curve_attr curve_number (var_data fr) in
    if n =? 0 then ret false
    else
      let! n' := curve_attr curve_number (var_data fr) in
      ret (startswith line ("#START Curve " ++ format_d n'))
  else ret false.

(** Line 171 *)
Definition curve_points (fr : locals) (line : string) : M locals :=
  let! t := lift (getitem (split_on "=" None line) 1) in
  let! n := lift (int t) in
  let! _ := set_curve_attr (set_points n) (var_data fr) in
  ret fr.

(** Lines 177-179: the test for the end tag of the latest curve's data. *)
Definition is_data_end (fr : locals) (line : string) : M bool :=
  let! n := curve_attr curve_number (var_data fr) in
  if n =? 0 then ret false
  else
    let! n' := curve_attr curve_number (var_data fr) in
    ret (startswith line ("#END Curve " ++ format_d n' ++ " -")).

(** Lines 182-193: a row of numbers is put under the latest curve's data;
    the array it gives is a new value, assigned to the attribute. *)
Definition data_row (fr : locals) (line : string) : M locals :=
  let! a := curve_attr data (var_data fr) in
  let! n := lift (getitem (Np.shape a) 0) in
  if negb (n =? 0) then
    let! a1 := curve_attr data (var_data fr) in
    let! row := lift (numbers (split_ws line)) in
    let! a2 := lift (Np.vstack a1 row) in
    let! _ := set_curve_attr (set_data a2) (var_data fr) in
    ret fr
  else
    let! row := lift (numbers (split_ws line)) in
    let! _ := set_curve_attr (set_data (Arr1 row)) (var_data fr) in
    ret fr.

(** Lines 176-194: a line read while [reading_data]. *)
Definition data_line (fr : locals) (line : string) : M locals :=
  let! e := is_data_end fr line in
  if e then ret (with_reading_data false fr)
  else data_row fr line.

(** Lines 120-194: the checks that follow the preamble, in their order. *)
Definition body (fr : locals) (line : string) : M locals :=
  if startswith line "#START comment" then
    ret (with_reading_comment true fr)
  else if var_reading_comment fr then comment_line fr line
  else if startswith line "#START axis description" then
    ret (with_reading_axes_description 0 fr)
  else if negb (var_reading_axes_description fr =? -1) then axis_line fr line
  else if startswith line "#START Curve description" then
    curve_description fr line
  else if startswith line "#START Date:" then curve_date fr line
  else if startswith line "#START Time:" then curve_time fr line
  else if startswith line "#START Curve Legend " then curve_legend fr line
  else
    let! p := is_points_tag fr line in
    if p then curve_points fr line
    else if startswith line "#START Curve Data" then
      ret (with_reading_data true fr)
    else if var_reading_data fr then data_line fr line
    else ret fr.

(** One turn of the loop of lines 108-194. *)
Definition step (fr : locals) (line : string) : M locals :=
  let! fr1 := preamble fr line in
  body fr1 line.

(** The loop over the lines. *)
Fixpoint run (fr : locals) (lines : list string) : M locals :=
  match lines with
  | [] => ret fr
  | line :: lines' =>
      let! fr1 := step fr line in
      run fr1 lines'
  end.

(** [read_grd] on the text of the file, lines 98-197: the instance is
    created, the text is split into lines, and the loop runs; the result
    is a reference to the instance. *)
Definition read_grd (content : string) : M addr :=
  let! d := new_GraphData in
  let! fr := run (locals_init d) (splitlines (universal_newlines content)) in
  ret (var_data fr).

(** The value of the curves a list refers to. *)
Fixpoint value_of_curves (h : heap) (l : list addr) : option (list CurveData) :=
  match l with
  | [] => Some []
  | a :: l' =>
      match nth_error h a, value_of_curves h l' with
      | Some (CurveObj c), Some cs => Some (c :: cs)
      | _, _ => None
      end
  end.

(** The value of the [GraphData] instance at [d]: what the instance and
    the objects it refers to hold. *)
Definition value_of (h : heap) (d : addr) : option GraphData :=
  match nth_error h d with
  | Some (GraphObj i) =>
      match nth_error h (names_at i), nth_error h (units_at i),
            nth_error h (curves_at i), nth_error h (comment_at i) with
      | Some (StrList ns), Some (StrList us),
        Some (RefList l), Some (StrList cm) =>
          match value_of_curves h l with
          | Some cs =>
              Some {| names := ns; units := us; curves := cs;
                      sample_name := sample_name_of i; date := date_of i;
                      specific_info := specific_info_of i;
                      user_info := user_info_of i; comment := cm |}
          | None => None
          end
      | _, _, _, _ => None
      end
  | _ => None
  end.

(** What a call leaves to its caller: the value of the instance it
    returns a reference to, or the exception it raises. *)
Definition outcome (h : heap) (r : result addr) : option (result GraphData) :=
  match r with
  | OK d => option_map OK (value_of h d)
  | Err e => Some (Err e)
  end.

(** The addresses an instance reaches. *)
Definition reach (d : addr) (i : instance) (l : list addr) : list addr :=
  d :: names_at i :: units_at i :: curves_at i :: comment_at i :: l.

(** The instance at [d] holds the value [g] in [h], through objects of
    its own that were all allocated at [base] or later. *)
Definition represents (base : nat) (h : heap) (d : addr) (g : GraphData)
  : Prop :=
  exists (i : instance) (l : list addr),
    nth_error h d = Some (GraphObj i)
    /\ nth_error h (names_at i) = Some (StrList (names g))
    /\ nth_error h (units_at i) = Some (StrList (units g))
    /\ nth_error h (curves_at i) = Some (RefList l)
    /\ nth_error h (comment_at i) = Some (StrList (comment g))
    /\ Forall2 (fun a c => nth_error h a = Some (CurveObj c)) l (curves g)
    /\ sample_name_of i = sample_name g
    /\ date_of i = date g
    /\ specific_info_of i = specific_info g
    /\ user_info_of i = user_info g
    /\ NoDup (reach d i l)
    /\ Forall (fun a => (base <= a)%nat) (reach d i l).

(** The locals of the loop that go with a state of the loop above. *)
Definition locals_of (d : addr) (st : state) : locals :=
  {| var_data := d; var_first_lines := first_lines st;
     var_reading_comment := reading_comment st;
     var_reading_axes_description := reading_axes_description st;
     var_reading_data := reading_data st |}.

(** The computation [m] does on the heap what [r] says on values: from a
    heap in which [d] holds [g], it ends, leaves the objects below [base]
    as they are, and returns [a] with [d] holding [g'] when [r] is
    [OK (a, g')], and raises [e] when [r] is [Err e]. *)
Definition simulates {A : Type} (base : nat) (d : addr) (g : GraphData)
  (m : M A) (r : result (A * GraphData)) : Prop :=
  forall h,
    represents base h d g ->
    exists h',
      firstn base h' = firstn base h
      /\ match r with
         | OK (a, g') => m h = Some (h', OK a) /\ represents base h' d g'
         | Err e => m h = Some (h', Err e)
         end.

(** The outcome of a step on values, next to the locals it leaves. *)
Definition lower (d : addr) (r : result state) : result (locals * GraphData) :=
  match r with
  | OK st => OK (locals_of d st, gdata st)
  | Err e => Err e
  end.

End Store.


(** * Properties *)

(** ** The error monad *)

Lemma bind_ok {A B : Type} (r : result A) (k : A -> result B) (b : B) :
  bind r k = OK b -> exists a, r = OK a /\ k a = OK b.
Proof.
  destruct r as [a | e]; simpl; intro H.
  - exists a. split; [reflexivity | exact H].
  - discriminate H.
Qed.

Lemma bind_err {A B : Type} (r : result A) (k : A -> result B) (e : exn) :
  r = Err e -> bind r k = Err e.
Proof. intro H. rewrite H. reflexivity. Qed.

Ltac inv_bind H :=
  let a := fresh "a" in
  let Ha := fresh "Ha" in
  apply bind_ok in H; destruct H as [a [Ha H]].

Ltac inv_ok H := injection H as H; try subst.

(** ** Strings *)

Lemma startswith_inv (p s : string) :
  startswith s p = true -> exists rest, s = p ++ rest.
Proof.
  unfold startswith. revert s.
  induction p as [| a p IH]; intros s H; simpl in *.
  - exists s. reflexivity.
  - destruct s as [| b s]; simpl in H; [discriminate H |].
    destruct (ascii_dec a b) as [-> | _]; [| discriminate H].
    destruct (IH s H) as [rest ->]. exists rest. reflexivity.
Qed.

Lemma prefix_nil (s : string) : String.prefix "" s = true.
Proof. destruct s; reflexivity. Qed.

Lemma startswith_nil (s : string) : startswith s "" = true.
Proof. apply prefix_nil. Qed.

Lemma startswith_app (p rest : string) : startswith (p ++ rest) p = true.
Proof.
  unfold startswith. induction p as [| a p IH]; simpl; [apply prefix_nil |].
  destruct (ascii_dec a a) as [_ | N]; [exact IH | contradiction N; reflexivity].
Qed.

(** A line that starts with [#START] leaves the preamble mode. *)
Lemma preamble_start (st : state) (line : string) :
  startswith line "#START" = true ->
  preamble st line = OK (with_first_lines false st).
Proof. intro H. unfold preamble. rewrite H. reflexivity. Qed.

Lemma run_app (st : state) (l1 l2 : list string) :
  run st (l1 ++ l2) = let* st1 := run st l1 in run st1 l2.
Proof.
  revert st. induction l1 as [| l l1 IH]; intro st; simpl; [reflexivity |].
  destruct (step st l) as [st1 | e]; simpl; [apply IH | reflexivity].
Qed.

(** ** The latest curve *)

Lemma curve_nil (g : GraphData) : curves g = [] -> curve g = Err IndexError.
Proof. intro H. unfold curve. rewrite H. reflexivity. Qed.

Lemma update_curve_nil (f : CurveData -> CurveData) (g : GraphData) :
  curves g = [] -> update_curve f g = Err IndexError.
Proof. intro H. unfold update_curve. rewrite (curve_nil g H). reflexivity. Qed.

(** ** C1: the minimal scenario *)

(** C1, as stated, fails: parsing the file whose axis lines are [s Time]
    and [V Voltage] does not give the units [s] and [V]. *)
Lemma minimal_scenario_units_counterexample :
  ~ (exists g, read_grd (minimal_file "s Time" "V Voltage") = OK g
               /\ names g = ["Time"; "Voltage"]
               /\ units g = ["s"; "V"]).
Proof.
  intros [g [H [_ Hu]]]. vm_compute in H. inv_ok H. simpl in Hu. discriminate Hu.
Qed.

(** C1, amended: the file with the axis lines [s Time] and [V Voltage],
    and curve 1 with the rows [0.0 1,5] and [1.0 2,5], parses to the
    names [Time] and [Voltage], two empty units (each axis line has fewer
    than 11 tokens) and one curve whose data is [[0.0,1.5],[1.0,2.5]];
    the units are [s] and [V] when nine more tokens lead each axis line. *)
Theorem minimal_scenario :
  (exists g c rows,
      read_grd (minimal_file "s Time" "V Voltage") = OK g
      /\ names g = ["Time"; "Voltage"]
      /\ units g = [""; ""]
      /\ curves g = [c] /\ curve_number c = 1 /\ data c = Arr2 rows
      /\ map (map float_value) rows
         = [[Some 0%Q; Some (3 # 2)%Q]; [Some 1%Q; Some (5 # 2)%Q]])
  /\ (exists g c rows,
      read_grd (minimal_file "1 2 3 4 5 6 7 8 9 s Time"
                             "1 2 3 4 5 6 7 8 9 V Voltage") = OK g
      /\ names g = ["Time"; "Voltage"]
      /\ units g = ["s"; "V"]
      /\ curves g = [c] /\ curve_number c = 1 /\ data c = Arr2 rows
      /\ map (map float_value) rows
         = [[Some 0%Q; Some (3 # 2)%Q]; [Some 1%Q; Some (5 # 2)%Q]]).
Proof.
  split.
  - eexists. eexists. eexists.
    split; [vm_compute; reflexivity |].
    repeat split; reflexivity.
  - eexists. eexists. eexists.
    split; [vm_compute; reflexivity |].
    repeat split; reflexivity.
Qed.

(** ** C10: curve tags before any curve *)

Lemma getitem_err {A : Type} (l : list A) (i : Z) (e : exn) :
  getitem l i = Err e -> e = IndexError.
Proof.
  unfold getitem.
  destruct ((_ <? 0) || (_ <=? _)); [intro H; inv_ok H; reflexivity |].
  destruct (nth_error _ _); intro H; [discriminate H | inv_ok H; reflexivity].
Qed.

Lemma curve_date_nil (st : state) (line : string) :
  curves (gdata st) = [] -> curve_date st line = Err IndexError.
Proof.
  intro H. unfold curve_date, after_colon.
  destruct (getitem _ 1) as [v | e] eqn:E; simpl.
  - rewrite (update_curve_nil _ _ H). reflexivity.
  - rewrite (getitem_err _ _ _ E). reflexivity.
Qed.

Lemma curve_legend_nil (st : state) (line : string) :
  curves (gdata st) = [] -> curve_legend st line = Err IndexError.
Proof.
  intro H. unfold curve_legend, after_colon.
  destruct (getitem _ 1) as [v | e] eqn:E; simpl.
  - rewrite (update_curve_nil _ _ H). reflexivity.
  - rewrite (getitem_err _ _ _ E). reflexivity.
Qed.

Lemma curve_time_nil (st : state) (line : string) :
  curves (gdata st) = [] -> exists e, curve_time st line = Err e.
Proof.
  intro H. unfold curve_time.
  destruct (getitem _ 1) as [seg | e]; simpl; [| eauto].
  destruct (getitem (split_ws seg) 1) as [t1 | e]; simpl; [| eauto].
  destruct (number t1) as [x1 | e]; simpl; [| eauto].
  destruct (getitem (split_ws seg) 0) as [t0 | e]; simpl; [| eauto].
  destruct (number t0) as [x0 | e]; simpl; [| eauto].
  rewrite (update_curve_nil _ _ H). simpl. eauto.
Qed.

(** The flags and the curves after the preamble part of a turn. *)
Lemma preamble_flags (st st1 : state) (line : string) :
  preamble st line = OK st1 ->
  reading_comment st1 = reading_comment st
  /\ reading_axes_description st1 = reading_axes_description st
  /\ reading_data st1 = reading_data st
  /\ curves (gdata st1) = curves (gdata st)
  /\ names (gdata st1) = names (gdata st)
  /\ units (gdata st1) = units (gdata st)
  /\ comment (gdata st1) = comment (gdata st).
Proof.
  unfold preamble.
  repeat match goal with
         | |- context [if ?b then _ else _] => destruct b
         end;
    intro H; repeat inv_bind H; inv_ok H; simpl; repeat split; reflexivity.
Qed.

(** The three curve tags share no prefix with the checks made before
    them. *)
Ltac tag_line H :=
  let rest := fresh "rest" in
  apply startswith_inv in H; destruct H as [rest H]; subst; simpl;
  rewrite ?prefix_nil, ?startswith_nil.

Lemma step_curve_tag_nil (st : state) (line : string) :
  curves (gdata st) = [] ->
  reading_comment st = false ->
  reading_axes_description st = -1 ->
  startswith line "#START Date:" = true
  \/ startswith line "#START Time:" = true
  \/ startswith line "#START Curve Legend " = true ->
  exists e, step st line = Err e
            /\ (startswith line "#START Time:" = false -> e = IndexError).
Proof.
  intros Hc Hrc Hax Htag. unfold step.
  assert (Hs : startswith line "#START" = true).
  { destruct Htag as [H | [H | H]]; tag_line H; reflexivity. }
  rewrite (preamble_start _ _ Hs). simpl bind.
  unfold body. simpl reading_comment. simpl reading_axes_description.
  rewrite Hrc, Hax. simpl negb.
  destruct Htag as [H | [H | H]].
  - tag_line H. exists IndexError. split; [| reflexivity].
    apply curve_date_nil. exact Hc.
  - destruct (curve_time_nil (with_first_lines false st) line Hc) as [e He].
    exists e. rewrite H. split; [| intro N; discriminate N].
    tag_line H. exact He.
  - tag_line H. exists IndexError. split; [| reflexivity].
    apply curve_legend_nil. exact Hc.
Qed.


(** ** C5: the duration of a curve *)


Lemma getitem_last_app {A : Type} (l : list A) (a : A) :
  getitem (l ++ [a]) (-1) = OK a.
Proof.
  unfold getitem. rewrite length_app. simpl List.length.
  replace (-1 <? 0) with true by reflexivity.
  assert (E : -1 + Z.of_nat (List.length l + 1) = Z.of_nat (List.length l))
    by lia.
  rewrite E.
  destruct (Z.ltb_spec (Z.of_nat (List.length l)) 0) as [N | _]; [lia |].
  destruct (Z.leb_spec (Z.of_nat (List.length l + 1))
                       (Z.of_nat (List.length l))) as [N | _]; [lia |].
  simpl orb. cbv iota. rewrite Nat2Z.id.
  rewrite nth_error_app2 by lia. rewrite Nat.sub_diag. reflexivity.
Qed.

Lemma getitem_nth_error {A : Type} (l : list A) (i : nat) (a : A) :
  nth_error l i = Some a -> getitem l (Z.of_nat i) = OK a.
Proof.
  intro H. unfold getitem.
  assert (L : (i < List.length l)%nat).
  { apply nth_error_Some. rewrite H. discriminate. }
  destruct (Z.ltb_spec (Z.of_nat i) 0) as [N | _]; [lia |].
  destruct (Z.ltb_spec (Z.of_nat i) 0) as [N | _]; [lia |].
  destruct (Z.leb_spec (Z.of_nat (List.length l)) (Z.of_nat i)) as [N | _];
    [lia |].
  simpl orb. cbv iota. rewrite Nat2Z.id, H. reflexivity.
Qed.

Lemma curve_last (g : GraphData) (d : CurveData) :
  curves g <> [] -> curve g = OK (last (curves g) d).
Proof.
  intro H. unfold curve.
  rewrite (app_removelast_last d H) at 1. apply getitem_last_app.
Qed.

Lemma update_curve_ok (f : CurveData -> CurveData) (g : GraphData)
  (c : CurveData) :
  curve g = OK c ->
  update_curve f g = OK (set_curves (removelast (curves g) ++ [f c]) g)
  /\ curve (set_curves (removelast (curves g) ++ [f c]) g) = OK (f c).
Proof.
  intro H. unfold update_curve. rewrite H. simpl. split; [reflexivity |].
  unfold curve. simpl. apply getitem_last_app.
Qed.

(** A line that starts with the tag [p] does not start with a tag [q]
    that differs from [p] within their common length. *)
Lemma tag_excl (line p q : string) :
  startswith line p = true ->
  (forall rest, startswith (p ++ rest) q = false) ->
  startswith line q = false.
Proof.
  intros H K. apply startswith_inv in H. destruct H as [rest ->]. apply K.
Qed.

Ltac other_tag H q := rewrite (tag_excl _ _ q H) by (intro; reflexivity).

Lemma step_curve_time (st : state) (line : string) :
  reading_comment st = false ->
  reading_axes_description st = -1 ->
  startswith line "#START Time:" = true ->
  step st line = curve_time (with_first_lines false st) line.
Proof.
  intros Hrc Hax H. unfold step.
  assert (Hs : startswith line "#START" = true).
  { apply startswith_inv in H. destruct H as [rest ->]. reflexivity. }
  rewrite (preamble_start _ _ Hs). simpl bind. unfold body.
  simpl reading_comment. simpl reading_axes_description. rewrite Hrc, Hax.
  other_tag H "#START comment". other_tag H "#START axis description".
  other_tag H "#START Curve description". other_tag H "#START Date:".
  rewrite H. reflexivity.
Qed.

(** C5: a curve-time tag line, handled outside a comment and outside the
    axis description while a curve exists, whose text between the first
    colon and the next holds the clock values [t0] and [t1] (commas are
    turned into dots before each is read as a float), sets the duration of
    the latest curve to the second value minus the first and leaves the
    other curves alone; the times [10,0 12,5] give the duration 2.5. *)
Theorem curve_time_sets_duration
  (st : state) (line seg t0 t1 : string) (more : list string)
  (x0 x1 : float) :
  reading_comment st = false ->
  reading_axes_description st = -1 ->
  curves (gdata st) <> [] ->
  startswith line "#START Time:" = true ->
  getitem (split_on ":" None line) 1 = OK seg ->
  split_ws seg = t0 :: t1 :: more ->
  float_of_string (replace "," "." t0) = OK x0 ->
  float_of_string (replace "," "." t1) = OK x1 ->
  exists st' c0 c,
    step st line = OK st'
    /\ curve (gdata st) = OK c0
    /\ curves (gdata st')
       = (removelast (curves (gdata st))
          ++ [set_duration (fsub x1 x0) c0])%list
    /\ curve (gdata st') = OK c
    /\ duration c = fsub x1 x0
    /\ (line = "#START Time: 10,0 12,5"
        -> float_value (duration c) = Some (5 # 2)%Q).
Proof.
  intros Hrc Hax Hne H Hseg Htimes H0 H1.
  pose proof (curve_last (gdata st) CurveData_init Hne) as Hc.
  set (c0 := last (curves (gdata st)) CurveData_init) in Hc.
  destruct (update_curve_ok (set_duration (fsub x1 x0)) (gdata st) c0 Hc)
    as [Hu Hl].
  eexists. exists c0. exists (set_duration (fsub x1 x0) c0).
  split.
  - rewrite (step_curve_time st line Hrc Hax H). unfold curve_time.
    rewrite Hseg. cbn [bind]. rewrite Htimes.
    pose proof (getitem_nth_error (t0 :: t1 :: more) 1 t1 eq_refl) as G1.
    pose proof (getitem_nth_error (t0 :: t1 :: more) 0 t0 eq_refl) as G0.
    simpl Z.of_nat in G1, G0. rewrite G1. cbn [bind].
    unfold number. rewrite H1. cbn [bind]. rewrite G0. cbn [bind].
    rewrite H0. cbn [bind].
    change (gdata (with_first_lines false st)) with (gdata st).
    rewrite Hu. cbn [bind]. reflexivity.
  - split; [exact Hc |]. split; [reflexivity |]. split; [exact Hl |].
    split; [reflexivity |].
    intros ->. vm_compute in Hseg. inv_ok Hseg.
    vm_compute in Htimes. inv_ok Htimes.
    vm_compute in H0. inv_ok H0. vm_compute in H1. inv_ok H1.
    reflexivity.
Qed.

Lemma curve_time_sets_duration_witness :
  exists st' c0 c,
    step (with_gdata (set_curves [CurveData_init] GraphData_init) state_init)
         "#START Time: 10,0 12,5" = OK st'
    /\ curve (set_curves [CurveData_init] GraphData_init) = OK c0
    /\ curves (gdata st')
       = ([] ++ [set_duration
                   (fsub (S754_finite false 7036874417766400 (-49))
                         (S754_finite false 5629499534213120 (-49))) c0])%list
    /\ curve (gdata st') = OK c
    /\ duration c = fsub (S754_finite false 7036874417766400 (-49))
                         (S754_finite false 5629499534213120 (-49))
    /\ ("#START Time: 10,0 12,5" = "#START Time: 10,0 12,5"
        -> float_value (duration c) = Some (5 # 2)%Q).
Proof.
  apply (curve_time_sets_duration
           (with_gdata (set_curves [CurveData_init] GraphData_init) state_init)
           "#START Time: 10,0 12,5" " 10,0 12,5" "10,0" "12,5" []);
    try reflexivity.
  simpl. discriminate.
Defined.

(** ** C7: the first curve with the number wins *)

Lemma zlength_nonneg {A : Type} (l : list A) : 0 <= Np.zlength l.
Proof. unfold Np.zlength. lia. Qed.

Lemma scan_curves_first (pre post : list CurveData) (c : CurveData) (n i : Z) :
  curve_number c = n ->
  Forall (fun c' => curve_number c' <> n) pre ->
  scan_curves (pre ++ c :: post) n i = i + Np.zlength pre.
Proof.
  intros Hc Hpre. revert i.
  induction Hpre as [| c' pre Hc' _ IH]; intro i; simpl.
  - rewrite Hc, Z.eqb_refl. unfold Np.zlength. simpl. lia.
  - destruct (Z.eqb_spec (curve_number c') n) as [E | _]; [contradiction |].
    rewrite IH. unfold Np.zlength. simpl List.length. lia.
Qed.

Lemma getitem_middle {A : Type} (pre post : list A) (a : A) :
  getitem (pre ++ a :: post) (Np.zlength pre) = OK a.
Proof.
  unfold Np.zlength. apply getitem_nth_error.
  rewrite nth_error_app2 by lia. rewrite Nat.sub_diag. reflexivity.
Qed.

(** C7: when a curve [c] numbered [n] stands in [curves] with no curve of
    that number before it, the scan of the lookup stops at [c], whatever
    comes after it, other curves numbered [n] included, and the lookup
    keyed by [(n, channel)] is the lookup of the channel's column in [c];
    a later curve of the same number raises no error. *)
Theorem lookup_first_match
  (g : GraphData) (n : Z) (channel : string)
  (pre post : list CurveData) (c : CurveData) (col : Z) :
  curves g = (pre ++ c :: post)%list ->
  curve_number c = n ->
  Forall (fun c' => curve_number c' <> n) pre ->
  Py.index (names g) channel = OK col ->
  scan_curves (curves g) n 0 = Np.zlength pre
  /\ getitem (curves g) (Np.zlength pre) = OK c
  /\ GraphData_getitem g (n, channel) = CurveData_getitem c col.
Proof.
  intros Hg Hc Hpre Hcol.
  assert (Hs : scan_curves (curves g) n 0 = Np.zlength pre).
  { rewrite Hg, (scan_curves_first pre post c n 0 Hc Hpre). lia. }
  assert (Hi : getitem (curves g) (Np.zlength pre) = OK c).
  { rewrite Hg. apply getitem_middle. }
  split; [exact Hs |]. split; [exact Hi |].
  unfold GraphData_getitem. rewrite Hcol. cbn [bind]. rewrite Hs.
  pose proof (zlength_nonneg pre) as Hz.
  destruct (Z.eqb_spec (Np.zlength pre) (-1)) as [E | _]; [lia |].
  rewrite Hi. reflexivity.
Qed.

Lemma lookup_first_match_witness :
  read_grd twins_file = OK twins
  /\ scan_curves (curves twins) 1 0 = Np.zlength (@nil CurveData)
  /\ getitem (curves twins) (Np.zlength (@nil CurveData)) = OK (twin 1 2)
  /\ GraphData_getitem twins (1, "Time") = CurveData_getitem (twin 1 2) 0.
Proof.
  split; [vm_compute; reflexivity |].
  apply (lookup_first_match twins 1 "Time" [] [twin 3 4] (twin 1 2) 0);
    [reflexivity | reflexivity | constructor | reflexivity].
Defined.

(** ** C8: the parse is a function of the text *)

Lemma float_eqb_refl (x : float) : float_eqb x x = true.
Proof.
  destruct x as [s | s | | s m e]; simpl;
    rewrite ?Bool.eqb_reflx, ?Pos.eqb_refl, ?Z.eqb_refl; reflexivity.
Qed.

Lemma list_eqb_refl {A : Type} (eqb : A -> A -> bool) (l : list A) :
  (forall a, eqb a a = true) -> list_eqb eqb l l = true.
Proof.
  intro H. induction l as [| a l IH]; simpl; [reflexivity |].
  rewrite H, IH. reflexivity.
Qed.

Lemma ndarray_eqb_refl (a : ndarray) : ndarray_eqb a a = true.
Proof.
  destruct a as [x | r | rows]; simpl.
  - apply float_eqb_refl.
  - apply list_eqb_refl, float_eqb_refl.
  - apply list_eqb_refl. intro r. apply list_eqb_refl, float_eqb_refl.
Qed.

Lemma CurveData_eqb_refl (c : CurveData) : CurveData_eqb c c = true.
Proof.
  unfold CurveData_eqb.
  rewrite !Z.eqb_refl, !String.eqb_refl, float_eqb_refl, ndarray_eqb_refl.
  reflexivity.
Qed.

Lemma GraphData_eqb_refl (g : GraphData) : GraphData_eqb g g = true.
Proof.
  unfold GraphData_eqb.
  rewrite !String.eqb_refl.
  rewrite !(list_eqb_refl String.eqb) by apply String.eqb_refl.
  rewrite (list_eqb_refl CurveData_eqb) by apply CurveData_eqb_refl.
  reflexivity.
Qed.

Lemma outcome_eqb_refl (r : result GraphData) : outcome_eqb r r = true.
Proof.
  destruct r as [g | e]; simpl; [apply GraphData_eqb_refl |].
  destruct e; reflexivity.
Qed.


(** ** What a turn of the loop leaves alone *)

Ltac crunch H :=
  cbv beta in H;
  lazymatch type of H with
  | Err _ = OK _ => discriminate H
  | OK _ = OK _ => injection H as H; try subst
  | bind _ _ = OK _ =>
      let a := fresh "a" in
      let Ha := fresh "Ha" in
      apply bind_ok in H; destruct H as [a [Ha H]]; crunch Ha; crunch H
  | context [if ?b then _ else _] => destruct b eqn:?; crunch H
  | _ => idtac
  end.

Lemma update_curve_frame (f : CurveData -> CurveData) (g g' : GraphData) :
  update_curve f g = OK g' ->
  exists c, curve g = OK c
            /\ g' = set_curves (removelast (curves g) ++ [f c]) g.
Proof.
  unfold update_curve. intro H. crunch H. exists a. split; [assumption | reflexivity].
Qed.

Ltac frame_curves :=
  repeat match goal with
         | H : update_curve _ _ = OK _ |- _ =>
             let c := fresh "c" in
             let Hc := fresh "Hc" in
             apply update_curve_frame in H; destruct H as [c [Hc H]];
             try subst
         end.

Ltac crunch_body H :=
  unfold body, axis_line, curve_description, curve_date, curve_time,
    curve_legend, curve_points, data_line, data_row in H;
  crunch H; frame_curves.

(** The checks after the preamble never touch the preamble flag nor the
    four metadata fields. *)
Lemma body_meta (st st' : state) (line : string) :
  body st line = OK st' ->
  first_lines st' = first_lines st
  /\ preamble_fields (gdata st') = preamble_fields (gdata st).
Proof.
  intro H. crunch_body H; unfold comment_line;
    repeat match goal with
           | |- context [if ?b then _ else _] => destruct b
           end;
    split; reflexivity.
Qed.

(** ** C9: the end of the preamble *)

Lemma preamble_frozen (st st1 : state) (line : string) :
  first_lines st = false \/ startswith line "#START" = true ->
  preamble st line = OK st1 ->
  first_lines st1 = false
  /\ preamble_fields (gdata st1) = preamble_fields (gdata st).
Proof.
  intros Hf H. unfold preamble in H.
  destruct (startswith line "#START") eqn:Hs.
  - crunch H. split; reflexivity.
  - destruct Hf as [Hf | Hf]; [| discriminate Hf].
    rewrite Hf in H. crunch H. split; [exact Hf | reflexivity].
Qed.

Lemma step_frozen (st st' : state) (line : string) :
  first_lines st = false \/ startswith line "#START" = true ->
  step st line = OK st' ->
  first_lines st' = false
  /\ preamble_fields (gdata st') = preamble_fields (gdata st).
Proof.
  intros Hf H. unfold step in H. inv_bind H.
  destruct (preamble_frozen st a line Hf Ha) as [F1 M1].
  destruct (body_meta a st' line H) as [F2 M2].
  split; congruence.
Qed.

Lemma run_frozen (lines : list string) (st st' : state) :
  first_lines st = false ->
  run st lines = OK st' ->
  first_lines st' = false
  /\ preamble_fields (gdata st') = preamble_fields (gdata st).
Proof.
  revert st. induction lines as [| l lines IH]; intros st Hf H; simpl in H.
  - inv_ok H. split; [exact Hf | reflexivity].
  - inv_bind H.
    destruct (step_frozen st a l (or_introl Hf) Ha) as [F1 M1].
    destruct (IH a F1 H) as [F2 M2]. split; congruence.
Qed.

(** C9: once a line that starts with [#START] has been read, whichever
    tag it is, the preamble flag is off for the rest of the file, and the
    sample name, date, specific info and user info of the result are the
    ones the lines before it gave: no later line sets them. *)
Theorem start_ends_preamble
  (pre post : list string) (l : string) (g : GraphData) :
  startswith l "#START" = true ->
  parse_lines (pre ++ l :: post) = OK g ->
  exists g0 st,
    parse_lines pre = OK g0
    /\ run state_init (pre ++ [l]) = OK st
    /\ first_lines st = false
    /\ preamble_fields g = preamble_fields g0.
Proof.
  intros Hs H. unfold parse_lines in H. inv_bind H. inv_ok H.
  rewrite run_app in Ha. inv_bind Ha. simpl in Ha. inv_bind Ha.
  destruct (step_frozen a0 a1 l (or_intror Hs) Ha1) as [F1 M1].
  destruct (run_frozen post a1 a F1 Ha) as [F2 M2].
  exists (gdata a0), a1. split.
  - unfold parse_lines. rewrite Ha0. reflexivity.
  - split.
    + rewrite run_app, Ha0. simpl. rewrite Ha1. reflexivity.
    + split; [exact F1 | congruence].
Qed.

Lemma start_ends_preamble_witness :
  exists g0 st,
    parse_lines [" Sample name : A"] = OK g0
    /\ run state_init ([" Sample name : A"] ++ ["#START comment"]) = OK st
    /\ first_lines st = false
    /\ preamble_fields (set_sample_name " A" GraphData_init)
       = preamble_fields g0.
Proof.
  apply (start_ends_preamble
           [" Sample name : A"]
           ["#END comment"; " Sample name : B"; " Date        : C"]
           "#START comment"
           (set_sample_name " A" GraphData_init));
    reflexivity.
Defined.

(** ** C2: the comment block *)

Lemma split_on_nonempty (sep : ascii) (m : option nat) (s : string) :
  split_on sep m s <> [].
Proof.
  revert m. induction s as [| c s IH]; intro m.
  - destruct m as [[| n] |]; discriminate.
  - destruct m as [[| n] |]; simpl; try discriminate;
      destruct (Ascii.eqb c sep); try discriminate;
      destruct (split_on sep _ s); discriminate.
Qed.

Lemma getitem_last_ok {A : Type} (l : list A) :
  l <> [] -> exists a, getitem l (-1) = OK a.
Proof.
  intro H. destruct l as [| d l]; [contradiction |].
  rewrite (app_removelast_last d H). eexists. apply getitem_last_app.
Qed.

Lemma preamble_total (st : state) (line : string) :
  exists st1, preamble st line = OK st1.
Proof.
  unfold preamble, after_colon.
  destruct (getitem_last_ok (split_on ":" (Some 1%nat) line)
              (split_on_nonempty _ _ _)) as [v ->].
  simpl bind.
  repeat match goal with
         | |- context [if ?b then _ else _] => destruct b
         end; eexists; reflexivity.
Qed.

(** [strip] leaves no whitespace at either end: the result is never the
    single space the end of a comment block compares with. *)
Lemma rstrip_not_space (s : string) : rstrip s <> " ".
Proof.
  destruct s as [| c s]; simpl; [discriminate |].
  destruct (rstrip s) as [| c' r] eqn:E; simpl.
  - destruct (isspace c) eqn:Hc; [discriminate |].
    intro H. injection H as H. subst c. discriminate Hc.
  - discriminate.
Qed.

Lemma strip_not_space (s : string) : strip s <> " ".
Proof. apply rstrip_not_space. Qed.

Lemma step_outside_comment (st st' : state) (line : string) :
  reading_comment st = false ->
  startswith line "#START comment" = false ->
  step st line = OK st' ->
  reading_comment st' = false
  /\ comment (gdata st') = comment (gdata st).
Proof.
  intros Hrc Hs H. unfold step in H. inv_bind H.
  destruct (preamble_flags st a line Ha) as [R [_ [_ [_ [_ [_ C]]]]]].
  rewrite <- C. rewrite Hrc in R. clear Ha C Hrc.
  unfold body in H. rewrite Hs, R in H.
  crunch_body H; simpl; split; assumption || reflexivity.
Qed.

Lemma run_outside_comment (lines : list string) (st st' : state) :
  Forall (fun l => startswith l "#START comment" = false) lines ->
  reading_comment st = false ->
  run st lines = OK st' ->
  reading_comment st' = false
  /\ comment (gdata st') = comment (gdata st).
Proof.
  intro F. revert st. induction F as [| l lines Hl _ IH]; intros st Hrc H;
    simpl in H.
  - inv_ok H. split; [exact Hrc | reflexivity].
  - inv_bind H.
    destruct (step_outside_comment st a l Hrc Hl Ha) as [R1 C1].
    destruct (IH a R1 H) as [R2 C2]. split; congruence.
Qed.

(** The three turns of the loop over a comment block of one line. *)
Lemma comment_block_run
  (st : state) (open l close : string) :
  startswith open "#START comment" = true ->
  startswith close "#END comment" = true ->
  startswith l "#START comment" = false ->
  startswith l "#END comment" = false ->
  comment (gdata st) = [] ->
  exists st',
    run st [open; l; close] = OK st'
    /\ reading_comment st' = false
    /\ comment (gdata st') = [strip l].
Proof.
  intros Ho Hc Hl1 Hl2 Hempty.
  assert (Hc1 : startswith close "#START comment" = false)
    by (apply (tag_excl _ _ _ Hc); intro; reflexivity).
  simpl run. unfold step.
  destruct (preamble_total st open) as [s1 P1]. rewrite P1. cbn [bind].
  destruct (preamble_flags _ _ _ P1) as [_ [_ [_ [_ [_ [_ C1]]]]]].
  unfold body at 1. rewrite Ho. cbn [bind].
  destruct (preamble_total (with_reading_comment true s1) l) as [s2 P2].
  rewrite P2. cbn [bind].
  destruct (preamble_flags _ _ _ P2) as [R2 [_ [_ [_ [_ [_ C2]]]]]].
  simpl in R2, C2.
  unfold body at 1. rewrite Hl1, R2. cbn [bind].
  destruct (preamble_total (comment_line s2 l) close) as [s3 P3].
  rewrite P3. cbn [bind].
  destruct (preamble_flags _ _ _ P3) as [R3 [_ [_ [_ [_ [_ C3]]]]]].
  unfold comment_line in R3, C3. rewrite Hl2 in R3, C3. simpl in R3, C3.
  rewrite C2, C1, Hempty in C3. simpl in C3.
  unfold body. rewrite Hc1, R3, R2. cbn [bind].
  eexists. split; [reflexivity |].
  unfold comment_line. rewrite Hc. simpl comment. rewrite C3.
  destruct (list_eq_dec string_dec [strip l] [" "]) as [E | _].
  - injection E as E. destruct (strip_not_space l E).
  - split; [reflexivity | simpl; exact C3].
Qed.

(** C2, as stated, fails: a comment block whose one line is a single
    space leaves one (empty) comment line, and a line with blanks around
    its text is not kept as it is. *)
Lemma single_comment_line_counterexample :
  ~ (exists g, read_grd (comment_file " ") = OK g /\ comment g = [])
  /\ ~ (exists g, read_grd (comment_file "  x ") = OK g
                  /\ comment g = ["  x "]).
Proof.
  split; intros [g [H Hg]]; vm_compute in H; inv_ok H; simpl in Hg;
    discriminate Hg.
Qed.

(** C2, amended: when the only comment block of a file holds exactly
    one line [l], not a tag of the block and other than a single space,
    the parsed comment is that line with the whitespace at its two ends
    removed; the block alone always parses. *)
Theorem single_comment_line
  (pre post : list string) (open l close : string) (g : GraphData) :
  Forall (fun x => startswith x "#START comment" = false) pre ->
  Forall (fun x => startswith x "#START comment" = false) post ->
  startswith open "#START comment" = true ->
  startswith close "#END comment" = true ->
  startswith l "#START comment" = false ->
  startswith l "#END comment" = false ->
  l <> " " ->
  parse_lines (pre ++ [open; l; close] ++ post) = OK g ->
  comment g = [strip l]
  /\ exists g', parse_lines [open; l; close] = OK g'
                /\ comment g' = [strip l].
Proof.
  intros Fpre Fpost Ho Hc Hl1 Hl2 _ H. split.
  - unfold parse_lines in H. inv_bind H. inv_ok H.
    rewrite run_app in Ha. inv_bind Ha.
    rewrite run_app in Ha. inv_bind Ha.
    destruct (run_outside_comment pre state_init a0 Fpre eq_refl Ha0)
      as [R0 C0].
    simpl in C0.
    destruct (comment_block_run a0 open l close Ho Hc Hl1 Hl2 C0)
      as [s [Hs [R1 C1]]].
    rewrite Hs in Ha1. inv_ok Ha1.
    destruct (run_outside_comment post a1 a Fpost R1 Ha) as [_ C2].
    congruence.
  - destruct (comment_block_run state_init open l close Ho Hc Hl1 Hl2 eq_refl)
      as [s [Hs [_ C1]]].
    exists (gdata s). unfold parse_lines. rewrite Hs. split; [reflexivity | exact C1].
Qed.

Lemma single_comment_line_witness :
  comment (set_comment ["x"]
             (set_curves [CurveData_init] (set_sample_name " A" GraphData_init)))
  = [strip "  x "]
  /\ exists g', parse_lines ["#START comment"; "  x "; "#END comment"] = OK g'
                /\ comment g' = [strip "  x "].
Proof.
  apply (single_comment_line
           [" Sample name : A"] ["#START Curve description 0"]
           "#START comment" "  x " "#END comment"
           (set_comment ["x"]
              (set_curves [CurveData_init]
                 (set_sample_name " A" GraphData_init))));
    try reflexivity.
  - repeat constructor.
  - repeat constructor.
  - discriminate.
Defined.

(** ** The data of the curves along a parse *)

Lemma curve_inv (g : GraphData) (c : CurveData) :
  curve g = OK c -> curves g = (removelast (curves g) ++ [c])%list.
Proof.
  intro H. destruct (curves g) as [| d l] eqn:E.
  - rewrite (curve_nil g E) in H. discriminate H.
  - assert (N : curves g <> []) by (rewrite E; discriminate).
    rewrite (curve_last g d N) in H. inv_ok H. rewrite <- E.
    apply app_removelast_last. exact N.
Qed.

Lemma curve_In (g : GraphData) (c : CurveData) :
  curve g = OK c -> In c (curves g).
Proof.
  intro H. rewrite (curve_inv g c H). apply in_or_app. right. left.
  reflexivity.
Qed.

Lemma Forall_update_last
  (P : CurveData -> Prop) (g : GraphData) (c c' : CurveData) :
  curve g = OK c ->
  Forall P (curves g) ->
  P c' ->
  Forall P (removelast (curves g) ++ [c']).
Proof.
  intros Hc F Hp. rewrite (curve_inv g c Hc) in F.
  apply Forall_app in F. destruct F as [F _].
  apply Forall_app. split; [exact F | constructor; [exact Hp | constructor]].
Qed.

Section DataInvariant.

(** A property [Q] of arrays that the empty array has; it holds of the
    data of every curve as long as the rows read keep it. *)
Variable Q : ndarray -> Prop.
Hypothesis Q_empty : Q Np.empty0.

Local Abbreviation row_keeps := (row_keeps Q).
Local Abbreviation all_Q := (all_data Q).

Ltac keep_last :=
  simpl;
  match goal with
  | Hc : curve _ = OK ?c |- Forall _ (removelast _ ++ [_]) =>
      apply (Forall_update_last _ _ c _ Hc); [assumption |]; simpl
  end.

Lemma data_row_inv (st st' : state) (line : string) :
  row_keeps line ->
  all_Q st ->
  data_row st line = OK st' ->
  all_Q st'.
Proof.
  unfold all_data. intros HQ F H. unfold data_row in H.
  apply bind_ok in H. destruct H as [c [Hc H]].
  apply bind_ok in H. destruct H as [k [Hk H]].
  assert (Qc : Q (data c)).
  { pose proof (curve_In _ _ Hc) as I.
    rewrite Forall_forall in F. exact (F c I). }
  destruct (Z.eqb_spec k 0) as [-> | Nk]; simpl negb in H; cbv iota in H.
  - crunch H. frame_curves. keep_last.
    rewrite Hc in Hc0. inv_ok Hc0.
    apply (HQ c0 a (Arr1 a)); [exact Qc | assumption |].
    left. split; [exact Hk | reflexivity].
  - crunch H. frame_curves. keep_last.
    rewrite Hc in Ha. inv_ok Ha. rewrite Hc in Hc0. inv_ok Hc0.
    apply (HQ c0 a0 a1); [exact Qc | assumption |].
    right. exists k. split; [exact Hk |]. split; assumption.
Qed.

Lemma body_data_inv (st st' : state) (line : string) :
  (is_data_row st line = true -> row_keeps line) ->
  all_Q st ->
  body st line = OK st' ->
  all_Q st'.
Proof.
  unfold all_data. intros HQ F H. unfold body in H.
  destruct (startswith line "#START comment") eqn:E1;
    [crunch H; exact F |].
  destruct (reading_comment st) eqn:E2.
  { crunch H. unfold comment_line.
    repeat match goal with
           | |- context [if ?b then _ else _] => destruct b
           end; exact F. }
  destruct (startswith line "#START axis description") eqn:E3;
    [crunch H; exact F |].
  destruct (reading_axes_description st =? -1) eqn:E4; simpl negb in H;
    cbv iota in H; [| crunch_body H; exact F].
  destruct (startswith line "#START Curve description") eqn:E5.
  { crunch_body H. simpl.
    apply (Forall_update_last _ _ c _ Hc).
    - simpl. apply Forall_app. split; [exact F |].
      constructor; [exact Q_empty | constructor].
    - simpl. pose proof (curve_In _ _ Hc) as I. simpl in I.
      apply in_app_or in I. destruct I as [I | [I | []]].
      + rewrite Forall_forall in F. exact (F c I).
      + subst c. exact Q_empty. }
  destruct (startswith line "#START Date:") eqn:E6.
  { crunch_body H. keep_last.
    pose proof (curve_In _ _ Hc) as I. rewrite Forall_forall in F.
    exact (F c I). }
  destruct (startswith line "#START Time:") eqn:E7.
  { crunch_body H. keep_last.
    pose proof (curve_In _ _ Hc) as I. rewrite Forall_forall in F.
    exact (F c I). }
  destruct (startswith line "#START Curve Legend ") eqn:E8.
  { crunch_body H. keep_last.
    pose proof (curve_In _ _ Hc) as I. rewrite Forall_forall in F.
    exact (F c I). }
  apply bind_ok in H. destruct H as [p [E9 H]]. destruct p.
  { crunch_body H. keep_last.
    pose proof (curve_In _ _ Hc) as I. rewrite Forall_forall in F.
    exact (F c I). }
  destruct (startswith line "#START Curve Data") eqn:E10;
    [crunch H; exact F |].
  destruct (reading_data st) eqn:E11; [| crunch H; exact F].
  unfold data_line in H.
  apply bind_ok in H. destruct H as [e [E12 H]]. destruct e;
    [crunch H; exact F |].
  apply (data_row_inv st st' line); [| exact F | exact H].
  apply HQ. unfold is_data_row.
  rewrite E1, E2, E3, E4, E5, E6, E7, E8, E9, E10, E11, E12. reflexivity.
Qed.

(** [is_data_row] is the guard of lines 182-193 in the loop body. *)
Lemma data_row_reached (st : state) (line : string) :
  is_data_row st line = true -> body st line = data_row st line.
Proof.
  unfold is_data_row. intro H.
  repeat (apply andb_true_iff in H; let K := fresh "K" in destruct H as [H K]).
  unfold body, data_line.
  repeat match goal with
         | K : negb ?b = true |- _ => apply negb_true_iff in K; rewrite K
         end.
  apply Z.eqb_eq in K7. rewrite K7. simpl negb. cbv iota.
  destruct (is_points_tag st line) as [[|] |]; try discriminate K2.
  cbn [bind]. rewrite K0.
  destruct (is_data_end st line) as [[|] |]; try discriminate K.
  reflexivity.
Qed.

Lemma is_data_row_preamble (st st1 : state) (line : string) :
  preamble st line = OK st1 ->
  is_data_row st1 line = is_data_row st line.
Proof.
  intro H.
  destruct (preamble_flags st st1 line H) as [R [X [D [C _]]]].
  unfold is_data_row, is_points_tag, is_data_end, GraphData_bool, curve.
  rewrite R, X, D, C. reflexivity.
Qed.

Lemma step_data_inv (st st' : state) (line : string) :
  (is_data_row st line = true -> row_keeps line) ->
  all_Q st ->
  step st line = OK st' ->
  all_Q st'.
Proof.
  intros HQ F H. unfold step in H. inv_bind H.
  apply (body_data_inv a st' line).
  - rewrite (is_data_row_preamble st a line Ha). exact HQ.
  - unfold all_data in *.
    destruct (preamble_flags st a line Ha) as [_ [_ [_ [C _]]]].
    rewrite C. exact F.
  - exact H.
Qed.

End DataInvariant.

(** ** C3: names, units and the columns of the data *)

Lemma numbers_length (items : list string) (row : list float) :
  numbers items = OK row -> Np.zlength row = Np.zlength items.
Proof.
  revert row. induction items as [| item items IH]; intros row H; simpl in H.
  - inv_ok H. reflexivity.
  - crunch H. unfold Np.zlength in *. simpl List.length.
    specialize (IH a0 Ha0). lia.
Qed.

Lemma forallb_width (rows : list (list float)) (n : Z) :
  forallb (fun r => Np.zlength r =? n) rows = true ->
  Forall (fun r => Np.zlength r = n) rows.
Proof.
  intro H. apply Forall_forall. intros r I.
  rewrite forallb_forall in H. apply Z.eqb_eq. exact (H r I).
Qed.

(** A row put under the data of a curve makes an array as wide as the
    row. *)
Lemma put_row_width (n : Z) (c : CurveData) (row : list float) (a : ndarray) :
  rows_of_width n (data c) ->
  (getitem (Np.shape (data c)) 0 = OK 0 /\ a = Arr1 row)
  \/ (exists k, getitem (Np.shape (data c)) 0 = OK k /\ k <> 0
                /\ Np.vstack (data c) row = OK a) ->
  rows_of_width (Np.zlength row) a.
Proof.
  intros W [[_ ->] | [k [_ [_ V]]]].
  - right. reflexivity.
  - unfold Np.vstack in V.
    destruct (forallb _ _) eqn:F; [| discriminate V]. inv_ok V.
    apply forallb_width in F. split.
    + destruct (Np.atleast_2d (data c)); discriminate.
    + apply Forall_app. split; [exact F |].
      constructor; [reflexivity | constructor].
Qed.

Lemma run_width (n : Z) (lines : list string) (st st' : state) :
  rows_have n st lines = true ->
  all_data (rows_of_width n) st ->
  run st lines = OK st' ->
  all_data (rows_of_width n) st'.
Proof.
  revert st. induction lines as [| l lines IH]; intros st W F H; simpl in H.
  - inv_ok H. exact F.
  - inv_bind H. simpl in W. rewrite Ha in W.
    apply andb_true_iff in W. destruct W as [W1 W2].
    apply (IH a W2); [| exact H].
    apply (step_data_inv (rows_of_width n)) with (st := st) (line := l);
      [left; reflexivity | | exact F | exact Ha].
    intros D c row x Qc Hrow Hput. rewrite D in W1. apply Z.eqb_eq in W1.
    rewrite <- W1, <- (numbers_length _ _ Hrow).
    exact (put_row_width n c row x Qc Hput).
Qed.

Lemma body_names_units (st st' : state) (line : string) :
  body st line = OK st' ->
  List.length (names (gdata st)) = List.length (units (gdata st)) ->
  List.length (names (gdata st')) = List.length (units (gdata st')).
Proof.
  intros H E. crunch_body H; unfold comment_line;
    repeat match goal with
           | |- context [if ?b then _ else _] => destruct b
           end;
    simpl; rewrite ?length_app; simpl; lia.
Qed.

Lemma run_names_units (lines : list string) (st st' : state) :
  run st lines = OK st' ->
  List.length (names (gdata st)) = List.length (units (gdata st)) ->
  List.length (names (gdata st')) = List.length (units (gdata st')).
Proof.
  revert st. induction lines as [| l lines IH]; intros st H E; simpl in H.
  - inv_ok H. exact E.
  - inv_bind H. apply (IH a H). unfold step in Ha. inv_bind Ha.
    apply (body_names_units a0 a l Ha).
    destruct (preamble_flags st a0 l Ha0) as [_ [_ [_ [_ [N [U _]]]]]].
    rewrite N, U. exact E.
Qed.

Lemma width_ncols (n : Z) (a : ndarray) :
  rows_of_width n a -> size a <> 0 -> ncols a = n.
Proof.
  destruct a as [x | r | rows]; simpl.
  - intros [].
  - intros [-> | E] S; [contradiction S; reflexivity | exact E].
  - intros [N F] _. destruct rows as [| r rows]; [contradiction |].
    inversion F. assumption.
Qed.

(** C3: when the parse of a file succeeds, [names] and [units] have the
    same length; and when moreover every line handled as a data row
    carries [len(names)] tokens, the data of every curve whose data is
    not empty has [len(names)] columns. *)
Theorem names_units_columns (content : string) (g : GraphData) :
  read_grd content = OK g ->
  List.length (names g) = List.length (units g)
  /\ (rows_have (Np.zlength (names g)) state_init
                (splitlines (universal_newlines content)) = true ->
      forall c, In c (curves g) ->
                size (data c) <> 0 ->
                ncols (data c) = Np.zlength (names g)).
Proof.
  unfold read_grd, parse_lines. intro H. inv_bind H. inv_ok H. split.
  - apply (run_names_units _ _ _ Ha). reflexivity.
  - intros W c I S. apply width_ncols; [| exact S].
    assert (F : all_data (rows_of_width (Np.zlength (names (gdata a)))) a).
    { apply (run_width _ _ state_init a W); [constructor | exact Ha]. }
    unfold all_data in F. rewrite Forall_forall in F. exact (F c I).
Qed.

Lemma names_units_columns_witness :
  List.length (names twins) = List.length (units twins)
  /\ forall c, In c (curves twins) ->
               size (data c) <> 0 ->
               ncols (data c) = Np.zlength (names twins).
Proof.
  destruct (names_units_columns twins_file twins) as [H1 H2];
    [vm_compute; reflexivity |].
  split; [exact H1 | apply H2; vm_compute; reflexivity].
Defined.

(** ** C6: the channel data of a curve *)

Lemma put_row_rectangular (line : string) : row_keeps rectangular line.
Proof.
  intros c row a [n W] _ Hput. exists (Np.zlength row).
  exact (put_row_width n c row a W Hput).
Qed.

Lemma run_rectangular (lines : list string) (st st' : state) :
  all_data rectangular st ->
  run st lines = OK st' ->
  all_data rectangular st'.
Proof.
  revert st. induction lines as [| l lines IH]; intros st F H; simpl in H.
  - inv_ok H. exact F.
  - inv_bind H. apply (IH a); [| exact H].
    apply (step_data_inv rectangular) with (st := st) (line := l);
      [exists 0; left; reflexivity | | exact F | exact Ha].
    intros _. apply put_row_rectangular.
Qed.

Lemma index_from_spec (l : list string) (x : string) (i col : Z) :
  index_from l x i = OK col ->
  i <= col
  /\ nth_error l (Z.to_nat (col - i)) = Some x.
Proof.
  revert i. induction l as [| y l IH]; intros i H; simpl in H;
    [discriminate H |].
  destruct (String.eqb_spec y x) as [-> | _].
  - inv_ok H. rewrite Z.sub_diag. split; [lia | reflexivity].
  - destruct (IH (i + 1) H) as [L N]. split; [lia |].
    replace (Z.to_nat (col - i)) with (S (Z.to_nat (col - (i + 1)))) by lia.
    exact N.
Qed.

Lemma index_from_absent (l : list string) (x : string) (i : Z) :
  ~ In x l -> index_from l x i = Err ValueError.
Proof.
  revert i. induction l as [| y l IH]; intros i N; simpl; [reflexivity |].
  destruct (String.eqb_spec y x) as [E | _].
  - contradiction N. left. exact E.
  - apply IH. intro I. apply N. right. exact I.
Qed.

Lemma index_from_present (l : list string) (x : string) (i : Z) :
  In x l -> exists col, index_from l x i = OK col.
Proof.
  revert i. induction l as [| y l IH]; intros i I; simpl; [destruct I |].
  destruct (String.eqb_spec y x) as [E | N]; [eexists; reflexivity |].
  destruct I as [I | I]; [contradiction | apply IH; exact I].
Qed.

Lemma first_curve_split (cs : list CurveData) (n : Z) (c : CurveData) :
  first_curve cs n = Some c ->
  exists pre post,
    cs = (pre ++ c :: post)%list
    /\ curve_number c = n
    /\ Forall (fun c' => curve_number c' <> n) pre.
Proof.
  unfold first_curve. induction cs as [| d cs IH]; simpl; [discriminate |].
  destruct (Z.eqb_spec (curve_number d) n) as [E | N]; intro H.
  - injection H as <-. exists [], cs.
    split; [reflexivity | split; [exact E | constructor]].
  - destruct (IH H) as [pre [post [-> [E F]]]].
    exists (d :: pre), post.
    split; [reflexivity | split; [exact E | constructor; assumption]].
Qed.

Lemma scan_curves_none (cs : list CurveData) (n i : Z) :
  first_curve cs n = None -> scan_curves cs n i = -1.
Proof.
  unfold first_curve. revert i. induction cs as [| d cs IH]; intro i; simpl;
    [reflexivity |].
  destruct (curve_number d =? n); [discriminate | apply IH].
Qed.

Lemma getitem_in_range {A : Type} (l : list A) (i : Z) (d : A) :
  0 <= i < Np.zlength l -> getitem l i = OK (nth (Z.to_nat i) l d).
Proof.
  unfold Np.zlength. intro R.
  rewrite <- (Z2Nat.id i) at 1 by lia. apply getitem_nth_error.
  apply nth_error_nth'. lia.
Qed.

Lemma getitem_beyond {A : Type} (l : list A) (i : Z) :
  Np.zlength l <= i -> getitem l i = Err IndexError.
Proof.
  unfold Np.zlength, getitem. intro R.
  destruct (Z.ltb_spec i 0) as [N | _]; [lia |].
  destruct (Z.ltb_spec i 0) as [N | _]; [lia |].
  destruct (Z.leb_spec (Z.of_nat (List.length l)) i) as [_ | N]; [| lia].
  reflexivity.
Qed.

Lemma take_column_width (col n : Z) (rows : list (list float)) :
  0 <= col < n ->
  Forall (fun r => Np.zlength r = n) rows ->
  Np.take_column col rows = OK (column col rows).
Proof.
  intros R F. induction F as [| r rows Hr _ IH]; simpl; [reflexivity |].
  rewrite (getitem_in_range r col S754_nan) by lia. cbn [bind].
  rewrite IH. reflexivity.
Qed.

(** Indexing the last axis of an array of the parser. *)
Lemma getitem_last_spec (a : ndarray) (col : Z) :
  rectangular a ->
  0 <= col ->
  (col < ncols a ->
   exists r, Np.getitem_last a col = OK r
             /\ values r = column col (rows_of a))
  /\ (ncols a <= col -> Np.getitem_last a col = Err IndexError).
Proof.
  intros [n W] P. destruct a as [x | r | rows]; simpl in W.
  - destruct W.
  - unfold ncols. simpl. split; intro R.
    + rewrite (getitem_in_range r col S754_nan) by lia. cbn [bind].
      eexists. split; [reflexivity |].
      destruct r as [| y r]; [unfold Np.zlength in R; simpl in R; lia |].
      reflexivity.
    + rewrite (getitem_beyond r col R). reflexivity.
  - destruct W as [N F]. destruct rows as [| r0 rows]; [contradiction |].
    assert (E : Np.zlength r0 = n) by (inversion F; assumption).
    unfold ncols. simpl. rewrite E.
    pose proof (zlength_nonneg r0) as Z0. split; intro R.
    + destruct (Z.ltb_spec col (- n)) as [B | _]; [lia |].
      destruct (Z.leb_spec n col) as [B | _]; [lia |]. simpl orb. cbv iota.
      change (let* x := getitem r0 col in
              let* xs := Np.take_column col rows in OK (x :: xs))
        with (Np.take_column col (r0 :: rows)).
      rewrite (take_column_width col n (r0 :: rows)) by (lia || exact F).
      cbn [bind]. eexists. split; reflexivity.
    + destruct (Z.leb_spec n col) as [_ | B]; [| lia].
      rewrite orb_true_r. reflexivity.
Qed.

(** C6, as stated, fails: the file parses, the channel is one of the
    names and a curve carries the number, yet the lookup raises, because
    the curve holds no row of data. *)
Lemma channel_lookup_counterexample :
  exists g, read_grd no_rows_file = OK g
            /\ In "Time" (names g)
            /\ (exists c, In c (curves g) /\ curve_number c = 1)
            /\ GraphData_getitem g (1, "Time") = Err IndexError
            /\ ~ (exists a, GraphData_getitem g (1, "Time") = OK a).
Proof.
  eexists. split; [vm_compute; reflexivity |].
  split; [left; reflexivity |].
  split; [eexists; split; [left; reflexivity | reflexivity] |].
  split; [reflexivity | intros [a H]; discriminate H].
Qed.


(** ** C4: the lines of the axis description *)

Lemma snoc_not_empty (s : string) (c : ascii) : is_empty (snoc s c) = false.
Proof. destruct s; reflexivity. Qed.

Lemma split_ws_from_word (cur s : string) :
  is_empty cur = false ->
  (1 <= List.length (split_ws_from None cur s))%nat.
Proof.
  revert cur. induction s as [| c s IH]; intros cur E; simpl; rewrite E.
  - simpl. lia.
  - destruct (isspace c); [simpl; lia |].
    apply IH. apply snoc_not_empty.
Qed.

(** [split(maxsplit=n)] gives the words of [split()] up to [n] of them,
    and one more item when words are left. *)
Lemma split_ws_from_length (s : string) (n : nat) (cur : string) :
  List.length (split_ws_from (Some n) cur s)
  = Nat.min (List.length (split_ws_from None cur s))
            (n + 1 + (if is_empty cur then 0 else 1)).
Proof.
  revert n cur. induction s as [| c s IH]; intros n cur;
    cbn [split_ws_from].
  - destruct (is_empty cur); cbn [List.length]; lia.
  - destruct (isspace c).
    + destruct (is_empty cur) eqn:E; cbn [List.length]; rewrite IH;
        cbn [is_empty]; lia.
    + destruct (is_empty cur) eqn:E.
      * destruct n as [| n].
        -- pose proof (split_ws_from_word (String c "") s eq_refl).
           cbn [List.length]. lia.
        -- rewrite IH. cbn [is_empty]. lia.
      * rewrite IH. rewrite snoc_not_empty. lia.
Qed.

Lemma split_ws_max_length (n : nat) (s : string) :
  List.length (split_ws_max n s)
  = Nat.min (List.length (split_ws s)) (n + 1).
Proof.
  unfold split_ws_max, split_ws. rewrite split_ws_from_length.
  cbn [is_empty]. lia.
Qed.

Lemma getitem_negative_ok {A : Type} (l : list A) (i : Z) :
  - Np.zlength l <= i < 0 -> exists a, getitem l i = OK a.
Proof.
  unfold Np.zlength, getitem. intro R.
  destruct (Z.ltb_spec i 0) as [_ | N]; [| lia].
  destruct (Z.ltb_spec (i + Z.of_nat (List.length l)) 0) as [N | _]; [lia |].
  destruct (Z.leb_spec (Z.of_nat (List.length l))
                       (i + Z.of_nat (List.length l))) as [N | _]; [lia |].
  simpl orb. cbv iota.
  destruct (nth_error l (Z.to_nat (i + Z.of_nat (List.length l)))) eqn:E;
    [eexists; reflexivity |].
  apply nth_error_None in E. lia.
Qed.


(** * Further properties *)

(** ** The lines of the text *)

Lemma splitlines_universal_from (s cur : string) (pc : bool) :
  splitlines_from cur false (universal_newlines_from pc s)
  = splitlines_from cur pc s.
Proof.
  revert cur pc. induction s as [| c s IH]; intros cur pc; simpl;
    [reflexivity |].
  destruct (Ascii.eqb_spec c CR) as [-> | NCR].
  - simpl. rewrite IH. reflexivity.
  - destruct (Ascii.eqb_spec c LF) as [-> | NLF]; simpl.
    + destruct pc; simpl; rewrite IH; reflexivity.
    + destruct (Ascii.eqb_spec c LF) as [E | _]; [contradiction |].
      destruct (Ascii.eqb_spec c CR) as [E | _]; [contradiction |].
      simpl. destruct (is_linebreak c); rewrite IH; reflexivity.
Qed.

Lemma splitlines_universal (s : string) :
  splitlines (universal_newlines s) = splitlines s.
Proof. apply splitlines_universal_from. Qed.

(** X1: reading in text mode with universal newlines does not change the
    lines [splitlines] gives, so [read_grd] is the loop over the lines of
    the raw text. *)
Theorem read_grd_raw_lines (content : string) :
  splitlines (universal_newlines content) = splitlines content
  /\ read_grd content = parse_lines (splitlines content).
Proof.
  split; [apply splitlines_universal |].
  unfold read_grd. rewrite splitlines_universal. reflexivity.
Qed.

Lemma string_app_nil (s : string) : s ++ "" = s.
Proof. induction s as [| c s IH]; simpl; [| rewrite IH]; reflexivity. Qed.

Lemma string_app_assoc (a b c : string) : (a ++ b) ++ c = a ++ b ++ c.
Proof. induction a as [| x a IH]; simpl; [| rewrite IH]; reflexivity. Qed.

Lemma splitlines_from_line (l rest cur : string) :
  no_linebreak l = true ->
  splitlines_from cur false (l ++ rest) = splitlines_from (cur ++ l) false rest.
Proof.
  revert cur. induction l as [| c l IH]; intros cur H; simpl in *.
  - rewrite string_app_nil. reflexivity.
  - apply andb_true_iff in H. destruct H as [Hc Hl].
    apply negb_true_iff in Hc. rewrite Hc, andb_false_r.
    rewrite (IH _ Hl). unfold snoc. rewrite string_app_assoc. reflexivity.
Qed.

Lemma splitlines_from_after_cr (l rest cur : string) (c : ascii) :
  is_linebreak c = false ->
  splitlines_from cur true (String c rest)
  = splitlines_from cur false (String c rest).
Proof.
  intro H. simpl. rewrite H.
  destruct (Ascii.eqb_spec c LF) as [-> | _]; [discriminate H | reflexivity].
Qed.

Lemma splitlines_join_lf (lines : list string) :
  Forall (fun l => no_linebreak l = true) lines ->
  splitlines_from "" false (join_lines (String LF "") lines) = lines.
Proof.
  induction 1 as [| l lines Hl _ IH]; simpl; [reflexivity |].
  rewrite (splitlines_from_line l _ "" Hl). simpl. rewrite IH. reflexivity.
Qed.

Lemma splitlines_join_crlf (lines : list string) :
  Forall (fun l => no_linebreak l = true) lines ->
  splitlines_from "" false (join_lines (String CR (String LF "")) lines)
  = lines.
Proof.
  induction 1 as [| l lines Hl _ IH]; simpl; [reflexivity |].
  rewrite (splitlines_from_line l _ "" Hl). simpl. rewrite IH. reflexivity.
Qed.

Lemma splitlines_join_cr (lines : list string) (pc : bool) :
  Forall (fun l => no_linebreak l = true) lines ->
  splitlines_from "" pc (join_lines (String CR "") lines) = lines.
Proof.
  intro F. revert pc. induction F as [| l lines Hl _ IH]; intro pc; simpl;
    [reflexivity |].
  destruct l as [| c l].
  - simpl. rewrite IH. reflexivity.
  - assert (Hc : is_linebreak c = false).
    { simpl in Hl. apply andb_true_iff in Hl. destruct Hl as [Hc _].
      apply negb_true_iff in Hc. exact Hc. }
    change (String c l ++ String CR (join_lines (String CR "") lines))
      with (String c (l ++ String CR (join_lines (String CR "") lines))).
    destruct pc; [rewrite (splitlines_from_after_cr l _ "" c Hc) |];
      change (String c (l ++ String CR (join_lines (String CR "") lines)))
        with (String c l ++ String CR (join_lines (String CR "") lines));
      rewrite (splitlines_from_line (String c l) _ "" Hl); simpl;
      rewrite IH; reflexivity.
Qed.

(** X2: a text made of lines free of line boundaries, each ended by a
    line feed, by a carriage return or by both, is parsed as the loop
    over exactly these lines: the three conventions give one result and
    no empty line is added at the end. *)
Theorem read_grd_join_lines (eol : string) (lines : list string) :
  eol = String LF "" \/ eol = String CR (String LF "") \/ eol = String CR "" ->
  Forall (fun l => no_linebreak l = true) lines ->
  splitlines (join_lines eol lines) = lines
  /\ read_grd (join_lines eol lines) = parse_lines lines.
Proof.
  intros He F.
  assert (E : splitlines (join_lines eol lines) = lines).
  { destruct He as [-> | [-> | ->]].
    - apply splitlines_join_lf. exact F.
    - apply splitlines_join_crlf. exact F.
    - apply splitlines_join_cr. exact F. }
  split; [exact E |].
  unfold read_grd. rewrite splitlines_universal, E. reflexivity.
Qed.

Lemma read_grd_join_lines_witness :
  splitlines (join_lines (String CR (String LF ""))
                         ["#START comment"; ""; "a b"])
  = ["#START comment"; ""; "a b"]
  /\ read_grd (join_lines (String CR (String LF ""))
                          ["#START comment"; ""; "a b"])
     = parse_lines ["#START comment"; ""; "a b"].
Proof.
  apply (read_grd_join_lines (String CR (String LF ""))
           ["#START comment"; ""; "a b"]).
  - right. left. reflexivity.
  - repeat constructor.
Defined.

(** ** Before the first tag *)

Lemma startswith_longer (line p q : string) :
  startswith line p = false -> startswith line (p ++ q) = false.
Proof.
  intro H. destruct (startswith line (p ++ q)) eqn:E; [| reflexivity].
  apply startswith_inv in E. destruct E as [rest ->].
  rewrite string_app_assoc, startswith_app in H. discriminate H.
Qed.

Ltac no_start H q :=
  rewrite (startswith_longer _ "#START" q H).

(** A line without [#START] is left alone by the checks after the
    preamble as long as no block is open and no curve exists. *)
Lemma body_idle (st : state) (line : string) :
  reading_comment st = false ->
  reading_axes_description st = -1 ->
  reading_data st = false ->
  curves (gdata st) = [] ->
  startswith line "#START" = false ->
  body st line = OK st.
Proof.
  intros Hrc Hax Hrd Hcs H. unfold body.
  change "#START comment" with ("#START" ++ " comment").
  change "#START axis description" with ("#START" ++ " axis description").
  change "#START Curve description" with ("#START" ++ " Curve description").
  change "#START Date:" with ("#START" ++ " Date:").
  change "#START Time:" with ("#START" ++ " Time:").
  change "#START Curve Legend " with ("#START" ++ " Curve Legend ").
  change "#START Curve Data" with ("#START" ++ " Curve Data").
  rewrite !(startswith_longer _ "#START" _ H).
  rewrite Hrc, Hax, Hrd. simpl negb. cbv iota.
  unfold is_points_tag, GraphData_bool. rewrite Hcs. reflexivity.
Qed.

Lemma preamble_first_lines (st st1 : state) (line : string) :
  startswith line "#START" = false ->
  preamble st line = OK st1 ->
  first_lines st1 = first_lines st.
Proof.
  intros H P. unfold preamble in P. rewrite H in P.
  crunch P; simpl; auto.
Qed.

Lemma step_before_body (st : state) (line : string) :
  before_body st ->
  startswith line "#START" = false ->
  step st line = preamble st line
  /\ exists st', preamble st line = OK st' /\ before_body st'.
Proof.
  intros [F [Hrc [Hax [Hrd [Hn [Hu [Hcs Hcm]]]]]]] H.
  destruct (preamble_total st line) as [s1 P].
  destruct (preamble_flags _ _ _ P) as [R [X [D [C [N [U M]]]]]].
  pose proof (preamble_first_lines _ _ _ H P) as F1.
  rewrite Hrc in R. rewrite Hax in X. rewrite Hrd in D. rewrite Hcs in C.
  rewrite Hn in N. rewrite Hu in U. rewrite Hcm in M. rewrite F in F1.
  split.
  - unfold step. rewrite P. cbn [bind]. apply body_idle; assumption.
  - exists s1. split; [exact P |]. repeat split; assumption.
Qed.

Lemma run_before_body (lines : list string) (st : state) :
  before_body st ->
  Forall (fun l => startswith l "#START" = false) lines ->
  exists st', run st lines = OK st' /\ before_body st'.
Proof.
  intros B F. revert st B. induction F as [| l lines Hl _ IH]; intros st B.
  - exists st. split; [reflexivity | exact B].
  - destruct (step_before_body st l B Hl) as [E [s1 [P B1]]].
    destruct (IH s1 B1) as [s2 [R B2]].
    exists s2. split; [| exact B2]. simpl. rewrite E, P. exact R.
Qed.

Lemma before_body_init : before_body state_init.
Proof. repeat split. Qed.

(** X3: a file in which no line starts with [#START] never makes the
    parse fail, whatever its lines hold, and gives no names, no units, no
    curves and no comment. *)
Theorem no_tag_no_failure (lines : list string) :
  Forall (fun l => startswith l "#START" = false) lines ->
  exists g, parse_lines lines = OK g
            /\ names g = [] /\ units g = [] /\ curves g = []
            /\ comment g = [].
Proof.
  intro F.
  destruct (run_before_body lines state_init before_body_init F)
    as [st [R [_ [_ [_ [_ [Hn [Hu [Hcs Hcm]]]]]]]]].
  exists (gdata st). unfold parse_lines. rewrite R.
  split; [reflexivity |]. repeat split; assumption.
Qed.

Lemma no_tag_no_failure_witness :
  exists g, parse_lines ["0.5 x"; " Date        : May"; "#END Curve 1 -"] = OK g
            /\ names g = [] /\ units g = [] /\ curves g = []
            /\ comment g = [].
Proof.
  apply (no_tag_no_failure ["0.5 x"; " Date        : May"; "#END Curve 1 -"]).
  repeat constructor.
Defined.

Lemma split_on_zero (sep : ascii) (s : string) :
  split_on sep (Some 0%nat) s = [s].
Proof. destruct s; reflexivity. Qed.

Ltac label_line F :=
  unfold preamble, after_colon; simpl;
  rewrite ?prefix_nil, ?startswith_nil, ?F, ?split_on_zero; reflexivity.

Lemma preamble_sample_name (st : state) (v : string) :
  first_lines st = true ->
  preamble st (" Sample name :" ++ v)
  = OK (with_gdata (set_sample_name v (gdata st)) st).
Proof. intro F. label_line F. Qed.

Lemma preamble_date (st : state) (v : string) :
  first_lines st = true ->
  preamble st (" Date        :" ++ v)
  = OK (with_gdata (set_date v (gdata st)) st).
Proof. intro F. label_line F. Qed.

Lemma preamble_specific_info (st : state) (v : string) :
  first_lines st = true ->
  preamble st (" Specific inf:" ++ v)
  = OK (with_gdata (set_specific_info v (gdata st)) st).
Proof. intro F. label_line F. Qed.

Lemma preamble_user_info (st : state) (v : string) :
  first_lines st = true ->
  preamble st (" User info   :" ++ v)
  = OK (with_gdata (set_user_info v (gdata st)) st).
Proof. intro F. label_line F. Qed.

Lemma parse_label_line (pre : list string) (line : string)
  (f : GraphData -> GraphData) :
  Forall (fun l => startswith l "#START" = false) pre ->
  startswith line "#START" = false ->
  (forall st, first_lines st = true ->
              preamble st line = OK (with_gdata (f (gdata st)) st)) ->
  exists g0, parse_lines pre = OK g0
             /\ parse_lines (pre ++ [line]) = OK (f g0).
Proof.
  intros F H P.
  destruct (run_before_body pre state_init before_body_init F) as [st [R B]].
  exists (gdata st). unfold parse_lines. rewrite run_app, R. cbn [bind].
  split; [reflexivity |]. simpl run.
  destruct (step_before_body st line B H) as [E _].
  destruct B as [F1 _]. rewrite E, (P st F1). reflexivity.
Qed.

(** X4: before the first [#START] line, a line that starts with one of
    the four labels sets its field to the text after the label's colon,
    taken as it is: blanks are kept and so are later colons. *)
Theorem preamble_field_verbatim (pre : list string) (v : string) :
  Forall (fun l => startswith l "#START" = false) pre ->
  (exists g, parse_lines (pre ++ [" Sample name :" ++ v]) = OK g
             /\ sample_name g = v)
  /\ (exists g, parse_lines (pre ++ [" Date        :" ++ v]) = OK g
                /\ date g = v)
  /\ (exists g, parse_lines (pre ++ [" Specific inf:" ++ v]) = OK g
                /\ specific_info g = v)
  /\ (exists g, parse_lines (pre ++ [" User info   :" ++ v]) = OK g
                /\ user_info g = v).
Proof.
  intro F. repeat split.
  - destruct (parse_label_line pre (" Sample name :" ++ v) (set_sample_name v)
                F eq_refl (fun st => preamble_sample_name st v))
      as [g0 [_ E]].
    eexists. split; [exact E | reflexivity].
  - destruct (parse_label_line pre (" Date        :" ++ v) (set_date v)
                F eq_refl (fun st => preamble_date st v))
      as [g0 [_ E]].
    eexists. split; [exact E | reflexivity].
  - destruct (parse_label_line pre (" Specific inf:" ++ v)
                (set_specific_info v)
                F eq_refl (fun st => preamble_specific_info st v))
      as [g0 [_ E]].
    eexists. split; [exact E | reflexivity].
  - destruct (parse_label_line pre (" User info   :" ++ v) (set_user_info v)
                F eq_refl (fun st => preamble_user_info st v))
      as [g0 [_ E]].
    eexists. split; [exact E | reflexivity].
Qed.

Lemma preamble_field_verbatim_witness :
  (exists g, parse_lines (["x"] ++ [" Sample name :" ++ " a: b "]) = OK g
             /\ sample_name g = " a: b ")
  /\ (exists g, parse_lines (["x"] ++ [" Date        :" ++ " a: b "]) = OK g
                /\ date g = " a: b ")
  /\ (exists g, parse_lines (["x"] ++ [" Specific inf:" ++ " a: b "]) = OK g
                /\ specific_info g = " a: b ")
  /\ (exists g, parse_lines (["x"] ++ [" User info   :" ++ " a: b "]) = OK g
                /\ user_info g = " a: b ").
Proof.
  apply (preamble_field_verbatim ["x"] " a: b "). repeat constructor.
Defined.

(** ** Inside a comment block *)






(** ** Names, units and shapes of a parsed file *)

Lemma occurs_replace (a b : ascii) (s : string) :
  a <> b -> occurs a (replace a b s) = false.
Proof.
  intro N. induction s as [| c s IH]; simpl; [reflexivity |].
  rewrite IH, orb_false_r.
  destruct (Ascii.eqb_spec c a) as [-> | Nc].
  - apply Ascii.eqb_neq. intro E. apply N. symmetry. exact E.
  - apply Ascii.eqb_neq. exact Nc.
Qed.

Lemma body_names (st st' : state) (line : string) :
  body st line = OK st' ->
  names (gdata st') = names (gdata st)
  \/ exists t, names (gdata st')
               = (names (gdata st) ++ [replace " " "_" (strip t)])%list.
Proof.
  intro H. crunch_body H; unfold comment_line, axis_name in *;
    repeat match goal with
           | |- context [if ?b then _ else _] => destruct b
           end;
    repeat match goal with
           | K : bind _ _ = OK _ |- _ => crunch K
           end;
    simpl; try (left; reflexivity); right; eexists; reflexivity.
Qed.

Lemma run_names_no_space (lines : list string) (st st' : state) :
  Forall (fun n => occurs " " n = false) (names (gdata st)) ->
  run st lines = OK st' ->
  Forall (fun n => occurs " " n = false) (names (gdata st')).
Proof.
  revert st. induction lines as [| l lines IH]; intros st F H; simpl in H.
  - inv_ok H. exact F.
  - inv_bind H. apply (IH a); [| exact H].
    unfold step in Ha. inv_bind Ha.
    destruct (preamble_flags _ _ _ Ha0) as [_ [_ [_ [_ [N _]]]]].
    destruct (body_names _ _ _ Ha) as [E | [t E]]; rewrite E, N.
    + exact F.
    + apply Forall_app. split; [exact F |].
      constructor; [| constructor]. apply occurs_replace. discriminate.
Qed.

(** X6: no channel name of a parsed file holds a space character. *)
Theorem names_hold_no_space (content : string) (g : GraphData) :
  read_grd content = OK g ->
  Forall (fun n => occurs " " n = false) (names g).
Proof.
  unfold read_grd, parse_lines. intro H. inv_bind H. inv_ok H.
  apply (run_names_no_space _ state_init a) in Ha; [exact Ha | constructor].
Qed.

Lemma names_hold_no_space_witness :
  Forall (fun n => occurs " " n = false) (names twins).
Proof.
  apply (names_hold_no_space twins_file twins). vm_compute. reflexivity.
Defined.



Lemma put_row_well_shaped (line : string) : row_keeps well_shaped line.
Proof.
  intros c row a W _ [[_ ->] | [k [Hk [Nk V]]]]; [exact I |].
  unfold Np.vstack in V.
  destruct (forallb _ _) eqn:F; [| discriminate V]. inv_ok V.
  apply forallb_width in F.
  destruct (data c) as [x | r | rows]; simpl in *.
  - destruct W.
  - split; [lia |]. exists (Np.zlength row). split.
    + inversion F as [| ? ? E _]. subst. rewrite <- E.
      unfold getitem in Hk. simpl in Hk. inv_ok Hk.
      pose proof (zlength_nonneg r). lia.
    + inversion F as [| ? ? E _]. repeat constructor. exact E.
  - destruct W as [L [n [Pn Fn]]]. split.
    + rewrite length_app. simpl. lia.
    + exists (Np.zlength row). split.
      * destruct rows as [| r rows]; [simpl in L; lia |].
        inversion F as [| ? ? E _]. inversion Fn as [| ? ? E' _]. subst. lia.
      * apply Forall_app. split; [exact F | repeat constructor].
Qed.

Lemma run_well_shaped (lines : list string) (st st' : state) :
  all_data well_shaped st ->
  run st lines = OK st' ->
  all_data well_shaped st'.
Proof.
  revert st. induction lines as [| l lines IH]; intros st F H; simpl in H.
  - inv_ok H. exact F.
  - inv_bind H. apply (IH a); [| exact H].
    apply (step_data_inv well_shaped) with (st := st) (line := l);
      [exact I | | exact F | exact Ha].
    intros _. apply put_row_well_shaped.
Qed.

(** X8: the data of every curve of a parsed file is never a scalar: it
    is one-dimensional (no row, or the first row alone) or two-dimensional
    with at least two rows, at least one column and rows of one common
    length, whatever the file holds. *)
Theorem parsed_data_shapes (content : string) (g : GraphData) :
  read_grd content = OK g ->
  Forall (fun c => well_shaped (data c)) (curves g).
Proof.
  unfold read_grd, parse_lines. intro H. inv_bind H. inv_ok H.
  apply (run_well_shaped _ state_init a) in Ha; [exact Ha | constructor].
Qed.

Lemma parsed_data_shapes_witness :
  Forall (fun c => well_shaped (data c)) (curves twins).
Proof.
  apply (parsed_data_shapes twins_file twins). vm_compute. reflexivity.
Defined.

(** ** Lines that make the parse fail *)

Lemma blank_line_no_tag (line p : string) :
  split_ws line = [] -> startswith line (String "#" p) = false.
Proof.
  intro H. destruct (startswith line (String "#" p)) eqn:E; [| reflexivity].
  apply startswith_inv in E. destruct E as [rest ->].
  unfold split_ws in H. simpl in H.
  pose proof (split_ws_from_word "#" (p ++ rest) eq_refl) as L.
  rewrite H in L. simpl in L. lia.
Qed.

Lemma length_zero_nil {A : Type} (l : list A) : List.length l = 0%nat -> l = [].
Proof. destruct l; [reflexivity | discriminate]. Qed.

(** X9: inside the axis description, after its header line, a line
    without any token (empty or blank) makes the parse fail with
    [IndexError]. *)
Theorem blank_axis_line_fails (st : state) (line : string) :
  reading_comment st = false ->
  0 < reading_axes_description st ->
  split_ws line = [] ->
  step st line = Err IndexError.
Proof.
  intros Hrc Hax Hb.
  destruct (preamble_total st line) as [s1 P].
  destruct (preamble_flags _ _ _ P) as [R [X _]].
  rewrite Hrc in R. unfold step. rewrite P. cbn [bind]. unfold body.
  rewrite (blank_line_no_tag line "START comment" Hb), R.
  rewrite (blank_line_no_tag line "START axis description" Hb).
  destruct (Z.eqb_spec (reading_axes_description s1) (-1)) as [E | _];
    [lia |].
  simpl negb. cbv iota. unfold axis_line.
  rewrite (blank_line_no_tag line "END axis description" Hb).
  destruct (Z.ltb_spec 0 (reading_axes_description s1)) as [_ | B]; [| lia].
  unfold axis_name.
  assert (E : split_ws_max 10 line = []).
  { apply length_zero_nil. rewrite split_ws_max_length, Hb. reflexivity. }
  rewrite E. reflexivity.
Qed.

Lemma blank_axis_line_fails_witness :
  step (with_reading_axes_description 1 state_init) "  " = Err IndexError.
Proof.
  apply (blank_axis_line_fails (with_reading_axes_description 1 state_init)
           "  ");
    reflexivity.
Defined.





(** ** The curves along the file *)

Lemma frozen_refl {A : Type} (cs : list A) :
  exists tail, cs = (removelast cs ++ tail)%list /\ (cs <> [] -> tail <> []).
Proof.
  destruct cs as [| d cs].
  - exists []. split; [reflexivity | intro N; exact N].
  - exists [last (d :: cs) d]. split; [| intros _; discriminate].
    apply app_removelast_last. discriminate.
Qed.

Lemma frozen_app {A : Type} (cs t : list A) :
  exists tail, (cs ++ t)%list = (removelast cs ++ tail)%list
               /\ (cs <> [] -> tail <> []).
Proof.
  destruct (frozen_refl cs) as [tail [E N]].
  exists (tail ++ t)%list. split.
  - rewrite app_assoc, <- E. reflexivity.
  - intros H K. apply app_eq_nil in K. destruct K as [K _]. exact (N H K).
Qed.

Lemma frozen_trans {A : Type} (c0 c1 c2 t1 t2 : list A) :
  c1 = (removelast c0 ++ t1)%list -> (c0 <> [] -> t1 <> []) ->
  c2 = (removelast c1 ++ t2)%list -> (c1 <> [] -> t2 <> []) ->
  exists tail, c2 = (removelast c0 ++ tail)%list /\ (c0 <> [] -> tail <> []).
Proof.
  intros E1 N1 E2 N2. destruct c0 as [| d c0].
  - exists c2. split; [reflexivity | intro N; contradiction N; reflexivity].
  - assert (T : t1 <> []) by (apply N1; discriminate).
    exists (removelast t1 ++ t2)%list. split.
    + rewrite E2, E1, (removelast_app _ T), app_assoc. reflexivity.
    + intros _ K. apply app_eq_nil in K. destruct K as [_ K].
      apply N2; [| exact K]. rewrite E1. intro Z.
      apply app_eq_nil in Z. destruct Z as [_ Z]. exact (T Z).
Qed.

Lemma body_curves_frozen (st st' : state) (line : string) :
  body st line = OK st' ->
  exists tail,
    curves (gdata st') = (removelast (curves (gdata st)) ++ tail)%list
    /\ (curves (gdata st) <> [] -> tail <> []).
Proof.
  intro H. crunch_body H; unfold comment_line;
    repeat match goal with
           | |- context [if ?b then _ else _] => destruct b
           end;
    simpl;
    first [ apply frozen_refl
          | rewrite removelast_last; apply frozen_app
          | eexists; split; [reflexivity | intros _; discriminate] ].
Qed.

Lemma run_curves_frozen (lines : list string) (st st' : state) :
  run st lines = OK st' ->
  exists tail,
    curves (gdata st') = (removelast (curves (gdata st)) ++ tail)%list
    /\ (curves (gdata st) <> [] -> tail <> []).
Proof.
  revert st. induction lines as [| l lines IH]; intros st H; simpl in H.
  - inv_ok H. apply frozen_refl.
  - inv_bind H. unfold step in Ha. inv_bind Ha.
    destruct (preamble_flags _ _ _ Ha0) as [_ [_ [_ [C _]]]].
    destruct (body_curves_frozen _ _ _ Ha) as [t1 [E1 N1]].
    destruct (IH a H) as [t2 [E2 N2]]. rewrite C in E1, N1.
    exact (frozen_trans _ _ _ t1 t2 E1 N1 E2 N2).
Qed.

(** X11: only the latest curve is ever written to.  Cut a file anywhere:
    all curves the first part gave, but its latest, stand unchanged and in
    place at the head of the curves of the whole file, and the whole file
    has at least as many curves. *)
Theorem earlier_curves_final (pre post : list string) (g : GraphData) :
  parse_lines (pre ++ post) = OK g ->
  exists g0 tail,
    parse_lines pre = OK g0
    /\ curves g = (removelast (curves g0) ++ tail)%list
    /\ (curves g0 <> [] -> tail <> [])
    /\ (List.length (curves g0) <= List.length (curves g))%nat.
Proof.
  unfold parse_lines. intro H. inv_bind H. inv_ok H.
  rewrite run_app in Ha. inv_bind Ha.
  destruct (run_curves_frozen post a0 a Ha) as [tail [E N]].
  exists (gdata a0), tail. rewrite Ha0.
  split; [reflexivity |]. split; [exact E |]. split; [exact N |].
  rewrite E, length_app. destruct (curves (gdata a0)) as [| d cs] eqn:K.
  - simpl. lia.
  - assert (T : tail <> []) by (apply N; discriminate).
    rewrite <- K. rewrite (app_removelast_last d) at 1
      by (rewrite K; discriminate).
    rewrite length_app. simpl. destruct tail; [contradiction | simpl; lia].
Qed.

Lemma earlier_curves_final_witness :
  exists g0 tail,
    parse_lines ["#START Curve description 1"; "#START Curve description 2"]
    = OK g0
    /\ curves (set_curves [set_curve_number 1 CurveData_init;
                           set_key " k" (set_curve_number 2 CurveData_init)]
                          GraphData_init)
       = (removelast (curves g0) ++ tail)%list
    /\ (curves g0 <> [] -> tail <> [])
    /\ (List.length (curves g0)
        <= List.length
             (curves (set_curves
                        [set_curve_number 1 CurveData_init;
                         set_key " k" (set_curve_number 2 CurveData_init)]
                        GraphData_init)))%nat.
Proof.
  apply (earlier_curves_final
           ["#START Curve description 1"; "#START Curve description 2"]
           ["#START Curve Legend : k"]).
  reflexivity.
Defined.

(** ** The rows of data *)

Lemma step_data_row (st : state) (line : string) :
  is_data_row st line = true ->
  exists s1,
    preamble st line = OK s1
    /\ step st line = data_row s1 line
    /\ curve (gdata s1) = curve (gdata st)
    /\ curves (gdata s1) = curves (gdata st).
Proof.
  intro D. destruct (preamble_total st line) as [s1 P].
  destruct (preamble_flags _ _ _ P) as [_ [_ [_ [C _]]]].
  exists s1. split; [exact P |]. split; [| split; [| exact C]].
  - unfold step. rewrite P. cbn [bind]. apply data_row_reached.
    rewrite (is_data_row_preamble st s1 line P). exact D.
  - unfold curve. rewrite C. reflexivity.
Qed.

Lemma Forall_forallb_width (rows : list (list float)) (n : Z) :
  Forall (fun r => Np.zlength r = n) rows ->
  forallb (fun r => Np.zlength r =? n) rows = true.
Proof.
  intro F. apply forallb_forall. intros r I. apply Z.eqb_eq.
  rewrite Forall_forall in F. exact (F r I).
Qed.

(** What [data_row] computes when the row is as wide as the data. *)
Lemma put_row_rows (a : ndarray) (row : list float) (n : Z) :
  rows_of_width n a ->
  1 <= n ->
  Np.zlength row = n ->
  exists k a',
    getitem (Np.shape a) 0 = OK k
    /\ (k = 0 -> a' = Arr1 row)
    /\ (k <> 0 -> Np.vstack a row = OK a')
    /\ rows_of a' = (rows_of a ++ [row])%list
    /\ rows_of_width n a'.
Proof.
  intros W Pn L. destruct a as [x | r | rows]; simpl in W.
  - destruct W.
  - destruct r as [| y r].
    + exists 0, (Arr1 row). split; [reflexivity |].
      split; [reflexivity |]. split; [intro N; contradiction N; reflexivity |].
      split; [| right; exact L].
      destruct row; [unfold Np.zlength in L; simpl in L; lia | reflexivity].
    + destruct W as [W | W]; [discriminate W |].
      exists (Np.zlength (y :: r)), (Arr2 [y :: r; row]).
      split; [reflexivity |]. split; [intro Z0; lia |]. split.
      * intros _. unfold Np.vstack. cbn [Np.atleast_2d forallb].
        rewrite W, L, Z.eqb_refl. reflexivity.
      * split; [reflexivity |]. split; [discriminate |].
        repeat constructor; assumption.
  - destruct W as [N F].
    exists (Np.zlength rows), (Arr2 (rows ++ [row])).
    split; [reflexivity |]. split.
    { intro Z0. destruct rows; [contradiction |].
      unfold Np.zlength in Z0. simpl in Z0. lia. }
    split.
    + intros _. unfold Np.vstack. cbn [Np.atleast_2d]. rewrite L.
      rewrite (Forall_forallb_width rows n F). reflexivity.
    + split; [destruct rows; [contradiction | reflexivity] |].
      split; [destruct rows; discriminate |].
      apply Forall_app. split; [exact F | repeat constructor; exact L].
Qed.

Lemma step_data_row_appends
  (st : state) (line : string) (c : CurveData) (row : list float) (n : Z) :
  is_data_row st line = true ->
  curve (gdata st) = OK c ->
  rows_of_width n (data c) ->
  1 <= n ->
  numbers (split_ws line) = OK row ->
  Np.zlength row = n ->
  exists st' a',
    step st line = OK st'
    /\ curves (gdata st')
       = (removelast (curves (gdata st)) ++ [set_data a' c])%list
    /\ curve (gdata st') = OK (set_data a' c)
    /\ rows_of a' = (rows_of (data c) ++ [row])%list
    /\ rows_of_width n a'.
Proof.
  intros D Hc W Pn Hrow L.
  destruct (step_data_row st line D) as [s1 [P [E [Hc1 C]]]].
  rewrite Hc in Hc1.
  destruct (put_row_rows (data c) row n W Pn L)
    as [k [a' [Hk [H0 [H1 [R W']]]]]].
  destruct (update_curve_ok (set_data a') (gdata s1) c Hc1) as [U V].
  exists (with_gdata (set_curves (removelast (curves (gdata s1))
                                  ++ [set_data a' c]) (gdata s1)) s1), a'.
  split.
  - rewrite E. unfold data_row. rewrite Hc1. cbn [bind]. rewrite Hk.
    cbn [bind]. destruct (Z.eqb_spec k 0) as [Z0 | NZ]; simpl negb; cbv iota.
    + rewrite Hrow. cbn [bind]. rewrite <- (H0 Z0), U. reflexivity.
    + cbn [bind]. rewrite Hrow. cbn [bind]. rewrite (H1 NZ).
      cbn [bind]. rewrite U. reflexivity.
  - simpl. rewrite C in *. split; [reflexivity |].
    split; [exact V |]. split; [exact R | exact W'].
Qed.

(** X12: a line handled as a data row, whose tokens are all numbers and
    are as many as the latest curve's data is wide ([n >= 1]; any width
    when the curve has no row yet), is put under the rows of that curve:
    the rows read so far stay as they are, in file order, and no other
    curve and no other field of the curve changes. *)
Theorem data_row_appends
  (st : state) (line : string) (c : CurveData) (row : list float) (n : Z) :
  is_data_row st line = true ->
  curve (gdata st) = OK c ->
  rows_of_width n (data c) ->
  1 <= n ->
  numbers (split_ws line) = OK row ->
  Np.zlength row = n ->
  exists st' a',
    step st line = OK st'
    /\ curves (gdata st')
       = (removelast (curves (gdata st)) ++ [set_data a' c])%list
    /\ curve (gdata st') = OK (set_data a' c)
    /\ rows_of a' = (rows_of (data c) ++ [row])%list
    /\ rows_of_width n a'.
Proof. apply step_data_row_appends. Qed.

Lemma float_of_string_err (s : string) (e : exn) :
  float_of_string s = Err e -> e = ValueError.
Proof.
  unfold float_of_string.
  destruct (drop_underscores None (strip_number s)) as [t |];
    [| intro H; inv_ok H; reflexivity].
  destruct (sign t) as [neg t1].
  destruct (digits 0 0 t1) as [[vi ni] r1].
  destruct r1 as [| [[|] [|] [|] [|] [|] [|] [|] [|]] r]; cbv iota beta;
    try destruct (digits vi 0 r) as [[vf nf] r2];
    repeat match goal with
           | |- context [exponent ?x] => destruct (exponent x)
           | |- context [if ?b then _ else _] => destruct b
           end;
    intro H; try discriminate H; inv_ok H; reflexivity.
Qed.

Lemma numbers_err (items : list string) (e : exn) :
  numbers items = Err e -> e = ValueError.
Proof.
  induction items as [| item items IH]; simpl; [discriminate |].
  unfold number at 1.
  destruct (float_of_string _) as [x | e1] eqn:E; simpl.
  - destruct (numbers items) as [xs | e2]; simpl; [discriminate |].
    intro H. inv_ok H. apply IH. reflexivity.
  - intro H. inv_ok H. exact (float_of_string_err _ _ E).
Qed.

(** X13: a line handled as a data row makes the parse fail with
    [ValueError] when one of its tokens is not a number, and also when
    the latest curve already holds data and the line has another number
    of tokens than that data is wide (so for an empty line in the middle
    of the rows). *)
Theorem data_row_rejected
  (st : state) (line : string) (c : CurveData) (n : Z) :
  is_data_row st line = true ->
  curve (gdata st) = OK c ->
  rows_of_width n (data c) ->
  (forall e, numbers (split_ws line) = Err e -> step st line = Err ValueError)
  /\ (size (data c) <> 0 ->
      Np.zlength (split_ws line) <> n ->
      step st line = Err ValueError).
Proof.
  intros D Hc W.
  destruct (step_data_row st line D) as [s1 [P [E [Hc1 C]]]].
  rewrite Hc in Hc1. rewrite E. unfold data_row. rewrite Hc1. cbn [bind].
  assert (K : exists k, getitem (Np.shape (data c)) 0 = OK k
                        /\ (size (data c) <> 0 -> k <> 0)).
  { destruct (data c) as [x | r | rows]; simpl in W; [destruct W | |].
    - exists (Np.zlength r). split; [reflexivity |].
      unfold size. simpl. lia.
    - exists (Np.zlength rows). split; [reflexivity |].
      intros _. destruct W as [N _]. destruct rows; [contradiction |].
      unfold Np.zlength. simpl. lia. }
  destruct K as [k [Hk Nk]]. rewrite Hk. cbn [bind]. split.
  - intros e He. rewrite (numbers_err _ _ He) in He.
    destruct (negb (k =? 0)); cbn [bind]; rewrite He; reflexivity.
  - intros S L. specialize (Nk S).
    destruct (Z.eqb_spec k 0) as [Z0 | _]; [contradiction |].
    simpl negb. cbv iota. cbn [bind].
    destruct (numbers (split_ws line)) as [row | e] eqn:Hrow.
    + cbn [bind]. pose proof (numbers_length _ _ Hrow) as Lr.
      unfold Np.vstack.
      destruct (forallb _ _) eqn:F; [| reflexivity].
      apply forallb_width in F. exfalso.
      destruct (data c) as [x | r | rows]; simpl in W, F, Hk.
      * destruct W.
      * inversion F as [| ? ? Er _]. subst.
        destruct W as [-> | W]; [| lia].
        unfold size in S. simpl in S. contradiction S. reflexivity.
      * destruct W as [N Fn]. destruct rows as [| r0 rows]; [contradiction |].
        inversion F as [| ? ? Er _]. inversion Fn as [| ? ? En _]. lia.
    + rewrite (numbers_err _ _ Hrow). reflexivity.
Qed.

Lemma data_row_appends_witness :
  exists st' a',
    step (in_data_block (Arr1 [float_of_pos 1; float_of_pos 2])) "3 4,5"
    = OK st'
    /\ curves (gdata st')
       = (removelast
            (curves (gdata (in_data_block
                              (Arr1 [float_of_pos 1; float_of_pos 2]))))
          ++ [set_data a'
                (set_data (Arr1 [float_of_pos 1; float_of_pos 2])
                   (set_curve_number 1 CurveData_init))])%list
    /\ curve (gdata st')
       = OK (set_data a'
               (set_data (Arr1 [float_of_pos 1; float_of_pos 2])
                  (set_curve_number 1 CurveData_init)))
    /\ rows_of a'
       = (rows_of (Arr1 [float_of_pos 1; float_of_pos 2])
          ++ [[float_of_pos 3; S754_finite false 5066549580791808 (-50)]])%list
    /\ rows_of_width 2 a'.
Proof.
  apply (data_row_appends
           (in_data_block (Arr1 [float_of_pos 1; float_of_pos 2])) "3 4,5"
           (set_data (Arr1 [float_of_pos 1; float_of_pos 2])
              (set_curve_number 1 CurveData_init))
           [float_of_pos 3; S754_finite false 5066549580791808 (-50)] 2);
    try reflexivity.
  - right. reflexivity.
  - discriminate.
Defined.

Lemma data_row_rejected_witness :
  (forall e, numbers (split_ws "") = Err e ->
             step (in_data_block (Arr1 [float_of_pos 1])) "" = Err ValueError)
  /\ (size (Arr1 [float_of_pos 1]) <> 0 ->
      Np.zlength (split_ws "") <> 1 ->
      step (in_data_block (Arr1 [float_of_pos 1])) "" = Err ValueError).
Proof.
  apply (data_row_rejected (in_data_block (Arr1 [float_of_pos 1])) ""
           (set_data (Arr1 [float_of_pos 1])
              (set_curve_number 1 CurveData_init)) 1);
    try reflexivity.
  right. reflexivity.
Defined.

Lemma split_ws_from_head (s cur : string) :
  is_empty cur = false ->
  exists more toks, split_ws_from None cur s = (cur ++ more) :: toks.
Proof.
  revert cur. induction s as [| c s IH]; intros cur E; simpl; rewrite E.
  - exists "", []. rewrite string_app_nil. reflexivity.
  - destruct (isspace c).
    + exists "". eexists. rewrite string_app_nil. reflexivity.
    + destruct (IH (snoc cur c) (snoc_not_empty cur c)) as [more [toks H]].
      exists (String c more), toks. rewrite H. unfold snoc.
      rewrite string_app_assoc. reflexivity.
Qed.

Lemma number_hash (more : string) : number (String "#" more) = Err ValueError.
Proof.
  unfold number, float_of_string, strip_number. simpl replace.
  simpl lstrip_number. cbn [rstrip_number]. rewrite andb_false_r.
  cbn [drop_underscores]. simpl.
  destruct (drop_underscores _ _) as [t |]; reflexivity.
Qed.

(** A line that starts with [#] does not read as a row of numbers. *)
Lemma numbers_hash_line (rest : string) :
  numbers (split_ws (String "#" rest)) = Err ValueError.
Proof.
  unfold split_ws. simpl.
  destruct (split_ws_from_head rest "#" eq_refl) as [more [toks ->]].
  simpl. rewrite number_hash. reflexivity.
Qed.

(** X14: while the data of a curve is read, an end tag that does not
    name the number of the latest curve is taken for a row of data and
    makes the parse fail with [ValueError]; for a curve numbered 0 every
    end tag does, so its data block cannot be closed. *)
Theorem foreign_end_tag_fails (st : state) (line : string) (c : CurveData) :
  reading_comment st = false ->
  reading_axes_description st = -1 ->
  reading_data st = true ->
  curve (gdata st) = OK c ->
  well_shaped (data c) ->
  startswith line "#END" = true ->
  curve_number c = 0
  \/ startswith line ("#END Curve " ++ format_d (curve_number c) ++ " -")
     = false ->
  step st line = Err ValueError.
Proof.
  intros Hrc Hax Hrd Hc W H N.
  assert (Hs : startswith line "#START" = false)
    by (apply (tag_excl _ _ _ H); intro; reflexivity).
  assert (D : is_data_row st line = true).
  { unfold is_data_row, is_points_tag, is_data_end.
    change "#START comment" with ("#START" ++ " comment").
    change "#START axis description" with ("#START" ++ " axis description").
    change "#START Curve description" with ("#START" ++ " Curve description").
    change "#START Date:" with ("#START" ++ " Date:").
    change "#START Time:" with ("#START" ++ " Time:").
    change "#START Curve Legend " with ("#START" ++ " Curve Legend ").
    change "#START Curve Data" with ("#START" ++ " Curve Data").
    change ("#START Curve " ++ format_d (curve_number c))
      with ("#START" ++ " Curve " ++ format_d (curve_number c)).
    rewrite !(startswith_longer _ "#START" _ Hs).
    rewrite Hrc, Hax, Hrd, Hc. cbn [bind].
    change ("#START Curve " ++ format_d (curve_number c))
      with ("#START" ++ " Curve " ++ format_d (curve_number c)).
    rewrite !(startswith_longer _ "#START" _ Hs).
    destruct (GraphData_bool (gdata st));
      destruct (Z.eqb_spec (curve_number c) 0) as [Z0 | NZ];
      try reflexivity;
      destruct N as [N | N]; try contradiction; rewrite N; reflexivity. }
  destruct (step_data_row st line D) as [s1 [P [E [Hc1 C]]]].
  rewrite Hc in Hc1. rewrite E. unfold data_row. rewrite Hc1. cbn [bind].
  apply startswith_inv in H. destruct H as [rest ->].
  change ("#END" ++ rest) with (String "#" ("END" ++ rest)).
  rewrite numbers_hash_line.
  destruct (data c) as [x | r | rows]; [destruct W | |].
  - change (getitem (Np.shape (Arr1 r)) 0) with (OK (Np.zlength r)).
    cbn [bind]. destruct (negb (Np.zlength r =? 0)); reflexivity.
  - change (getitem (Np.shape (Arr2 rows)) 0) with (OK (Np.zlength rows)).
    cbn [bind]. destruct (negb (Np.zlength rows =? 0)); reflexivity.
Qed.

Lemma foreign_end_tag_fails_witness :
  step (in_data_block (Arr1 [float_of_pos 1])) "#END Curve 2 -"
  = Err ValueError.
Proof.
  apply (foreign_end_tag_fails (in_data_block (Arr1 [float_of_pos 1]))
           "#END Curve 2 -"
           (set_data (Arr1 [float_of_pos 1])
              (set_curve_number 1 CurveData_init)));
    try reflexivity; try exact I.
  right. reflexivity.
Defined.

(** ** Integers and their decimal form *)
















(** ** A whole curve block *)














(** ** A whole axis description *)






(** ** The tags of a curve *)

Lemma split_on_first (sep : ascii) (p v : string) :
  occurs sep p = false ->
  split_on sep (Some 1%nat) (p ++ String sep v) = [p; v]
  /\ split_on sep (Some 1%nat) p = [p].
Proof.
  induction p as [| c p IH]; intro H.
  - simpl. rewrite Ascii.eqb_refl. simpl. rewrite split_on_zero.
    split; reflexivity.
  - simpl in H. apply orb_false_iff in H. destruct H as [Hc Hp].
    destruct (IH Hp) as [E1 E2]. simpl. rewrite Hc, E1, E2.
    split; reflexivity.
Qed.

Lemma step_curve_date (st : state) (line : string) :
  reading_comment st = false ->
  reading_axes_description st = -1 ->
  startswith line "#START Date:" = true ->
  step st line = curve_date (with_first_lines false st) line.
Proof.
  intros Hrc Hax H. unfold step.
  assert (Hs : startswith line "#START" = true).
  { apply startswith_inv in H. destruct H as [rest ->]. reflexivity. }
  rewrite (preamble_start _ _ Hs). cbn [bind]. unfold body.
  simpl reading_comment. simpl reading_axes_description. rewrite Hrc, Hax.
  other_tag H "#START comment". other_tag H "#START axis description".
  other_tag H "#START Curve description". rewrite H. reflexivity.
Qed.

Lemma step_curve_legend (st : state) (line : string) :
  reading_comment st = false ->
  reading_axes_description st = -1 ->
  startswith line "#START Curve Legend " = true ->
  step st line = curve_legend (with_first_lines false st) line.
Proof.
  intros Hrc Hax H. unfold step.
  assert (Hs : startswith line "#START" = true).
  { apply startswith_inv in H. destruct H as [rest ->]. reflexivity. }
  rewrite (preamble_start _ _ Hs). cbn [bind]. unfold body.
  simpl reading_comment. simpl reading_axes_description. rewrite Hrc, Hax.
  other_tag H "#START comment". other_tag H "#START axis description".
  other_tag H "#START Curve description". other_tag H "#START Date:".
  other_tag H "#START Time:". rewrite H. reflexivity.
Qed.

(** X18: outside a comment and the axis description, with a latest
    curve [c]: a curve-date line sets the start date of [c] to all the
    text after the tag's colon, later colons included; a curve-legend line
    sets the key of [c] to the text after its first colon, and makes the
    parse fail with [IndexError] when it holds no colon.  No other curve
    changes. *)
Theorem curve_date_and_legend (st : state) (c : CurveData) :
  reading_comment st = false ->
  reading_axes_description st = -1 ->
  curve (gdata st) = OK c ->
  (forall v, exists st',
      step st ("#START Date:" ++ v) = OK st'
      /\ curves (gdata st')
         = (removelast (curves (gdata st)) ++ [set_start_date v c])%list)
  /\ (forall a v,
         occurs ":" a = false ->
         exists st',
           step st ("#START Curve Legend " ++ a ++ String ":" v) = OK st'
           /\ curves (gdata st')
              = (removelast (curves (gdata st)) ++ [set_key v c])%list)
  /\ (forall a,
         occurs ":" a = false ->
         step st ("#START Curve Legend " ++ a) = Err IndexError).
Proof.
  intros Hrc Hax Hc. split; [| split].
  - intro v.
    rewrite (step_curve_date st _ Hrc Hax (startswith_app "#START Date:" v)).
    unfold curve_date, after_colon.
    destruct (split_on_first ":" "#START Date" v eq_refl) as [E _].
    change ("#START Date:" ++ v) with ("#START Date" ++ String ":" v).
    rewrite E.
    change (getitem ["#START Date"; v] 1) with (OK v). cbn [bind].
    destruct (update_curve_ok (set_start_date v) (gdata st) c Hc) as [U _].
    change (gdata (with_first_lines false st)) with (gdata st).
    rewrite U. cbn [bind]. eexists. split; reflexivity.
  - intros a v Ha.
    assert (Hp : occurs ":" ("#START Curve Legend " ++ a) = false)
      by exact Ha.
    destruct (split_on_first ":" _ v Hp) as [E _].
    rewrite <- string_app_assoc.
    rewrite (step_curve_legend st _ Hrc Hax)
      by (rewrite string_app_assoc; apply startswith_app).
    unfold curve_legend, after_colon. rewrite E.
    change (getitem ["#START Curve Legend " ++ a; v] 1) with (OK v).
    cbn [bind].
    destruct (update_curve_ok (set_key v) (gdata st) c Hc) as [U _].
    change (gdata (with_first_lines false st)) with (gdata st).
    rewrite U. cbn [bind]. eexists. split; reflexivity.
  - intros a Ha.
    assert (Hp : occurs ":" ("#START Curve Legend " ++ a) = false)
      by exact Ha.
    destruct (split_on_first ":" _ "" Hp) as [_ E].
    rewrite (step_curve_legend st _ Hrc Hax) by apply startswith_app.
    unfold curve_legend, after_colon. rewrite E. reflexivity.
Qed.

Lemma curve_date_and_legend_witness :
  (forall v, exists st',
      step (in_data_block Np.empty0) ("#START Date:" ++ v) = OK st'
      /\ curves (gdata st')
         = (removelast (curves (gdata (in_data_block Np.empty0)))
            ++ [set_start_date v
                  (set_data Np.empty0 (set_curve_number 1 CurveData_init))])%list)
  /\ (forall a v,
         occurs ":" a = false ->
         exists st',
           step (in_data_block Np.empty0)
                ("#START Curve Legend " ++ a ++ String ":" v) = OK st'
           /\ curves (gdata st')
              = (removelast (curves (gdata (in_data_block Np.empty0)))
                 ++ [set_key v
                       (set_data Np.empty0
                          (set_curve_number 1 CurveData_init))])%list)
  /\ (forall a,
         occurs ":" a = false ->
         step (in_data_block Np.empty0) ("#START Curve Legend " ++ a)
         = Err IndexError).
Proof.
  apply (curve_date_and_legend (in_data_block Np.empty0)
           (set_data Np.empty0 (set_curve_number 1 CurveData_init)));
    reflexivity.
Defined.

Lemma number_err (t : string) (e : exn) : number t = Err e -> e = ValueError.
Proof. apply float_of_string_err. Qed.

(** X19: outside a comment and the axis description, a curve-time line
    whose text between its first colon and the next holds fewer than two
    tokens (so clock values written with colons) makes the parse fail with
    [IndexError], and one whose second or first token is not a number with
    [ValueError], whether a curve exists or not. *)
Theorem curve_time_rejected (st : state) (line seg : string) :
  reading_comment st = false ->
  reading_axes_description st = -1 ->
  startswith line "#START Time:" = true ->
  getitem (split_on ":" None line) 1 = OK seg ->
  (Np.zlength (split_ws seg) <= 1 -> step st line = Err IndexError)
  /\ (forall t0 t1 more e,
         split_ws seg = t0 :: t1 :: more ->
         number t1 = Err e ->
         step st line = Err ValueError)
  /\ (forall t0 t1 more x1 e,
         split_ws seg = t0 :: t1 :: more ->
         number t1 = OK x1 ->
         number t0 = Err e ->
         step st line = Err ValueError).
Proof.
  intros Hrc Hax H Hseg. rewrite (step_curve_time st line Hrc Hax H).
  unfold curve_time. rewrite Hseg. cbn [bind]. split; [| split].
  - intro L. rewrite (getitem_beyond _ 1 L). reflexivity.
  - intros t0 t1 more e E H1. rewrite E.
    pose proof (getitem_nth_error (t0 :: t1 :: more) 1 t1 eq_refl) as G1.
    simpl Z.of_nat in G1. rewrite G1. cbn [bind].
    rewrite (number_err _ _ H1) in H1. rewrite H1. reflexivity.
  - intros t0 t1 more x1 e E H1 H0. rewrite E.
    pose proof (getitem_nth_error (t0 :: t1 :: more) 1 t1 eq_refl) as G1.
    pose proof (getitem_nth_error (t0 :: t1 :: more) 0 t0 eq_refl) as G0.
    simpl Z.of_nat in G1, G0. rewrite G1. cbn [bind]. rewrite H1.
    cbn [bind]. rewrite G0. cbn [bind].
    rewrite (number_err _ _ H0) in H0. rewrite H0. reflexivity.
Qed.

Lemma curve_time_rejected_witness :
  (Np.zlength (split_ws " 10") <= 1 ->
   step (in_data_block Np.empty0) "#START Time: 10:30:00 11:00:00"
   = Err IndexError)
  /\ (forall t0 t1 more e,
         split_ws " 10" = t0 :: t1 :: more ->
         number t1 = Err e ->
         step (in_data_block Np.empty0) "#START Time: 10:30:00 11:00:00"
         = Err ValueError)
  /\ (forall t0 t1 more x1 e,
         split_ws " 10" = t0 :: t1 :: more ->
         number t1 = OK x1 ->
         number t0 = Err e ->
         step (in_data_block Np.empty0) "#START Time: 10:30:00 11:00:00"
         = Err ValueError).
Proof.
  apply (curve_time_rejected (in_data_block Np.empty0)
           "#START Time: 10:30:00 11:00:00" " 10");
    reflexivity.
Defined.














(** ** Lines between the blocks *)

Lemma is_points_tag_no_start (st : state) (line : string) :
  startswith line "#START" = false ->
  is_points_tag st line = OK false.
Proof.
  intro H. unfold is_points_tag, GraphData_bool.
  destruct (curves (gdata st)) as [| d cs] eqn:E; [reflexivity |].
  assert (N : curves (gdata st) <> []) by (rewrite E; discriminate).
  rewrite (curve_last (gdata st) d N). cbn [bind].
  change ("#START Curve "
          ++ format_d (curve_number (last (curves (gdata st)) d)))
    with ("#START"
          ++ " Curve " ++ format_d (curve_number (last (curves (gdata st)) d))).
  rewrite (startswith_longer _ "#START" _ H).
  destruct (curve_number _ =? 0); reflexivity.
Qed.

(** X21: while no comment, no axis description and no data is being
    read, a line that does not start with [#START] is passed over without
    error, whatever it holds and whether curves exist or not: it changes
    nothing but, before the first tag, a preamble field. *)
Theorem unknown_line_ignored (st : state) (line : string) :
  reading_comment st = false ->
  reading_axes_description st = -1 ->
  reading_data st = false ->
  startswith line "#START" = false ->
  exists st',
    step st line = OK st'
    /\ preamble st line = OK st'
    /\ names (gdata st') = names (gdata st)
    /\ units (gdata st') = units (gdata st)
    /\ curves (gdata st') = curves (gdata st)
    /\ comment (gdata st') = comment (gdata st)
    /\ first_lines st' = first_lines st
    /\ reading_comment st' = false
    /\ reading_axes_description st' = -1
    /\ reading_data st' = false
    /\ (first_lines st = false -> st' = st).
Proof.
  intros Hrc Hax Hrd H.
  destruct (preamble_total st line) as [s1 P].
  destruct (preamble_flags _ _ _ P) as [R [X [D [C [N [U M]]]]]].
  pose proof (preamble_first_lines _ _ _ H P) as F.
  rewrite Hrc in R. rewrite Hax in X. rewrite Hrd in D.
  exists s1. split.
  - unfold step. rewrite P. cbn [bind]. unfold body.
    change "#START comment" with ("#START" ++ " comment").
    change "#START axis description" with ("#START" ++ " axis description").
    change "#START Curve description" with ("#START" ++ " Curve description").
    change "#START Date:" with ("#START" ++ " Date:").
    change "#START Time:" with ("#START" ++ " Time:").
    change "#START Curve Legend " with ("#START" ++ " Curve Legend ").
    change "#START Curve Data" with ("#START" ++ " Curve Data").
    rewrite !(startswith_longer _ "#START" _ H).
    rewrite R, X, D. simpl negb. cbv iota.
    rewrite (is_points_tag_no_start s1 line H). reflexivity.
  - split; [exact P |]. repeat (split; [assumption |]).
    intro F0. unfold preamble in P. rewrite H, F0 in P. inv_ok P.
    reflexivity.
Qed.

Lemma unknown_line_ignored_witness :
  exists st',
    step (with_reading_data false (in_data_block Np.empty0))
         "#END Curve 3 - 1,x" = OK st'
    /\ preamble (with_reading_data false (in_data_block Np.empty0))
                "#END Curve 3 - 1,x" = OK st'
    /\ names (gdata st')
       = names (gdata (with_reading_data false (in_data_block Np.empty0)))
    /\ units (gdata st')
       = units (gdata (with_reading_data false (in_data_block Np.empty0)))
    /\ curves (gdata st')
       = curves (gdata (with_reading_data false (in_data_block Np.empty0)))
    /\ comment (gdata st')
       = comment (gdata (with_reading_data false (in_data_block Np.empty0)))
    /\ first_lines st'
       = first_lines (with_reading_data false (in_data_block Np.empty0))
    /\ reading_comment st' = false
    /\ reading_axes_description st' = -1
    /\ reading_data st' = false
    /\ (first_lines (with_reading_data false (in_data_block Np.empty0))
        = false ->
        st' = with_reading_data false (in_data_block Np.empty0)).
Proof.
  apply (unknown_line_ignored
           (with_reading_data false (in_data_block Np.empty0))
           "#END Curve 3 - 1,x");
    reflexivity.
Defined.

(** * The claims that rest on the lemmas above *)

(** ** C10: curve tags before any curve *)





(** ** C6: the value a channel lookup returns *)

Lemma index_from_first (l : list string) (x : string) (i col : Z) :
  index_from l x i = OK col ->
  forall k, (k < Z.to_nat (col - i))%nat -> nth_error l k <> Some x.
Proof.
  revert i. induction l as [| y l IH]; intros i H k Hk; simpl in H;
    [discriminate H |].
  destruct (String.eqb_spec y x) as [-> | N].
  - inv_ok H. lia.
  - destruct (index_from_spec _ _ _ _ H) as [L _].
    destruct k as [| k]; simpl.
    + intro E. injection E as E. exact (N E).
    + apply (IH (i + 1) H). lia.
Qed.

(** The array an in-range index along the last axis gives: the entry of
    the row for a one-dimensional array, the column for a
    two-dimensional one. *)
Lemma getitem_last_exact (a : ndarray) (col : Z) :
  rectangular a ->
  0 <= col ->
  col < ncols a ->
  (forall r, a = Arr1 r ->
             Np.getitem_last a col = OK (Arr0 (nth (Z.to_nat col) r S754_nan)))
  /\ (forall rows, a = Arr2 rows ->
                   Np.getitem_last a col = OK (Arr1 (column col rows))).
Proof.
  intros [n W] P R. split.
  - intros r ->. unfold ncols in R. simpl in R. simpl.
    rewrite (getitem_in_range r col S754_nan) by lia. reflexivity.
  - intros rows ->. simpl in W. destruct W as [N F].
    destruct rows as [| r0 rows]; [contradiction |].
    assert (E : Np.zlength r0 = n) by (inversion F; assumption).
    unfold ncols in R. simpl in R. simpl. rewrite E in *.
    destruct (Z.ltb_spec col (- n)) as [B | _]; [lia |].
    destruct (Z.leb_spec n col) as [B | _]; [lia |]. simpl orb. cbv iota.
    change (let* x := getitem r0 col in
            let* xs := Np.take_column col rows in OK (x :: xs))
      with (Np.take_column col (r0 :: rows)).
    rewrite (take_column_width col n (r0 :: rows)) by (lia || exact F).
    reflexivity.
Qed.

(** C6, amended: for a parsed file, the lookup of [(n, channel)] works on
    the first position [col] of [channel] in [names] and on the first
    curve [c] numbered [n].  The data of [c] is never a scalar: it is
    one-dimensional (no row, or the first row alone) or two-dimensional
    with two rows or more.  When [col] is below the number of columns of
    the data, the lookup returns the zero-dimensional scalar holding
    entry [col] of the row for one-dimensional data, and the
    one-dimensional array of the entries [col] of the rows, top to
    bottom, for two-dimensional data; when the data has no column [col]
    (as for a curve without rows) it fails with [IndexError].  It fails
    with [ValueError] when [channel] is not one of [names], whatever the
    curves are, and with [IndexError] when [channel] is one of [names]
    and no curve is numbered [n]. *)
Theorem channel_lookup
  (content : string) (g : GraphData) (n : Z) (channel : string) :
  read_grd content = OK g ->
  (forall col c,
      Py.index (names g) channel = OK col ->
      first_curve (curves g) n = Some c ->
      0 <= col
      /\ nth_error (names g) (Z.to_nat col) = Some channel
      /\ (forall k, (k < Z.to_nat col)%nat ->
                    nth_error (names g) k <> Some channel)
      /\ ((exists r, data c = Arr1 r)
          \/ (exists rows, data c = Arr2 rows
                           /\ (2 <= List.length rows)%nat))
      /\ (col < ncols (data c) ->
          (forall r,
              data c = Arr1 r ->
              GraphData_getitem g (n, channel)
              = OK (Arr0 (nth (Z.to_nat col) r S754_nan)))
          /\ (forall rows,
                 data c = Arr2 rows ->
                 GraphData_getitem g (n, channel)
                 = OK (Arr1 (column col rows)))
          /\ exists a, GraphData_getitem g (n, channel) = OK a
                       /\ values a = column col (rows_of (data c)))
      /\ (ncols (data c) <= col ->
          GraphData_getitem g (n, channel) = Err IndexError))
  /\ (~ In channel (names g) ->
      GraphData_getitem g (n, channel) = Err ValueError)
  /\ (In channel (names g) ->
      first_curve (curves g) n = None ->
      GraphData_getitem g (n, channel) = Err IndexError).
Proof.
  unfold read_grd, parse_lines. intro H. inv_bind H. inv_ok H.
  assert (F : all_data rectangular a)
    by (apply (run_rectangular _ state_init a) in Ha;
        [exact Ha | constructor]).
  assert (S : all_data well_shaped a)
    by (apply (run_well_shaped _ state_init a) in Ha;
        [exact Ha | constructor]).
  split; [| split].
  - intros col c Hcol Hc.
    destruct (index_from_spec _ _ _ _ Hcol) as [P N].
    pose proof (index_from_first _ _ _ _ Hcol) as Hfirst.
    rewrite Z.sub_0_r in N, Hfirst.
    split; [exact P |]. split; [exact N |]. split; [exact Hfirst |].
    destruct (first_curve_split _ _ _ Hc) as [pre [post [Hcs [E Fp]]]].
    assert (Ic : In c (curves (gdata a)))
      by (rewrite Hcs; apply in_or_app; right; left; reflexivity).
    assert (Rc : rectangular (data c)).
    { unfold all_data in F. rewrite Forall_forall in F. exact (F c Ic). }
    assert (Sc : well_shaped (data c)).
    { unfold all_data in S. rewrite Forall_forall in S. exact (S c Ic). }
    assert (G : GraphData_getitem (gdata a) (n, channel)
                = Np.getitem_last (data c) col).
    { unfold GraphData_getitem. rewrite Hcol. cbn [bind].
      rewrite Hcs, (scan_curves_first pre post c n 0 E Fp).
      pose proof (zlength_nonneg pre) as Hz.
      destruct (Z.eqb_spec (0 + Np.zlength pre) (-1)) as [B | _]; [lia |].
      simpl Z.add. rewrite getitem_middle. reflexivity. }
    rewrite G. split.
    { destruct (data c) as [x | r | rows]; simpl in Sc.
      - destruct Sc.
      - left. exists r. reflexivity.
      - right. exists rows. split; [reflexivity | exact (proj1 Sc)]. }
    destruct (getitem_last_spec (data c) col Rc P) as [In_range Beyond].
    split; [| exact Beyond].
    intro R. destruct (getitem_last_exact (data c) col Rc P R) as [X1 X2].
    split; [exact X1 |]. split; [exact X2 | exact (In_range R)].
  - intro N. unfold GraphData_getitem, Py.index.
    rewrite (index_from_absent _ _ 0 N). reflexivity.
  - intros I Hn. unfold GraphData_getitem, Py.index.
    destruct (index_from_present _ _ 0 I) as [col ->]. cbn [bind].
    rewrite (scan_curves_none _ _ 0 Hn). reflexivity.
Qed.

Lemma channel_lookup_witness :
  (forall col c,
      Py.index (names twins) "Time" = OK col ->
      first_curve (curves twins) 1 = Some c ->
      0 <= col
      /\ nth_error (names twins) (Z.to_nat col) = Some "Time"
      /\ (forall k, (k < Z.to_nat col)%nat ->
                    nth_error (names twins) k <> Some "Time")
      /\ ((exists r, data c = Arr1 r)
          \/ (exists rows, data c = Arr2 rows
                           /\ (2 <= List.length rows)%nat))
      /\ (col < ncols (data c) ->
          (forall r,
              data c = Arr1 r ->
              GraphData_getitem twins (1, "Time")
              = OK (Arr0 (nth (Z.to_nat col) r S754_nan)))
          /\ (forall rows,
                 data c = Arr2 rows ->
                 GraphData_getitem twins (1, "Time")
                 = OK (Arr1 (column col rows)))
          /\ exists a, GraphData_getitem twins (1, "Time") = OK a
                       /\ values a = column col (rows_of (data c)))
      /\ (ncols (data c) <= col ->
          GraphData_getitem twins (1, "Time") = Err IndexError))
  /\ (~ In "Time" (names twins) ->
      GraphData_getitem twins (1, "Time") = Err ValueError)
  /\ (In "Time" (names twins) ->
      first_curve (curves twins) 1 = None ->
      GraphData_getitem twins (1, "Time") = Err IndexError).
Proof.
  apply (channel_lookup twins_file twins 1 "Time"). vm_compute. reflexivity.
Defined.

(** ** C4: the entries an axis line adds *)

Lemma list_ascii_replace (a b : ascii) (s : string) :
  list_ascii_of_string (replace a b s)
  = map (fun c => if Ascii.eqb c a then b else c) (list_ascii_of_string s).
Proof.
  induction s as [| c s IH]; simpl; [reflexivity |].
  rewrite IH. reflexivity.
Qed.

(** C4, as stated, fails: an empty line after the header of the axis
    description adds no entry to [names] and [units]; the parse of the
    file fails with [IndexError]. *)
Lemma axis_description_line_counterexample :
  read_grd blank_axis_file = Err IndexError
  /\ ~ (forall (st : state) (line : string),
           reading_comment st = false ->
           0 < reading_axes_description st ->
           startswith line "#START comment" = false ->
           startswith line "#START axis description" = false ->
           startswith line "#END axis description" = false ->
           exists st',
             step st line = OK st'
             /\ List.length (names (gdata st'))
                = S (List.length (names (gdata st)))
             /\ List.length (units (gdata st'))
                = S (List.length (units (gdata st)))).
Proof.
  split; [vm_compute; reflexivity |].
  intro K.
  destruct (K (with_reading_axes_description 1 state_init) "")
    as [st' [H _]]; try reflexivity.
  vm_compute in H. discriminate H.
Qed.

(** C4, amended: inside the axis description (index [k >= 0], outside a
    comment), take a line that is neither the end tag of the block nor a
    start tag of a comment or of an axis description.  When it is the
    first ([k = 0]) it is skipped.  When it is a later one and holds no
    token, the parse fails with [IndexError].  When it is a later one and
    holds a token, it adds one entry to [names] and one to [units]: the
    name is the last item [t] of the split of the line into at most 11
    items, stripped, with every space character turned into an
    underscore and every other character kept, so that the name holds no
    space; the unit is the item before the last, stripped, when the line
    has 11 tokens or more, and the empty string when it has fewer.  So
    the line ["1 2 3 4 5 6 7 8 9 s Time of day  "] adds the name
    ["Time_of_day"] and the unit ["s"], and the line ["V Voltage"] the
    name ["Voltage"] and the empty unit. *)
Theorem axis_description_line (st : state) (line : string) (k : Z) :
  reading_comment st = false ->
  reading_axes_description st = k ->
  0 <= k ->
  startswith line "#START comment" = false ->
  startswith line "#START axis description" = false ->
  startswith line "#END axis description" = false ->
  (k = 0 ->
   exists st', step st line = OK st'
               /\ names (gdata st') = names (gdata st)
               /\ units (gdata st') = units (gdata st)
               /\ reading_axes_description st' = 1)
  /\ (0 < k -> split_ws line = [] -> step st line = Err IndexError)
  /\ (0 < k ->
      split_ws line <> [] ->
      (List.length (split_ws_max 10 line) <= 11)%nat
      /\ exists st' t name u,
          step st line = OK st'
          /\ getitem (split_ws_max 10 line) (-1) = OK t
          /\ names (gdata st') = (names (gdata st) ++ [name])%list
          /\ units (gdata st') = (units (gdata st) ++ [u])%list
          /\ reading_axes_description st' = k + 1
          /\ name = replace " " "_" (strip t)
          /\ list_ascii_of_string name
             = map (fun c => if Ascii.eqb c " " then "_"%char else c)
                   (list_ascii_of_string (strip t))
          /\ occurs " " name = false
          /\ (10 < Np.zlength (split_ws line) ->
              exists v, getitem (split_ws_max 10 line) (-2) = OK v
                        /\ u = strip v)
          /\ (Np.zlength (split_ws line) <= 10 -> u = "")
          /\ (line = "1 2 3 4 5 6 7 8 9 s Time of day  " ->
              name = "Time_of_day" /\ u = "s")
          /\ (line = "V Voltage" -> name = "Voltage" /\ u = "")).
Proof.
  intros Hrc Hk Pk Hs1 Hs2 He.
  destruct (preamble_total st line) as [s1 P1].
  destruct (preamble_flags _ _ _ P1) as [R [X [_ [_ [N [U _]]]]]].
  rewrite Hrc in R. rewrite Hk in X.
  assert (B : step st line = axis_line s1 line).
  { unfold step. rewrite P1. cbn [bind]. unfold body.
    rewrite Hs1, R, Hs2, X.
    destruct (Z.eqb_spec k (-1)) as [E | _]; [lia | reflexivity]. }
  rewrite B. unfold axis_line. rewrite He, X. split; [| split].
  - intros ->. simpl. rewrite X. eexists.
    split; [reflexivity | split; [exact N | split; [exact U | reflexivity]]].
  - intros Qk Hb.
    destruct (Z.ltb_spec 0 k) as [_ | Bk]; [| lia].
    unfold axis_name.
    assert (E : split_ws_max 10 line = []).
    { apply length_zero_nil. rewrite split_ws_max_length, Hb. reflexivity. }
    rewrite E. reflexivity.
  - intros Qk Ht.
    pose proof (split_ws_max_length 10 line) as L.
    assert (T : (1 <= List.length (split_ws line))%nat).
    { destruct (split_ws line); [contradiction | simpl; lia]. }
    split; [lia |].
    destruct (getitem_negative_ok (split_ws_max 10 line) (-1)) as [t G1].
    { unfold Np.zlength. lia. }
    destruct (Z.ltb_spec 0 k) as [_ | Bk]; [| lia].
    unfold axis_name, axis_unit. rewrite G1. cbn [bind].
    assert (O : occurs " " (replace " " "_" (strip t)) = false)
      by (apply occurs_replace; discriminate).
    destruct (Z.ltb_spec 10 (Np.zlength (split_ws line))) as [W | W].
    + destruct (getitem_negative_ok (split_ws_max 10 line) (-2)) as [v G2].
      { unfold Np.zlength in *. lia. }
      rewrite G2. cbn [bind]. simpl. rewrite X, N, U.
      eexists. exists t, (replace " " "_" (strip t)), (strip v).
      split; [reflexivity |]. split; [reflexivity |].
      split; [reflexivity |]. split; [reflexivity |].
      split; [reflexivity |]. split; [reflexivity |].
      split; [apply list_ascii_replace |]. split; [exact O |].
      split; [intros _; exists v; split; reflexivity |].
      split; [intro; lia |]. split.
      * intro E. rewrite E in G1, G2.
        vm_compute in G1. vm_compute in G2.
        injection G1 as <-. injection G2 as <-.
        split; vm_compute; reflexivity.
      * intro E. rewrite E in W. vm_compute in W. discriminate W.
    + cbn [bind]. simpl. rewrite X, N, U.
      eexists. exists t, (replace " " "_" (strip t)), "".
      split; [reflexivity |]. split; [reflexivity |].
      split; [reflexivity |]. split; [reflexivity |].
      split; [reflexivity |]. split; [reflexivity |].
      split; [apply list_ascii_replace |]. split; [exact O |].
      split; [intro; lia |].
      split; [intros _; reflexivity |]. split.
      * intro E. rewrite E in W. vm_compute in W.
        exfalso. apply W. reflexivity.
      * intro E. rewrite E in G1. vm_compute in G1. injection G1 as <-.
        split; vm_compute; reflexivity.
Qed.

Lemma axis_description_line_witness :
  (1 = 0 ->
   exists st', step (with_reading_axes_description 1 state_init)
                    "1 2 3 4 5 6 7 8 9 s Time of day  " = OK st'
               /\ names (gdata st') = []
               /\ units (gdata st') = []
               /\ reading_axes_description st' = 1)
  /\ (0 < 1 ->
      split_ws "1 2 3 4 5 6 7 8 9 s Time of day  " = [] ->
      step (with_reading_axes_description 1 state_init)
           "1 2 3 4 5 6 7 8 9 s Time of day  " = Err IndexError)
  /\ (0 < 1 ->
      split_ws "1 2 3 4 5 6 7 8 9 s Time of day  " <> [] ->
      (List.length (split_ws_max 10 "1 2 3 4 5 6 7 8 9 s Time of day  ")
       <= 11)%nat
      /\ exists st' t name u,
          step (with_reading_axes_description 1 state_init)
               "1 2 3 4 5 6 7 8 9 s Time of day  " = OK st'
          /\ getitem (split_ws_max 10 "1 2 3 4 5 6 7 8 9 s Time of day  ")
                     (-1) = OK t
          /\ names (gdata st') = ([] ++ [name])%list
          /\ units (gdata st') = ([] ++ [u])%list
          /\ reading_axes_description st' = 1 + 1
          /\ name = replace " " "_" (strip t)
          /\ list_ascii_of_string name
             = map (fun c => if Ascii.eqb c " " then "_"%char else c)
                   (list_ascii_of_string (strip t))
          /\ occurs " " name = false
          /\ (10 < Np.zlength (split_ws "1 2 3 4 5 6 7 8 9 s Time of day  ") ->
              exists v,
                getitem (split_ws_max 10 "1 2 3 4 5 6 7 8 9 s Time of day  ")
                        (-2) = OK v
                /\ u = strip v)
          /\ (Np.zlength (split_ws "1 2 3 4 5 6 7 8 9 s Time of day  ") <= 10
              -> u = "")
          /\ ("1 2 3 4 5 6 7 8 9 s Time of day  "
              = "1 2 3 4 5 6 7 8 9 s Time of day  " ->
              name = "Time_of_day" /\ u = "s")
          /\ ("1 2 3 4 5 6 7 8 9 s Time of day  " = "V Voltage" ->
              name = "Voltage" /\ u = "")).
Proof.
  apply (axis_description_line
           (with_reading_axes_description 1 state_init)
           "1 2 3 4 5 6 7 8 9 s Time of day  " 1);
    try reflexivity.
  discriminate.
Defined.

(** ** C8: two calls of the parser *)

(** *** The heap *)

Lemma store_update_length (a : Store.addr) (o : Store.object) (h : Store.heap) :
  List.length (Store.update a o h) = List.length h.
Proof.
  revert a. induction h as [| x h IH]; intros [| a]; simpl;
    try reflexivity.
  rewrite IH. reflexivity.
Qed.

Lemma store_update_same (a : Store.addr) (o : Store.object) (h : Store.heap) :
  (a < List.length h)%nat -> nth_error (Store.update a o h) a = Some o.
Proof.
  revert a. induction h as [| x h IH]; intros [| a] L; simpl in *;
    try lia; [reflexivity |].
  apply IH. lia.
Qed.

Lemma store_update_other (a b : Store.addr) (o : Store.object)
  (h : Store.heap) :
  a <> b -> nth_error (Store.update a o h) b = nth_error h b.
Proof.
  revert a b. induction h as [| x h IH]; intros [| a] [| b] N; simpl;
    try reflexivity; try congruence.
  apply IH. congruence.
Qed.

Lemma store_update_below (base : nat) (a : Store.addr) (o : Store.object)
  (h : Store.heap) :
  (base <= a)%nat -> firstn base (Store.update a o h) = firstn base h.
Proof.
  revert a h. induction base as [| base IH]; intros a h L;
    [reflexivity |].
  destruct h as [| x h]; [destruct a; reflexivity |].
  destruct a as [| a]; [lia |]. simpl. rewrite IH by lia. reflexivity.
Qed.

Lemma store_alloc_old (h : Store.heap) (o x : Store.object) (a : Store.addr) :
  nth_error h a = Some x -> nth_error (h ++ [o]) a = Some x.
Proof.
  intro H. rewrite nth_error_app1; [exact H |].
  apply nth_error_Some. rewrite H. discriminate.
Qed.

Lemma store_alloc_new (h : Store.heap) (o : Store.object) :
  nth_error (h ++ [o]) (List.length h) = Some o.
Proof.
  rewrite nth_error_app2 by lia. rewrite Nat.sub_diag. reflexivity.
Qed.

Lemma store_alloc_below (base : nat) (h : Store.heap) (o : Store.object) :
  (base <= List.length h)%nat -> firstn base (h ++ [o]) = firstn base h.
Proof.
  intro L. rewrite firstn_app.
  replace (base - List.length h)%nat with 0%nat by lia.
  simpl. apply app_nil_r.
Qed.

Lemma store_held_below (h : Store.heap) (a : Store.addr) (o : Store.object) :
  nth_error h a = Some o -> (a < List.length h)%nat.
Proof. intro H. apply nth_error_Some. rewrite H. discriminate. Qed.

(** *** The monad *)

Lemma store_bind_ok {A B : Type} (m : Store.M A) (k : A -> Store.M B)
  (h h1 : Store.heap) (a : A) :
  m h = Some (h1, OK a) -> Store.bind m k h = k a h1.
Proof. intro H. unfold Store.bind. rewrite H. reflexivity. Qed.

Lemma store_bind_err {A B : Type} (m : Store.M A) (k : A -> Store.M B)
  (h h1 : Store.heap) (e : exn) :
  m h = Some (h1, Err e) -> Store.bind m k h = Some (h1, Err e).
Proof. intro H. unfold Store.bind. rewrite H. reflexivity. Qed.

Lemma store_load_strs (h : Store.heap) (a : Store.addr) (l : list string) :
  nth_error h a = Some (Store.StrList l) ->
  Store.load_strs a h = Some (h, OK l).
Proof.
  intro H. unfold Store.load_strs, Store.bind, Store.load. rewrite H.
  reflexivity.
Qed.

Lemma store_load_refs (h : Store.heap) (a : Store.addr)
  (l : list Store.addr) :
  nth_error h a = Some (Store.RefList l) ->
  Store.load_refs a h = Some (h, OK l).
Proof.
  intro H. unfold Store.load_refs, Store.bind, Store.load. rewrite H.
  reflexivity.
Qed.

Lemma store_load_curve (h : Store.heap) (a : Store.addr) (c : CurveData) :
  nth_error h a = Some (Store.CurveObj c) ->
  Store.load_curve a h = Some (h, OK c).
Proof.
  intro H. unfold Store.load_curve, Store.bind, Store.load. rewrite H.
  reflexivity.
Qed.

Lemma store_load_graph (h : Store.heap) (a : Store.addr)
  (i : Store.instance) :
  nth_error h a = Some (Store.GraphObj i) ->
  Store.load_graph a h = Some (h, OK i).
Proof.
  intro H. unfold Store.load_graph, Store.bind, Store.load. rewrite H.
  reflexivity.
Qed.

Lemma store_store (h : Store.heap) (a : Store.addr) (o x : Store.object) :
  nth_error h a = Some x ->
  Store.store a o h = Some (Store.update a o h, OK tt).
Proof.
  intro H. unfold Store.store.
  destruct (Nat.ltb_spec a (List.length h)) as [_ | N]; [reflexivity |].
  apply store_held_below in H. lia.
Qed.

(** *** The objects of an instance *)

Lemma store_reach_distinct (d : Store.addr) (i : Store.instance)
  (l : list Store.addr) :
  NoDup (Store.reach d i l) ->
  d <> Store.names_at i /\ d <> Store.units_at i
  /\ d <> Store.curves_at i /\ d <> Store.comment_at i
  /\ Store.names_at i <> Store.units_at i
  /\ Store.names_at i <> Store.curves_at i
  /\ Store.names_at i <> Store.comment_at i
  /\ Store.units_at i <> Store.curves_at i
  /\ Store.units_at i <> Store.comment_at i
  /\ Store.curves_at i <> Store.comment_at i
  /\ ~ In d l /\ ~ In (Store.names_at i) l /\ ~ In (Store.units_at i) l
  /\ ~ In (Store.curves_at i) l /\ ~ In (Store.comment_at i) l
  /\ NoDup l.
Proof.
  unfold Store.reach. intro H.
  inversion H as [| ? ? N1 H1]; subst.
  inversion H1 as [| ? ? N2 H2]; subst.
  inversion H2 as [| ? ? N3 H3]; subst.
  inversion H3 as [| ? ? N4 H4]; subst.
  inversion H4 as [| ? ? N5 H5]; subst.
  simpl in N1, N2, N3, N4. intuition congruence.
Qed.

Lemma store_curves_update (h : Store.heap) (a : Store.addr)
  (o : Store.object) (l : list Store.addr) (cs : list CurveData) :
  ~ In a l ->
  Forall2 (fun x c => nth_error h x = Some (Store.CurveObj c)) l cs ->
  Forall2 (fun x c => nth_error (Store.update a o h) x
                      = Some (Store.CurveObj c)) l cs.
Proof.
  intros N F. induction F as [| x c l cs H F IH]; constructor.
  - rewrite store_update_other; [exact H |].
    intro E. apply N. left. symmetry. exact E.
  - apply IH. intro I. apply N. right. exact I.
Qed.

Lemma store_curves_alloc (h : Store.heap) (o : Store.object)
  (l : list Store.addr) (cs : list CurveData) :
  Forall2 (fun x c => nth_error h x = Some (Store.CurveObj c)) l cs ->
  Forall2 (fun x c => nth_error (h ++ [o]) x = Some (Store.CurveObj c)) l cs.
Proof.
  intro F. induction F as [| x c l cs H F IH]; constructor;
    [apply store_alloc_old; exact H | exact IH].
Qed.

Lemma store_reach_above (P : Store.addr -> Prop) (d : Store.addr)
  (i : Store.instance) (l : list Store.addr) :
  Forall P (Store.reach d i l) ->
  P d /\ P (Store.names_at i) /\ P (Store.units_at i)
  /\ P (Store.curves_at i) /\ P (Store.comment_at i) /\ Forall P l.
Proof.
  unfold Store.reach. intro H.
  inversion H as [| ? ? P1 H1]; subst.
  inversion H1 as [| ? ? P2 H2]; subst.
  inversion H2 as [| ? ? P3 H3]; subst.
  inversion H3 as [| ? ? P4 H4]; subst.
  inversion H4 as [| ? ? P5 H5]; subst.
  repeat split; assumption.
Qed.

(** A list of references and the values of the curves behind it end in
    step. *)
Lemma store_latest (P : Store.addr -> CurveData -> Prop)
  (l : list Store.addr) (cs : list CurveData) :
  Forall2 P l cs ->
  (l = [] /\ cs = [])
  \/ exists l0 a cs0 c,
      l = (l0 ++ [a])%list /\ cs = (cs0 ++ [c])%list
      /\ Forall2 P l0 cs0 /\ P a c.
Proof.
  intro F. destruct l as [| x l] using rev_ind.
  - inversion F. left. split; reflexivity.
  - right. apply Forall2_app_inv_l in F.
    destruct F as (cs0 & cs1 & F0 & F1 & ->).
    inversion F1 as [| ? c ? ? Pc F2]; subst. inversion F2; subst.
    exists l, x, cs0, c. repeat split; assumption.
Qed.

Ltac open_rep H :=
  let i := fresh "i" in
  let l := fresh "l" in
  destruct H as (i & l & Hd & Hn & Hu & Hc & Hk & HF & S1 & S2 & S3 & S4
                 & ND & HB);
  pose proof (store_reach_distinct _ _ _ ND)
    as (D1 & D2 & D3 & D4 & D5 & D6 & D7 & D8 & D9 & D10
        & I1 & I2 & I3 & I4 & I5 & NDl);
  pose proof (store_reach_above _ _ _ _ HB)
    as (B1 & B2 & B3 & B4 & B5 & Bl).

Ltac held :=
  first
    [ assumption
    | apply store_update_same; eapply store_held_below; eassumption
    | rewrite store_update_other by congruence; assumption
    | apply store_curves_update; assumption ].

Ltac close_rep i l :=
  exists i, l; simpl;
  repeat match goal with |- _ /\ _ => split end; try held;
  try reflexivity.

(** *** The steps of a computation *)

Lemma simulates_ret {A : Type} (base : nat) (d : Store.addr)
  (g : GraphData) (a : A) :
  Store.simulates base d g (Store.ret a) (OK (a, g)).
Proof.
  intros h R. exists h. split; [reflexivity |].
  split; [reflexivity | exact R].
Qed.

Lemma simulates_lift_err {A : Type} (base : nat) (d : Store.addr)
  (g : GraphData) (e : exn) :
  Store.simulates base d g (Store.lift (A := A) (Err e)) (Err e).
Proof. intros h R. exists h. split; reflexivity. Qed.

Lemma simulates_bind_ok {A B : Type} (base : nat) (d : Store.addr)
  (g g' : GraphData) (m : Store.M A) (k : A -> Store.M B) (a : A)
  (r : result (B * GraphData)) :
  Store.simulates base d g m (OK (a, g')) ->
  Store.simulates base d g' (k a) r ->
  Store.simulates base d g (Store.bind m k) r.
Proof.
  intros Hm Hk h R. destruct (Hm h R) as (h1 & F1 & E1 & R1).
  destruct (Hk h1 R1) as (h2 & F2 & K).
  exists h2. split; [rewrite F2; exact F1 |].
  rewrite (store_bind_ok _ _ _ _ _ E1). exact K.
Qed.

Lemma simulates_bind_err {A B : Type} (base : nat) (d : Store.addr)
  (g : GraphData) (m : Store.M A) (k : A -> Store.M B) (e : exn) :
  Store.simulates base d g m (Err e) ->
  Store.simulates base d g (Store.bind m k) (Err e).
Proof.
  intros Hm h R. destruct (Hm h R) as (h1 & F1 & E1).
  exists h1. split; [exact F1 |].
  apply (store_bind_err _ _ _ _ _ E1).
Qed.

(** *** The operations on the instance *)

Lemma simulates_set_sample_name (base : nat) (d : Store.addr)
  (g : GraphData) (v : string) :
  Store.simulates base d g
    (Store.set_graph_attr (Store.set_sample_name_of v) d)
    (OK (tt, set_sample_name v g)).
Proof.
  intros h R. open_rep R.
  exists (Store.update d (Store.GraphObj (Store.set_sample_name_of v i)) h).
  split; [apply store_update_below; exact B1 |]. split.
  - unfold Store.set_graph_attr.
    rewrite (store_bind_ok _ _ _ _ _ (store_load_graph _ _ _ Hd)).
    apply (store_store _ _ _ _ Hd).
  - close_rep (Store.set_sample_name_of v i) l.
Qed.

Lemma simulates_set_date (base : nat) (d : Store.addr)
  (g : GraphData) (v : string) :
  Store.simulates base d g
    (Store.set_graph_attr (Store.set_date_of v) d)
    (OK (tt, set_date v g)).
Proof.
  intros h R. open_rep R.
  exists (Store.update d (Store.GraphObj (Store.set_date_of v i)) h).
  split; [apply store_update_below; exact B1 |]. split.
  - unfold Store.set_graph_attr.
    rewrite (store_bind_ok _ _ _ _ _ (store_load_graph _ _ _ Hd)).
    apply (store_store _ _ _ _ Hd).
  - close_rep (Store.set_date_of v i) l.
Qed.

Lemma simulates_set_specific_info (base : nat) (d : Store.addr)
  (g : GraphData) (v : string) :
  Store.simulates base d g
    (Store.set_graph_attr (Store.set_specific_info_of v) d)
    (OK (tt, set_specific_info v g)).
Proof.
  intros h R. open_rep R.
  exists (Store.update d (Store.GraphObj (Store.set_specific_info_of v i)) h).
  split; [apply store_update_below; exact B1 |]. split.
  - unfold Store.set_graph_attr.
    rewrite (store_bind_ok _ _ _ _ _ (store_load_graph _ _ _ Hd)).
    apply (store_store _ _ _ _ Hd).
  - close_rep (Store.set_specific_info_of v i) l.
Qed.

Lemma simulates_set_user_info (base : nat) (d : Store.addr)
  (g : GraphData) (v : string) :
  Store.simulates base d g
    (Store.set_graph_attr (Store.set_user_info_of v) d)
    (OK (tt, set_user_info v g)).
Proof.
  intros h R. open_rep R.
  exists (Store.update d (Store.GraphObj (Store.set_user_info_of v i)) h).
  split; [apply store_update_below; exact B1 |]. split.
  - unfold Store.set_graph_attr.
    rewrite (store_bind_ok _ _ _ _ _ (store_load_graph _ _ _ Hd)).
    apply (store_store _ _ _ _ Hd).
  - close_rep (Store.set_user_info_of v i) l.
Qed.

Lemma simulates_names_append (base : nat) (d : Store.addr)
  (g : GraphData) (x : string) :
  Store.simulates base d g (Store.names_append d x)
    (OK (tt, set_names (names g ++ [x]) g)).
Proof.
  intros h R. open_rep R.
  exists (Store.update (Store.names_at i)
                       (Store.StrList (names g ++ [x])) h).
  split; [apply store_update_below; exact B2 |]. split.
  - unfold Store.names_append.
    rewrite (store_bind_ok _ _ _ _ _ (store_load_graph _ _ _ Hd)).
    rewrite (store_bind_ok _ _ _ _ _ (store_load_strs _ _ _ Hn)).
    apply (store_store _ _ _ _ Hn).
  - close_rep i l.
Qed.

Lemma simulates_units_append (base : nat) (d : Store.addr)
  (g : GraphData) (x : string) :
  Store.simulates base d g (Store.units_append d x)
    (OK (tt, set_units (units g ++ [x]) g)).
Proof.
  intros h R. open_rep R.
  exists (Store.update (Store.units_at i)
                       (Store.StrList (units g ++ [x])) h).
  split; [apply store_update_below; exact B3 |]. split.
  - unfold Store.units_append.
    rewrite (store_bind_ok _ _ _ _ _ (store_load_graph _ _ _ Hd)).
    rewrite (store_bind_ok _ _ _ _ _ (store_load_strs _ _ _ Hu)).
    apply (store_store _ _ _ _ Hu).
  - close_rep i l.
Qed.

Lemma simulates_comment_append (base : nat) (d : Store.addr)
  (g : GraphData) (x : string) :
  Store.simulates base d g (Store.comment_append d x)
    (OK (tt, set_comment (comment g ++ [x]) g)).
Proof.
  intros h R. open_rep R.
  exists (Store.update (Store.comment_at i)
                       (Store.StrList (comment g ++ [x])) h).
  split; [apply store_update_below; exact B5 |]. split.
  - unfold Store.comment_append.
    rewrite (store_bind_ok _ _ _ _ _ (store_load_graph _ _ _ Hd)).
    rewrite (store_bind_ok _ _ _ _ _ (store_load_strs _ _ _ Hk)).
    apply (store_store _ _ _ _ Hk).
  - close_rep i l.
Qed.

Lemma simulates_comment_clear (base : nat) (d : Store.addr)
  (g : GraphData) :
  Store.simulates base d g (Store.comment_clear d)
    (OK (tt, set_comment [] g)).
Proof.
  intros h R. open_rep R.
  exists (Store.update (Store.comment_at i) (Store.StrList []) h).
  split; [apply store_update_below; exact B5 |]. split.
  - unfold Store.comment_clear.
    rewrite (store_bind_ok _ _ _ _ _ (store_load_graph _ _ _ Hd)).
    rewrite (store_bind_ok _ _ _ _ _ (store_load_strs _ _ _ Hk)).
    apply (store_store _ _ _ _ Hk).
  - close_rep i l.
Qed.

Lemma simulates_comment_is_space (base : nat) (d : Store.addr)
  (g : GraphData) :
  Store.simulates base d g (Store.comment_is_space d)
    (OK (if list_eq_dec string_dec (comment g) [" "] then true else false,
         g)).
Proof.
  intros h R. exists h. split; [reflexivity |]. split; [| exact R].
  open_rep R. unfold Store.comment_is_space.
  rewrite (store_bind_ok _ _ _ _ _ (store_load_graph _ _ _ Hd)).
  rewrite (store_bind_ok _ _ _ _ _ (store_load_strs _ _ _ Hk)).
  reflexivity.
Qed.

Lemma simulates_graph_bool (base : nat) (d : Store.addr) (g : GraphData) :
  Store.simulates base d g (Store.graph_bool d) (OK (GraphData_bool g, g)).
Proof.
  intros h R. exists h. split; [reflexivity |]. split; [| exact R].
  open_rep R. unfold Store.graph_bool.
  rewrite (store_bind_ok _ _ _ _ _ (store_load_graph _ _ _ Hd)).
  rewrite (store_bind_ok _ _ _ _ _ (store_load_refs _ _ _ Hc)).
  unfold Store.ret, GraphData_bool.
  destruct HF; reflexivity.
Qed.

Lemma simulates_curves_append_new (base : nat) (d : Store.addr)
  (g : GraphData) :
  Store.simulates base d g (Store.curves_append_new d)
    (OK (tt, set_curves (curves g ++ [CurveData_init]) g)).
Proof.
  intros h R. open_rep R.
  pose proof (store_held_below _ _ _ Hd) as Ld.
  exists (Store.update (Store.curves_at i)
            (Store.RefList (l ++ [List.length h]))
            (h ++ [Store.CurveObj CurveData_init])%list).
  assert (Hc' : nth_error (h ++ [Store.CurveObj CurveData_init])
                          (Store.curves_at i) = Some (Store.RefList l))
    by (apply store_alloc_old; exact Hc).
  assert (Fresh : forall a o, nth_error h a = Some o -> a <> List.length h).
  { intros a o Ha. apply store_held_below in Ha. lia. }
  assert (Il : forall a, In a l -> (a < List.length h)%nat).
  { intros a Ia. clear - HF Ia.
    induction HF as [| x c l cs H F IH]; [destruct Ia |].
    destruct Ia as [<- | Ia];
      [exact (store_held_below _ _ _ H) | exact (IH Ia)]. }
  split.
  - rewrite store_update_below by exact B4.
    apply store_alloc_below. lia.
  - split.
    + unfold Store.curves_append_new.
      rewrite (store_bind_ok _ _ _ _ _ (store_load_graph _ _ _ Hd)).
      unfold Store.new_CurveData.
      rewrite (store_bind_ok (Store.alloc _) _ h
                 (h ++ [Store.CurveObj CurveData_init])%list
                 (List.length h) eq_refl).
      rewrite (store_bind_ok _ _ _ _ _ (store_load_refs _ _ _ Hc')).
      apply (store_store _ _ _ _ Hc').
    + exists i, (l ++ [List.length h])%list. simpl.
      repeat match goal with |- _ /\ _ => split end; try assumption.
      * rewrite store_update_other by congruence.
        apply store_alloc_old. exact Hd.
      * rewrite store_update_other by congruence.
        apply store_alloc_old. exact Hn.
      * rewrite store_update_other by congruence.
        apply store_alloc_old. exact Hu.
      * apply store_update_same. rewrite length_app. simpl.
        apply store_held_below in Hc. lia.
      * rewrite store_update_other by congruence.
        apply store_alloc_old. exact Hk.
      * apply Forall2_app.
        -- apply store_curves_update; [exact I4 |].
           apply store_curves_alloc. exact HF.
        -- constructor; [| constructor].
           rewrite store_update_other by exact (Fresh _ _ Hc).
           apply store_alloc_new.
      * unfold Store.reach in *.
        change (NoDup ((d :: Store.names_at i :: Store.units_at i
                          :: Store.curves_at i :: Store.comment_at i :: l)
                       ++ [List.length h])%list).
        apply NoDup_app; [exact ND | repeat constructor; intros [] |].
        intros a Ia [E | []]. subst a.
        simpl in Ia.
        destruct Ia as [E | [E | [E | [E | [E | Ia]]]]].
        -- exact (Fresh _ _ Hd E).
        -- exact (Fresh _ _ Hn E).
        -- exact (Fresh _ _ Hu E).
        -- exact (Fresh _ _ Hc E).
        -- exact (Fresh _ _ Hk E).
        -- apply Il in Ia. lia.
      * unfold Store.reach in *.
        change (Forall (fun a => (base <= a)%nat)
                  ((d :: Store.names_at i :: Store.units_at i
                      :: Store.curves_at i :: Store.comment_at i :: l)
                   ++ [List.length h])%list).
        apply Forall_app. split; [exact HB |].
        constructor; [lia | constructor].
Qed.

(** The latest curve, as a reference and as a value. *)
Lemma simulates_curve_attr {A : Type} (base : nat) (d : Store.addr)
  (g : GraphData) (f : CurveData -> A) :
  Store.simulates base d g (Store.curve_attr f d)
    (let* c := curve g in OK (f c, g)).
Proof.
  intros h R. exists h. split; [reflexivity |].
  pose proof R as R0. open_rep R. unfold Store.curve_attr, Store.curve.
  destruct (store_latest _ _ _ HF)
    as [[-> E] | (l0 & a & cs0 & c & -> & E & F0 & Pa)].
  - unfold curve. rewrite E. simpl.
    unfold Store.bind at 1.
    unfold Store.bind at 1.
    rewrite (store_load_graph _ _ _ Hd).
    rewrite (store_bind_ok _ _ _ _ _ (store_load_refs _ _ _ Hc)).
    reflexivity.
  - unfold curve. rewrite E, getitem_last_app. cbn [bind].
    split; [| exact R0].
    unfold Store.bind at 1.
    unfold Store.bind at 1.
    rewrite (store_load_graph _ _ _ Hd).
    rewrite (store_bind_ok _ _ _ _ _ (store_load_refs _ _ _ Hc)).
    unfold Store.lift. rewrite getitem_last_app.
    rewrite (store_bind_ok _ _ _ _ _ (store_load_curve _ _ _ Pa)).
    reflexivity.
Qed.

Lemma simulates_set_curve_attr (base : nat) (d : Store.addr)
  (g : GraphData) (f : CurveData -> CurveData) :
  Store.simulates base d g (Store.set_curve_attr f d)
    (let* g' := update_curve f g in OK (tt, g')).
Proof.
  intros h R. open_rep R. unfold Store.set_curve_attr, Store.curve.
  destruct (store_latest _ _ _ HF)
    as [[-> E] | (l0 & a & cs0 & c & -> & E & F0 & Pa)].
  - exists h. split; [reflexivity |].
    rewrite (update_curve_nil _ _ E). cbn [bind].
    unfold Store.bind at 1.
    unfold Store.bind at 1.
    rewrite (store_load_graph _ _ _ Hd).
    rewrite (store_bind_ok _ _ _ _ _ (store_load_refs _ _ _ Hc)).
    reflexivity.
  - assert (Cl : curve g = OK c)
      by (unfold curve; rewrite E; apply getitem_last_app).
    destruct (update_curve_ok f g c Cl) as [U _]. rewrite U. cbn [bind].
    rewrite E, removelast_last.
    assert (Ba : (base <= a)%nat).
    { rewrite Forall_forall in Bl. apply Bl. apply in_or_app.
      right. left. reflexivity. }
    assert (Na : ~ In a l0).
    { apply NoDup_remove_2 with (l' := []) in NDl.
      rewrite app_nil_r in NDl. exact NDl. }
    assert (Ia : In a (l0 ++ [a])%list)
      by (apply in_or_app; right; left; reflexivity).
    exists (Store.update a (Store.CurveObj (f c)) h).
    split; [apply store_update_below; exact Ba |]. split.
    + unfold Store.bind at 1.
      unfold Store.bind at 1.
      rewrite (store_load_graph _ _ _ Hd).
      rewrite (store_bind_ok _ _ _ _ _ (store_load_refs _ _ _ Hc)).
      unfold Store.lift. rewrite getitem_last_app.
      rewrite (store_bind_ok _ _ _ _ _ (store_load_curve _ _ _ Pa)).
      apply (store_store _ _ _ _ Pa).
    + exists i, (l0 ++ [a])%list. simpl.
      assert (X : forall b, ~ In b (l0 ++ [a])%list -> a <> b)
        by (intros b Nb Eb; apply Nb; rewrite <- Eb; exact Ia).
      repeat match goal with |- _ /\ _ => split end; try assumption.
      * rewrite store_update_other by (apply X; exact I1). exact Hd.
      * rewrite store_update_other by (apply X; exact I2). exact Hn.
      * rewrite store_update_other by (apply X; exact I3). exact Hu.
      * rewrite store_update_other by (apply X; exact I4). exact Hc.
      * rewrite store_update_other by (apply X; exact I5). exact Hk.
      * apply Forall2_app.
        -- apply store_curves_update; [exact Na | exact F0].
        -- constructor; [| constructor].
           apply store_update_same. exact (store_held_below _ _ _ Pa).
Qed.

Lemma simulates_lift_ok {A : Type} (base : nat) (d : Store.addr)
  (g : GraphData) (a : A) :
  Store.simulates base d g (Store.lift (OK a)) (OK (a, g)).
Proof. exact (simulates_ret base d g a). Qed.

(** One step of a simulation: the first operation of the computation is
    matched with the first operation on values. *)
Ltac sim_go :=
  cbn [bind Store.lower];
  lazymatch goal with
  | |- Store.simulates _ _ _ (Store.ret _) _ =>
      exact (simulates_ret _ _ _ _)
  | |- Store.simulates _ _ _ (Store.bind (Store.lift ?r) _) _ =>
      let E := fresh "E" in
      destruct r eqn:E;
      [ eapply simulates_bind_ok; [apply simulates_lift_ok | sim_go]
      | cbn [bind Store.lower];
        apply simulates_bind_err; apply simulates_lift_err ]
  | |- Store.simulates ?base ?d ?g
         (Store.bind (Store.set_curve_attr ?f _) _) _ =>
      let P := fresh "P" in
      let E := fresh "E" in
      pose proof (simulates_set_curve_attr base d g f) as P;
      destruct (update_curve f g) eqn:E; cbn [bind] in P;
      [ eapply simulates_bind_ok; [exact P | sim_go]
      | cbn [bind Store.lower]; apply simulates_bind_err; exact P ]
  | |- Store.simulates ?base ?d ?g
         (Store.bind (Store.curve_attr ?f _) _) _ =>
      let P := fresh "P" in
      let E := fresh "E" in
      pose proof (simulates_curve_attr base d g f) as P;
      destruct (curve g) eqn:E; cbn [bind] in P;
      [ eapply simulates_bind_ok; [exact P | sim_go]
      | cbn [bind Store.lower]; apply simulates_bind_err; exact P ]
  | |- Store.simulates _ _ _ (Store.bind (Store.set_graph_attr _ _) _) _ =>
      eapply simulates_bind_ok;
      [ first [ apply simulates_set_sample_name | apply simulates_set_date
              | apply simulates_set_specific_info
              | apply simulates_set_user_info ]
      | sim_go ]
  | |- Store.simulates _ _ _ (Store.bind (Store.names_append _ _) _) _ =>
      eapply simulates_bind_ok; [apply simulates_names_append | sim_go]
  | |- Store.simulates _ _ _ (Store.bind (Store.units_append _ _) _) _ =>
      eapply simulates_bind_ok; [apply simulates_units_append | sim_go]
  | |- Store.simulates _ _ _ (Store.bind (Store.comment_append _ _) _) _ =>
      eapply simulates_bind_ok; [apply simulates_comment_append | sim_go]
  | |- Store.simulates _ _ _ (Store.bind (Store.comment_clear _) _) _ =>
      eapply simulates_bind_ok; [apply simulates_comment_clear | sim_go]
  | |- Store.simulates _ _ _ (Store.bind (Store.curves_append_new _) _) _ =>
      eapply simulates_bind_ok; [apply simulates_curves_append_new | sim_go]
  | |- Store.simulates _ _ _ (if ?b then _ else _) _ =>
      destruct b eqn:?; sim_go
  | _ => idtac
  end.

(** *** The line loop *)

Lemma simulates_preamble (base : nat) (d : Store.addr) (st : state)
  (line : string) :
  Store.simulates base d (gdata st)
    (Store.preamble (Store.locals_of d st) line)
    (Store.lower d (preamble st line)).
Proof.
  unfold Store.preamble, preamble.
  cbn [Store.locals_of Store.var_first_lines Store.var_data].
  sim_go.
Qed.

Lemma simulates_comment_line (base : nat) (d : Store.addr) (st : state)
  (line : string) :
  Store.simulates base d (gdata st)
    (Store.comment_line (Store.locals_of d st) line)
    (Store.lower d (OK (comment_line st line))).
Proof.
  unfold Store.comment_line, comment_line.
  cbn [Store.locals_of Store.var_data Store.with_reading_comment].
  destruct (startswith line "#END comment").
  - eapply simulates_bind_ok; [apply simulates_comment_is_space |].
    cbn [gdata with_reading_comment].
    destruct (list_eq_dec string_dec (comment (gdata st)) [" "]); sim_go.
  - sim_go.
Qed.

Lemma simulates_axis_line (base : nat) (d : Store.addr) (st : state)
  (line : string) :
  Store.simulates base d (gdata st)
    (Store.axis_line (Store.locals_of d st) line)
    (Store.lower d (axis_line st line)).
Proof.
  unfold Store.axis_line, axis_line.
  cbn [Store.locals_of Store.var_data Store.var_reading_axes_description].
  destruct (startswith line "#END axis description"); [sim_go |].
  destruct (0 <? reading_axes_description st).
  - destruct (axis_name line) as [name | e] eqn:En; cbn [bind Store.lower].
    + destruct (axis_unit line) as [u | e] eqn:Eu; cbn [bind Store.lower].
      * eapply simulates_bind_ok; [| exact (simulates_ret _ _ _ _)].
        eapply simulates_bind_ok; [apply simulates_lift_ok |].
        eapply simulates_bind_ok; [apply simulates_names_append |].
        eapply simulates_bind_ok; [apply simulates_lift_ok |].
        apply simulates_units_append.
      * apply simulates_bind_err.
        eapply simulates_bind_ok; [apply simulates_lift_ok |].
        eapply simulates_bind_ok; [apply simulates_names_append |].
        apply simulates_bind_err. apply simulates_lift_err.
    + apply simulates_bind_err. apply simulates_bind_err.
      apply simulates_lift_err.
  - cbn [bind Store.lower].
    eapply simulates_bind_ok; [| exact (simulates_ret _ _ _ _)].
    apply simulates_ret.
Qed.

Lemma simulates_curve_description (base : nat) (d : Store.addr) (st : state)
  (line : string) :
  Store.simulates base d (gdata st)
    (Store.curve_description (Store.locals_of d st) line)
    (Store.lower d (curve_description st line)).
Proof.
  unfold Store.curve_description, curve_description.
  cbn [Store.locals_of Store.var_data]. sim_go.
Qed.

Lemma simulates_curve_date (base : nat) (d : Store.addr) (st : state)
  (line : string) :
  Store.simulates base d (gdata st)
    (Store.curve_date (Store.locals_of d st) line)
    (Store.lower d (curve_date st line)).
Proof.
  unfold Store.curve_date, curve_date.
  cbn [Store.locals_of Store.var_data]. sim_go.
Qed.

Lemma simulates_curve_time (base : nat) (d : Store.addr) (st : state)
  (line : string) :
  Store.simulates base d (gdata st)
    (Store.curve_time (Store.locals_of d st) line)
    (Store.lower d (curve_time st line)).
Proof.
  unfold Store.curve_time, curve_time.
  cbn [Store.locals_of Store.var_data]. sim_go.
Qed.

Lemma simulates_curve_legend (base : nat) (d : Store.addr) (st : state)
  (line : string) :
  Store.simulates base d (gdata st)
    (Store.curve_legend (Store.locals_of d st) line)
    (Store.lower d (curve_legend st line)).
Proof.
  unfold Store.curve_legend, curve_legend.
  cbn [Store.locals_of Store.var_data]. sim_go.
Qed.

Lemma simulates_curve_points (base : nat) (d : Store.addr) (st : state)
  (line : string) :
  Store.simulates base d (gdata st)
    (Store.curve_points (Store.locals_of d st) line)
    (Store.lower d (curve_points st line)).
Proof.
  unfold Store.curve_points, curve_points.
  cbn [Store.locals_of Store.var_data]. sim_go.
Qed.

Lemma simulates_is_points_tag (base : nat) (d : Store.addr) (st : state)
  (line : string) :
  Store.simulates base d (gdata st)
    (Store.is_points_tag (Store.locals_of d st) line)
    (let* b := is_points_tag st line in OK (b, gdata st)).
Proof.
  unfold Store.is_points_tag, is_points_tag.
  cbn [Store.locals_of Store.var_data].
  eapply simulates_bind_ok; [apply simulates_graph_bool |].
  destruct (GraphData_bool (gdata st)); [| exact (simulates_ret _ _ _ _)].
  pose proof (simulates_curve_attr base d (gdata st) curve_number) as P.
  destruct (curve (gdata st)) as [c | e] eqn:E; cbn [bind] in *.
  - eapply simulates_bind_ok; [exact P |].
    destruct (curve_number c =? 0); [exact (simulates_ret _ _ _ _) |].
    eapply simulates_bind_ok; [exact P |].
    exact (simulates_ret _ _ _ _).
  - apply simulates_bind_err. exact P.
Qed.

Lemma simulates_is_data_end (base : nat) (d : Store.addr) (st : state)
  (line : string) :
  Store.simulates base d (gdata st)
    (Store.is_data_end (Store.locals_of d st) line)
    (let* b := is_data_end st line in OK (b, gdata st)).
Proof.
  unfold Store.is_data_end, is_data_end.
  cbn [Store.locals_of Store.var_data].
  pose proof (simulates_curve_attr base d (gdata st) curve_number) as P.
  destruct (curve (gdata st)) as [c | e] eqn:E; cbn [bind] in *.
  - eapply simulates_bind_ok; [exact P |].
    destruct (curve_number c =? 0); [exact (simulates_ret _ _ _ _) |].
    eapply simulates_bind_ok; [exact P |].
    exact (simulates_ret _ _ _ _).
  - apply simulates_bind_err. exact P.
Qed.

Lemma simulates_data_row (base : nat) (d : Store.addr) (st : state)
  (line : string) :
  Store.simulates base d (gdata st)
    (Store.data_row (Store.locals_of d st) line)
    (Store.lower d (data_row st line)).
Proof.
  unfold Store.data_row, data_row.
  cbn [Store.locals_of Store.var_data].
  pose proof (simulates_curve_attr base d (gdata st) data) as P.
  destruct (curve (gdata st)) as [c | e] eqn:E; cbn [bind Store.lower] in *.
  - eapply simulates_bind_ok; [exact P |].
    destruct (getitem (Np.shape (data c)) 0) as [n | e] eqn:En;
      cbn [bind Store.lower].
    + eapply simulates_bind_ok; [apply simulates_lift_ok |].
      destruct (negb (n =? 0)).
      * eapply simulates_bind_ok; [exact P |]. sim_go.
      * sim_go.
    + apply simulates_bind_err. apply simulates_lift_err.
  - apply simulates_bind_err. exact P.
Qed.

Lemma simulates_data_line (base : nat) (d : Store.addr) (st : state)
  (line : string) :
  Store.simulates base d (gdata st)
    (Store.data_line (Store.locals_of d st) line)
    (Store.lower d (data_line st line)).
Proof.
  unfold Store.data_line, data_line.
  pose proof (simulates_is_data_end base d st line) as P.
  destruct (is_data_end st line) as [b | e] eqn:E; cbn [bind Store.lower] in *.
  - eapply simulates_bind_ok; [exact P |].
    destruct b; [exact (simulates_ret _ _ _ _) | apply simulates_data_row].
  - apply simulates_bind_err. exact P.
Qed.

Lemma simulates_body (base : nat) (d : Store.addr) (st : state)
  (line : string) :
  Store.simulates base d (gdata st)
    (Store.body (Store.locals_of d st) line)
    (Store.lower d (body st line)).
Proof.
  unfold Store.body, body.
  cbn [Store.locals_of Store.var_reading_comment
       Store.var_reading_axes_description Store.var_reading_data].
  destruct (startswith line "#START comment");
    [exact (simulates_ret _ _ _ _) |].
  destruct (reading_comment st); [apply simulates_comment_line |].
  destruct (startswith line "#START axis description");
    [exact (simulates_ret _ _ _ _) |].
  destruct (negb (reading_axes_description st =? -1));
    [apply simulates_axis_line |].
  destruct (startswith line "#START Curve description");
    [apply simulates_curve_description |].
  destruct (startswith line "#START Date:"); [apply simulates_curve_date |].
  destruct (startswith line "#START Time:"); [apply simulates_curve_time |].
  destruct (startswith line "#START Curve Legend ");
    [apply simulates_curve_legend |].
  pose proof (simulates_is_points_tag base d st line) as P.
  destruct (is_points_tag st line) as [p | e] eqn:E;
    cbn [bind Store.lower] in *.
  - eapply simulates_bind_ok; [exact P |].
    destruct p; [apply simulates_curve_points |].
    destruct (startswith line "#START Curve Data");
      [exact (simulates_ret _ _ _ _) |].
    destruct (reading_data st);
      [apply simulates_data_line | exact (simulates_ret _ _ _ _)].
  - apply simulates_bind_err. exact P.
Qed.

Lemma simulates_step (base : nat) (d : Store.addr) (st : state)
  (line : string) :
  Store.simulates base d (gdata st)
    (Store.step (Store.locals_of d st) line)
    (Store.lower d (step st line)).
Proof.
  unfold Store.step, step.
  pose proof (simulates_preamble base d st line) as P.
  destruct (preamble st line) as [st1 | e] eqn:E; cbn [bind Store.lower] in *.
  - eapply simulates_bind_ok; [exact P | apply simulates_body].
  - apply simulates_bind_err. exact P.
Qed.

Lemma simulates_run (base : nat) (d : Store.addr) (lines : list string)
  (st : state) :
  Store.simulates base d (gdata st)
    (Store.run (Store.locals_of d st) lines)
    (Store.lower d (run st lines)).
Proof.
  revert st. induction lines as [| line lines IH]; intro st; simpl.
  - exact (simulates_ret _ _ _ _).
  - pose proof (simulates_step base d st line) as P.
    destruct (step st line) as [st1 | e] eqn:E; cbn [bind Store.lower] in *.
    + eapply simulates_bind_ok; [exact P | apply IH].
    + apply simulates_bind_err. exact P.
Qed.

(** *** A call of the parser *)

Lemma store_value_of_curves (h : Store.heap) (l : list Store.addr)
  (cs : list CurveData) :
  Forall2 (fun a c => nth_error h a = Some (Store.CurveObj c)) l cs ->
  Store.value_of_curves h l = Some cs.
Proof.
  intro F. induction F as [| a c l cs H F IH]; simpl; [reflexivity |].
  rewrite H, IH. reflexivity.
Qed.

(** The value read off the heap is the value the instance holds. *)
Lemma store_represents_value (base : nat) (h : Store.heap) (d : Store.addr)
  (g : GraphData) :
  Store.represents base h d g -> Store.value_of h d = Some g.
Proof.
  intro R. open_rep R. unfold Store.value_of.
  rewrite Hd, Hn, Hu, Hc, Hk, (store_value_of_curves _ _ _ HF).
  rewrite S1, S2, S3, S4. destruct g. reflexivity.
Qed.

(** Objects allocated later leave the value of an instance as it is. *)
Lemma store_represents_extends (base : nat) (h more : Store.heap)
  (d : Store.addr) (g : GraphData) :
  Store.represents base h d g ->
  Store.represents base (h ++ more)%list d g.
Proof.
  assert (X : forall a o, nth_error h a = Some o ->
                          nth_error (h ++ more) a = Some o).
  { intros a o H. rewrite nth_error_app1; [exact H |].
    exact (store_held_below _ _ _ H). }
  intro R. open_rep R. exists i, l.
  repeat match goal with |- _ /\ _ => split end;
    try assumption; try (apply X; assumption).
  clear - HF X. induction HF as [| a c l cs H F IH]; constructor;
    [apply X; exact H | exact IH].
Qed.

Lemma store_new_GraphData (h : Store.heap) :
  exists h',
    Store.new_GraphData h = Some (h', OK (List.length h + 4)%nat)
    /\ firstn (List.length h) h' = h
    /\ Store.represents (List.length h) h' (List.length h + 4)%nat
         GraphData_init.
Proof.
  set (n := List.length h).
  set (i := {| Store.names_at := n; Store.units_at := (n + 1)%nat;
               Store.curves_at := (n + 2)%nat;
               Store.sample_name_of := ""; Store.date_of := "";
               Store.specific_info_of := ""; Store.user_info_of := "";
               Store.comment_at := (n + 3)%nat |}).
  exists (h ++ [Store.StrList []; Store.StrList []; Store.RefList [];
                Store.StrList []; Store.GraphObj i])%list.
  assert (N : forall k o,
             nth_error [Store.StrList []; Store.StrList [];
                        Store.RefList []; Store.StrList [];
                        Store.GraphObj i] k = Some o ->
             nth_error (h ++ [Store.StrList []; Store.StrList [];
                              Store.RefList []; Store.StrList [];
                              Store.GraphObj i]) (n + k) = Some o).
  { intros k o H. rewrite nth_error_app2 by (unfold n; lia).
    replace (n + k - List.length h)%nat with k by (unfold n; lia).
    exact H. }
  split; [| split].
  - unfold Store.new_GraphData, Store.bind, Store.alloc.
    rewrite !length_app. simpl List.length. fold n.
    rewrite <- !app_assoc. simpl app.
    replace (n + 1 + 1)%nat with (n + 2)%nat by lia.
    replace (n + 2 + 1)%nat with (n + 3)%nat by lia.
    replace (n + 3 + 1)%nat with (n + 4)%nat by lia.
    reflexivity.
  - unfold n. rewrite firstn_app, Nat.sub_diag, firstn_all. simpl.
    apply app_nil_r.
  - exists i, []. simpl.
    repeat match goal with |- _ /\ _ => split end; try reflexivity.
    + apply (N 4%nat). reflexivity.
    + rewrite <- (Nat.add_0_r n) at 1. apply (N 0%nat). reflexivity.
    + apply (N 1%nat). reflexivity.
    + apply (N 2%nat). reflexivity.
    + apply (N 3%nat). reflexivity.
    + constructor.
    + unfold Store.reach. simpl.
      repeat constructor; simpl; intuition lia.
    + unfold Store.reach. simpl. repeat constructor; lia.
Qed.

(** A call of [read_grd] from any heap: it ends, leaves the objects it
    finds as they are, and what it returns holds the value of the parse
    of the text, through objects it has allocated itself. *)
Lemma store_read_grd (content : string) (h : Store.heap) :
  exists h' r,
    Store.read_grd content h = Some (h', r)
    /\ firstn (List.length h) h' = h
    /\ Store.outcome h' r = Some (read_grd content)
    /\ (forall d, r = OK d ->
                  exists g, read_grd content = OK g
                            /\ Store.represents (List.length h) h' d g).
Proof.
  destruct (store_new_GraphData h) as (hA & EA & FA & RA).
  pose proof (simulates_run (List.length h) (List.length h + 4)%nat
                (splitlines (universal_newlines content)) state_init)
    as P.
  destruct (P hA RA) as (h1 & F1 & K). clear P.
  unfold Store.read_grd, read_grd, parse_lines.
  rewrite (store_bind_ok _ _ _ _ _ EA).
  change (Store.locals_init (List.length h + 4)%nat)
    with (Store.locals_of (List.length h + 4)%nat state_init).
  destruct (run state_init (splitlines (universal_newlines content)))
    as [st | e]; cbn [bind Store.lower] in *.
  - destruct K as [E1 R1]. exists h1, (OK (List.length h + 4)%nat).
    rewrite (store_bind_ok _ _ _ _ _ E1).
    split; [reflexivity |]. split.
    { rewrite F1. exact FA. }
    split.
    + simpl. rewrite (store_represents_value _ _ _ _ R1). reflexivity.
    + intros d Ed. injection Ed as <-. exists (gdata st).
      split; [reflexivity | exact R1].
  - exists h1, (Err e). rewrite (store_bind_err _ _ _ _ _ K).
    split; [reflexivity |]. split.
    { rewrite F1. exact FA. }
    split; [reflexivity | intros d Ed; discriminate Ed].
Qed.

Lemma store_prefix (h h' : Store.heap) :
  firstn (List.length h) h' = h ->
  h' = (h ++ skipn (List.length h) h')%list.
Proof.
  intro F. rewrite <- F at 1. symmetry. apply firstn_skipn.
Qed.

(** C8: two calls of the parser on the same text, the second on the heap
    the first has left, give structurally equal results.  Both calls end;
    each returns a reference to an instance whose value, read off the
    heap, is the parse of the text, or both raise the same exception.
    The two instances are distinct objects and share no object: those of
    the second call are allocated after the first call has ended, the
    second call leaves every object it finds as it is, and the value of
    the first result is the same after the second call as before.  The
    result of a call does not depend on the heap it starts from. *)
Theorem read_grd_deterministic (content : string) (h0 : Store.heap) :
  exists h1 r1 h2 r2 o1 o2,
    Store.read_grd content h0 = Some (h1, r1)
    /\ Store.read_grd content h1 = Some (h2, r2)
    /\ Store.outcome h1 r1 = Some o1
    /\ Store.outcome h2 r1 = Some o1
    /\ Store.outcome h2 r2 = Some o2
    /\ outcome_eqb o1 o2 = true
    /\ o1 = read_grd content
    /\ o2 = read_grd content
    /\ firstn (List.length h0) h1 = h0
    /\ firstn (List.length h1) h2 = h1
    /\ (forall d1 d2,
           r1 = OK d1 ->
           r2 = OK d2 ->
           (d1 < List.length h1 <= d2)%nat
           /\ exists g,
               Store.represents (List.length h0) h2 d1 g
               /\ Store.represents (List.length h1) h2 d2 g)
    /\ (forall h : Store.heap,
           exists h' r,
             Store.read_grd content h = Some (h', r)
             /\ Store.outcome h' r = Some (read_grd content)).
Proof.
  destruct (store_read_grd content h0) as (h1 & r1 & E1 & F1 & O1 & R1).
  destruct (store_read_grd content h1) as (h2 & r2 & E2 & F2 & O2 & R2).
  exists h1, r1, h2, r2, (read_grd content), (read_grd content).
  pose proof (store_prefix _ _ F2) as X.
  assert (O12 : Store.outcome h2 r1 = Some (read_grd content)).
  { destruct r1 as [d1 | e]; [| exact O1].
    destruct (R1 d1 eq_refl) as (g & Eg & Rg). rewrite Eg. simpl.
    rewrite X.
    rewrite (store_represents_value _ _ _ _
               (store_represents_extends _ _ _ _ _ Rg)).
    reflexivity. }
  repeat match goal with |- _ /\ _ => split end;
    try assumption; try reflexivity.
  - apply outcome_eqb_refl.
  - intros d1 d2 -> ->.
    destruct (R1 d1 eq_refl) as (g & Eg & Rg).
    destruct (R2 d2 eq_refl) as (g' & Eg' & Rg').
    rewrite Eg in Eg'. injection Eg' as <-.
    split.
    + split.
      * destruct Rg as (i & l & Hd & _). exact (store_held_below _ _ _ Hd).
      * destruct Rg' as (i & l & _ & _ & _ & _ & _ & _ & _ & _ & _ & _
                         & _ & HB).
        inversion HB. assumption.
    + exists g. split; [| exact Rg'].
      rewrite X. apply store_represents_extends. exact Rg.
  - intro h. destruct (store_read_grd content h) as (h' & r & E & _ & O & _).
    exists h', r. split; assumption.
Qed.

(** Two calls on the file of the twin curves, from the empty heap: the
    first result is at address 4, the second at address 11, and both
    hold the parse of the file after the second call. *)
Lemma store_two_calls_twins :
  exists h1 h2,
    Store.read_grd twins_file [] = Some (h1, OK 4%nat)
    /\ Store.read_grd twins_file h1 = Some (h2, OK 11%nat)
    /\ Store.value_of h1 4%nat = Some twins
    /\ Store.value_of h2 4%nat = Some twins
    /\ Store.value_of h2 11%nat = Some twins.
Proof.
  eexists. eexists.
  split; [vm_compute; reflexivity |].
  split; [vm_compute; reflexivity |].
  split; [vm_compute; reflexivity |].
  split; vm_compute; reflexivity.
Qed.
